(** * Control-flow contracts of the MLPerf-HPC training drivers

    A shallow embedding of the orchestration code of
    [openfold/train.py] (argument validation, the validation runner, the
    start-up sequence and the training loop) and of
    [deepCam/driver/inference.py] (the inference driver), together with
    the properties of iteration counting, synchronisation points and
    termination that the specification states about them.

    Tensor computations, datasets, the optimizer and the collective
    primitives are external collaborators: they enter the development as
    the fields of two classes and of the environment of a run, and every
    theorem holds for all of them. *)

From Stdlib Require Import ZArith List String Bool Lia Floats DecimalString.
From ExtLib Require Import Structures.Monad.
Import ListNotations.
Import MonadNotation.
Local Open Scope string_scope.
Local Open Scope monad_scope.
Local Open Scope Z_scope.

Set Implicit Arguments.

(** ** Python exceptions and the effect monads *)

Module Py.

(** The exceptions that the modelled code raises by itself, plus the exit
    of [argparse] on a malformed command line and the errors of the
    library calls that the code lets escape. *)
Inductive exn : Type :=
| AssertionError
| NotImplementedError (msg : string)
| ValueError (msg : string)
| RuntimeError (msg : string)
| KeyError (key : string)
| StopIteration
| IndexError
| UnboundLocalError (name : string)
| ZeroDivisionError
| SystemExit (code : Z).

Inductive result (A : Type) : Type :=
| Ok (a : A)
| Raise (e : exn).
Arguments Ok {A} a.
Arguments Raise {A} e.

Definition is_ok {A} (r : result A) : bool :=
  match r with Ok _ => true | Raise _ => false end.

#[global] Instance Monad_result : Monad result :=
  {| ret := fun _ a => Ok a;
     bind := fun _ _ m k => match m with Ok a => k a | Raise e => Raise e end |}.

(** Code with side effects: a computation transforms a state [S] and
    either returns or raises.  The state reached is kept when an
    exception propagates, as it is in Python. *)
Definition M (S A : Type) : Type := S -> S * result A.

#[global] Instance Monad_M (S : Type) : Monad (M S) :=
  {| ret := fun _ a s => (s, Ok a);
     bind := fun _ _ m k s =>
               match m s with
               | (s', Ok a) => k a s'
               | (s', Raise e) => (s', Raise e)
               end |}.

Definition raise {S A} (e : exn) : M S A := fun s => (s, Raise e).
Definition get {S} : M S S := fun s => (s, Ok s).
Definition modify {S} (f : S -> S) : M S unit := fun s => (f s, Ok tt).
Definition lift {S A} (r : result A) : M S A := fun s => (s, r).

(** [assert b] *)
Definition assert (b : bool) : result unit :=
  if b then Ok tt else Raise AssertionError.

(** [a % b] on Python integers: the result has the sign of the divisor
    (floored division, which is [Z.modulo]); a zero divisor raises. *)
Definition mod_ (a b : Z) : result Z :=
  if b =? 0 then Raise ZeroDivisionError else Ok (a mod b).

(** [if c: body] for a body executed for its effects only. *)
Definition when {m : Type -> Type} `{Monad m} (c : bool) (body : m unit) : m unit :=
  if c then body else ret tt.

End Py.
Import Py.

(** ** Command-line configuration: [parse_args] *)

(** The fields of the [argparse.Namespace] that the orchestration code
    reads.  Integer options are Python integers; the two values compared
    by the stop decision are IEEE binary64 floats. *)
Record Args : Type := mkArgs {
  target_avg_lddt_ca_value : float;
  initialize_parameters_from : option string;
  precision : string;
  seed : string;
  num_train_iters : Z;
  log_every_iters : Z;
  checkpoint_every_iters : Z;
  keep_last_checkpoints : Z;
  val_every_iters : Z;
  keep_best_checkpoints : Z;
  keep_val_checkpoints : bool;
  device_batch_size : Z;
  warmup_lr_length : Z;
  init_lr_length : Z;
  gradient_clipping : bool;
  clip_grad_max_norm : float;
  gradient_accumulation_iters : Z;
  save_process_logs : bool;
  distributed : bool
}.

(** The defaults declared with [add_argument]. *)
Definition default_args : Args :=
  {| target_avg_lddt_ca_value := 0x1.999999999999ap-1%float; (* 0.8 *)
     initialize_parameters_from := None;
     precision := "tf32";
     seed := "1234567890";
     num_train_iters := 80000;
     log_every_iters := -1;
     checkpoint_every_iters := 0;
     keep_last_checkpoints := 0;
     val_every_iters := 200;
     keep_best_checkpoints := 0;
     keep_val_checkpoints := false;
     device_batch_size := 1;
     warmup_lr_length := 1000;
     init_lr_length := 60000;
     gradient_clipping := false;
     clip_grad_max_norm := 0x1.999999999999ap-4%float; (* 0.1 *)
     gradient_accumulation_iters := 1;
     save_process_logs := false;
     distributed := false |}.

(** [choices=["fp32", "tf32", "bf16", "fp16", "amp"]] of [--precision]. *)
Definition precision_choices : list string :=
  ["fp32"; "tf32"; "bf16"; "fp16"; "amp"].

(** [parser.parse_args()]: the command line has been converted to typed
    values; a [--precision] outside its [choices] makes [argparse] print
    the usage and exit with status 2. *)
Definition parser_parse_args (argv : Args) : result Args :=
  if existsb (String.eqb (precision argv)) precision_choices
  then Ok argv
  else Raise (SystemExit 2).

(** [assert a % b == 0] *)
Definition assert_divisible (a b : Z) : result unit :=
  r <- mod_ a b ;; assert (r =? 0).

(** [parse_args], lines 260-277. *)
Definition parse_args (argv : Args) : result Args :=
  args <- parser_parse_args argv ;;
  (* saving checkpoints must coincide with validation: *)
  when (checkpoint_every_iters args >? 0)
    (assert_divisible (val_every_iters args) (checkpoint_every_iters args)) ;;
  (* saving logs must coincide with validation and checkpoints: *)
  when (log_every_iters args >? 0)
    (assert_divisible (val_every_iters args) (log_every_iters args) ;;
     when (checkpoint_every_iters args >? 0)
       (assert_divisible (checkpoint_every_iters args) (log_every_iters args))) ;;
  (* everything must be divisible by gradient accumulation length: *)
  assert (gradient_accumulation_iters args >=? 1) ;;
  assert_divisible (num_train_iters args) (gradient_accumulation_iters args) ;;
  assert_divisible (val_every_iters args) (gradient_accumulation_iters args) ;;
  assert_divisible (checkpoint_every_iters args) (gradient_accumulation_iters args) ;;
  assert_divisible (log_every_iters args) (gradient_accumulation_iters args) ;;
  assert_divisible (warmup_lr_length args) (gradient_accumulation_iters args) ;;
  assert_divisible (init_lr_length args) (gradient_accumulation_iters args) ;;
  ret args.


(** ** Observable effects *)

(** The calls that leave the process or change global library state, in
    the order in which they are made. *)
Inductive event : Type :=
| EvInitProcessGroup                       (* torch.distributed.init_process_group *)
| EvPrint (msg : string)
| EvSetDevice (index : Z)                  (* torch.cuda.set_device *)
| EvDisableTf32
| EvEnableTf32
| EvCreate (what : string)                 (* construction of a training object *)
| EvNumpySeed (s : Z)                      (* np.random.seed *)
| EvManualSeed (s : Z)                     (* torch.manual_seed *)
| EvSetRngState (generator : string)       (* set_rng_state / set_state of a generator *)
| EvNextTrainBatch
| EvForward (training grad : bool)         (* forward pass: module mode, autograd mode *)
| EvZeroGrad
| EvBackward
| EvClipGradNorm
| EvOptimizerStep
| EvSwaUpdate
| EvReduceLossesAvg (synchronize : bool)   (* dist_reduce_losses_avg *)
| EvSaveLogs (outpath : string)
| EvGatherValMetrics (synchronize : bool)  (* dist_gather_val_metrics *)
| EvBroadcast                              (* torch.distributed.broadcast *)
| EvEmptyCache                             (* gc.collect(); torch.cuda.empty_cache() *)
| EvSaveCheckpoint (iteration : Z) (is_validation : bool) (val_avg_lddt_ca : option float)
| EvLrSchedulerStep
| EvBarrier
| EvLogStart (key : string)
| EvLogEnd (key : string).

Class Traced (S : Type) : Type := {
  trace : S -> list event;
  set_trace : list event -> S -> S;
  trace_set_trace : forall t s, trace (set_trace t s) = t
}.

Definition tell {S} `{Traced S} (e : event) : M S unit :=
  modify (fun s => set_trace (trace s ++ [e]) s).

(** ** Networks and their modes *)

(** A [torch.nn.Module]: its train/eval flag and its parameters. *)
Record nn_module (Params : Type) : Type := mkModule {
  in_training : bool;                       (* the attribute [training] *)
  weights : Params
}.

Definition eval {P} (m : nn_module P) : nn_module P :=
  {| in_training := false; weights := weights m |}.
Definition train {P} (m : nn_module P) : nn_module P :=
  {| in_training := true; weights := weights m |}.

(** What an evaluation routine sees of the process: the network it was
    handed, the global autograd switch and the effect trace. *)
Record net_state (Params : Type) : Type := mkNetState {
  net : nn_module Params;
  grad_enabled : bool;
  net_trace : list event
}.

#[global] Instance Traced_net_state P : Traced (net_state P) :=
  {| trace := @net_trace P;
     set_trace := fun t s => {| net := net s; grad_enabled := grad_enabled s; net_trace := t |};
     trace_set_trace := fun _ _ => eq_refl |}.

Definition set_net {P} (f : nn_module P -> nn_module P) (s : net_state P) : net_state P :=
  {| net := f (net s); grad_enabled := grad_enabled s; net_trace := net_trace s |}.
Definition set_grad_enabled {P} (b : bool) (s : net_state P) : net_state P :=
  {| net := net s; grad_enabled := b; net_trace := net_trace s |}.

(** [with torch.no_grad(): body]: autograd is switched off for the body
    and the previous setting is put back when the block is left, by a
    return or by an exception. *)
Definition no_grad {P A} (body : M (net_state P) A) : M (net_state P) A :=
  fun s =>
    let prev := grad_enabled s in
    let '(s', r) := body (set_grad_enabled false s) in
    (set_grad_enabled prev s', r).

(** [net(batch)]: the forward pass reads the parameters, the mode and the
    batch; the call is recorded with the modes it ran under. *)
Definition call_net {P B O} (fwd : P -> bool -> B -> O) (b : B) : M (net_state P) O :=
  s <- get ;;
  tell (EvForward (in_training (net s)) (grad_enabled s)) ;;
  ret (fwd (weights (net s)) (in_training (net s)) b).

(** ** OpenFold: collaborators of the training program *)

(** The two components of a validation sample id that the runner reads,
    [id_tuple[1]] and [id_tuple[3]]. *)
Record id_tuple : Type := mkId {
  id_val_index : Z;
  id_pdb_chain_id : string
}.

(** One validation record.  The wall-clock [duration] of the sample is
    not part of the model. *)
Record val_metrics : Type := mkValMetrics {
  lddt_ca : float;
  val_index : Z;
  pdb_chain_id : string
}.

(** The tensor computations behind the orchestration code.  Each is a
    function of the values the call receives. *)
Class OpenFold : Type := {
  Params : Type;                     (* parameters of the network *)
  Grads : Type;                      (* the accumulated [.grad] of the parameters *)
  OptState : Type;                   (* state of the Adam optimizer *)
  Batch : Type;
  Outputs : Type;
  batch_id : Batch -> list id_tuple;                   (* batch["id"] *)
  forward : Params -> bool -> Batch -> Outputs;        (* alphafold(batch) *)
  compute_lddt_ca : Outputs -> Batch -> float;         (* compute_validation_metrics *)
  zero_grad : Grads -> Grads;                          (* optimizer.zero_grad() *)
  (* loss.backward() of the loss of a batch divided by the window size,
     under the given RNG seed *)
  accumulate_grad : Params -> Z -> Batch -> Z -> Grads -> Grads;
  clip_grad_norm : float -> Grads -> Grads;
  optimizer_step : OptState -> Params -> Grads -> OptState * Params;
  swa_update : Params -> Params -> Params;             (* shadow, live *)
  (* float(pd.DataFrame(records)["lddt_ca"].mean()) *)
  mean_lddt_ca : list val_metrics -> result float;
  get_seed_from_string : string -> Z;                  (* openfold.helpers *)
  TORCH_SEED_MODULUS : Z;                              (* openfold.torch_utils *)
  (* The random number generators of the process *)
  NumpyRng : Type;                         (* np.random.get_state() *)
  TorchRng : Type;                         (* torch.get_rng_state() *)
  CudaRng : Type;                          (* torch.cuda.get_rng_state(device) *)
  Config : Type;                           (* AlphaFoldConfig *)
  NUMPY_SEED_MODULUS : Z;                  (* openfold.numpy_utils *)
  numpy_seeded : Z -> NumpyRng;            (* generator after np.random.seed(n) *)
  torch_seeded : Z -> TorchRng;            (* generators after torch.manual_seed(n): *)
  cuda_seeded : Z -> CudaRng;              (* the CPU one and the one of every device *)
  (* The objects found in a checkpoint file *)
  PyObj : Type;
  PyNone : PyObj;
  PyDict : (string -> option PyObj) -> PyObj;          (* a dictionary is an object *)
  is_none : PyObj -> bool;                             (* [x is None] *)
  is_none_PyNone : is_none PyNone = true;
  (* alphafold.load_state_dict(d, strict=True) and optimizer.load_state_dict(d):
     the object after the call, which writes in place, and how the call ends *)
  alphafold_load_state_dict : PyObj -> Params -> Params * result unit;
  optimizer_load_state_dict : PyObj -> OptState -> OptState * result unit
}.

(** A dataloader: its declared length and the batches its iterator
    yields, in order. *)
Record dataloader (B : Type) : Type := mkDataloader {
  dl_len : nat;
  dl_batches : list B
}.

Section OpenFoldProgram.
Context `{OpenFold}.

(** ** The validation runner: [validation], lines 330-363 *)

(** The body of [for _ in range(len(validation_dataloader))], run [n]
    times on the iterator [it]. *)
Fixpoint validation_loop (n : nat) (it : list Batch)
    (val_metrics_list : list val_metrics)
    : M (net_state Params) (list val_metrics) :=
  match n with
  | O => ret val_metrics_list
  | S n' =>
    match it with
    | [] => raise StopIteration                       (* next(val_batch_iterator) *)
    | val_batch :: it' =>
      lift (assert (Nat.eqb (List.length (batch_id val_batch)) 1)) ;;
      match batch_id val_batch with
      | [] => raise IndexError
      | id :: _ =>
        m <- no_grad (val_outputs <- call_net forward val_batch ;;
                      ret (compute_lddt_ca val_outputs val_batch)) ;;
        validation_loop n' it'
          (val_metrics_list ++
             [{| lddt_ca := m;
                 val_index := id_val_index id;
                 pdb_chain_id := id_pdb_chain_id id |}])
      end
    end
  end.

Definition validation (validation_dataloader : dataloader Batch)
    : M (net_state Params) (list val_metrics) :=
  modify (set_net (@eval _)) ;;                           (* alphafold.eval() *)
  val_metrics_list <-
    validation_loop (dl_len validation_dataloader)
                    (dl_batches validation_dataloader) [] ;;
  modify (set_net (@train _)) ;;                          (* alphafold.train() *)
  ret val_metrics_list.


(** ** Construction of the network: [create_alphafold_module], lines 280-295 *)

(** The random number generators of the process. *)
Record rng_state : Type := mkRng {
  numpy_rng : NumpyRng;
  torch_rng : TorchRng;
  cuda_rng : Z -> CudaRng                  (* by device index *)
}.

(** [np.random.seed(n)] and [np.random.set_state(st)] *)
Definition set_numpy_rng (st : NumpyRng) (r : rng_state) : rng_state :=
  {| numpy_rng := st; torch_rng := torch_rng r; cuda_rng := cuda_rng r |}.

(** [torch.set_rng_state(st)] *)
Definition set_torch_rng (st : TorchRng) (r : rng_state) : rng_state :=
  {| numpy_rng := numpy_rng r; torch_rng := st; cuda_rng := cuda_rng r |}.

(** [torch.cuda.set_rng_state(st, device=device)] *)
Definition set_cuda_rng (device : Z) (st : CudaRng) (r : rng_state) : rng_state :=
  {| numpy_rng := numpy_rng r;
     torch_rng := torch_rng r;
     cuda_rng := fun d => if d =? device then st else cuda_rng r d |}.

(** [torch.manual_seed(n)]: seeds the CPU generator and the generator of
    every device. *)
Definition manual_seed (n : Z) (r : rng_state) : rng_state :=
  {| numpy_rng := numpy_rng r;
     torch_rng := torch_seeded n;
     cuda_rng := fun _ => cuda_seeded n |}.

(** What the construction of the network sees of the process: the
    generators and the effect trace. *)
Record init_state : Type := mkInit {
  generators : rng_state;
  init_trace : list event
}.

#[global] Instance Traced_init_state : Traced init_state :=
  {| trace := init_trace;
     set_trace := fun t s => {| generators := generators s; init_trace := t |};
     trace_set_trace := fun _ _ => eq_refl |}.

Definition set_generators (f : rng_state -> rng_state) (s : init_state) : init_state :=
  {| generators := f (generators s); init_trace := init_trace s |}.

(** The library calls on the generators: each is recorded and changes
    the generator it names. *)
Definition np_random_seed (n : Z) : M init_state unit :=
  tell (EvNumpySeed n) ;;
  modify (set_generators (set_numpy_rng (numpy_seeded n))).

Definition torch_manual_seed (n : Z) : M init_state unit :=
  tell (EvManualSeed n) ;;
  modify (set_generators (manual_seed n)).

Definition torch_cuda_set_rng_state (st : CudaRng) (device : Z) : M init_state unit :=
  tell (EvSetRngState "torch.cuda") ;;
  modify (set_generators (set_cuda_rng device st)).

Definition torch_set_rng_state (st : TorchRng) : M init_state unit :=
  tell (EvSetRngState "torch") ;;
  modify (set_generators (set_torch_rng st)).

Definition np_random_set_state (st : NumpyRng) : M init_state unit :=
  tell (EvSetRngState "numpy") ;;
  modify (set_generators (set_numpy_rng st)).

(** [AlphaFold(config=alphafold_config)]: the constructor draws from the
    generators and returns a network in training mode. *)
Definition construct (AlphaFold : Config -> rng_state -> rng_state * Params)
    (alphafold_config : Config) : M init_state (nn_module Params) :=
  fun s =>
    let '(r', p) := AlphaFold alphafold_config (generators s) in
    ({| generators := r'; init_trace := init_trace s ++ [EvCreate "AlphaFold"] |},
     Ok {| in_training := true; weights := p |}).

(** [create_alphafold_module] *)
Definition create_alphafold_module
    (AlphaFold : Config -> rng_state -> rng_state * Params)
    (alphafold_config : Config) (device : Z) (seed : Z)
    : M init_state (nn_module Params) :=
  s <- get ;;
  let numpy_random_state := numpy_rng (generators s) in
  let torch_rng_state := torch_rng (generators s) in
  let torch_cuda_rng_state := cuda_rng (generators s) device in
  n <- lift (mod_ seed NUMPY_SEED_MODULUS) ;;
  np_random_seed n ;;
  torch_manual_seed seed ;;
  alphafold <- construct AlphaFold alphafold_config ;;
  (* alphafold.to(device=device) *)
  torch_cuda_set_rng_state torch_cuda_rng_state device ;;
  torch_set_rng_state torch_rng_state ;;
  np_random_set_state numpy_random_state ;;
  ret alphafold.

(** ** Start of [training]: process selection and precision, lines 367-408 *)

(** The variables that [torchrun] exports, already read ([RANK],
    [WORLD_SIZE], [LOCAL_RANK] and [MASTER_PORT] as integers); [None] is
    an unset variable. *)
Record environ : Type := mkEnviron {
  RANK : option Z;
  WORLD_SIZE : option Z;
  LOCAL_RANK : option Z;
  MASTER_ADDR : option string;
  MASTER_PORT : option Z
}.

(** [int(os.environ[name])] *)
Definition getenv_int (name : string) (v : option Z) : result Z :=
  match v with
  | Some z => Ok z
  | None => Raise (KeyError name)
  end.

Definition str (z : Z) : string := NilZero.string_of_int (Z.to_int z).

(** The local variables that identify the process. *)
Record process : Type := mkProcess {
  rank : option Z;
  world_size : option Z;
  local_rank : option Z;
  main_rank : option Z;
  is_main_process : bool;
  process_name : string;
  device : Z;                               (* index of the cuda device *)
  global_batch_size : Z
}.

Record startup_state : Type := mkStartup {
  dist_initialized : bool;                  (* torch.distributed.is_initialized() *)
  startup_trace : list event
}.

#[global] Instance Traced_startup_state : Traced startup_state :=
  {| trace := startup_trace;
     set_trace := fun t s => {| dist_initialized := dist_initialized s; startup_trace := t |};
     trace_set_trace := fun _ _ => eq_refl |}.

(** What the rendezvous of [init_method="env://"] does with a variable
    it needs: an unset variable is a [ValueError]. *)
Definition rendezvous_env {A} (name : string) (v : option A) : result A :=
  match v with
  | Some a => Ok a
  | None =>
    Raise (ValueError ("Error initializing torch.distributed using env:// rendezvous: "
                       ++ "environment variable " ++ name ++ " expected, but not set"))
  end.

(** [torch.distributed.init_process_group(backend="nccl",
    init_method="env://")]: the rendezvous reads the rank, the world size
    and the address of the store from the environment before the group
    exists. *)
Definition init_process_group (env : environ) : M startup_state unit :=
  lift (rendezvous_env "RANK" (RANK env)) ;;
  lift (rendezvous_env "WORLD_SIZE" (WORLD_SIZE env)) ;;
  lift (rendezvous_env "MASTER_ADDR" (MASTER_ADDR env)) ;;
  lift (rendezvous_env "MASTER_PORT" (MASTER_PORT env)) ;;
  tell EvInitProcessGroup ;;
  modify (fun s => {| dist_initialized := true; startup_trace := startup_trace s |}).

(** Lines 367-395. *)
Definition select_process (args : Args) (env : environ) : M startup_state process :=
  when (distributed args) (init_process_group env) ;;
  st <- get ;;
  if dist_initialized st then
    (* Assuming distributed training: *)
    lift (assert (distributed args)) ;;
    rank <- lift (getenv_int "RANK" (RANK env)) ;;
    world_size <- lift (getenv_int "WORLD_SIZE" (WORLD_SIZE env)) ;;
    local_rank <- lift (getenv_int "LOCAL_RANK" (LOCAL_RANK env)) ;;
    let main_rank := 0 in
    let is_main_process := rank =? main_rank in
    when is_main_process
      (tell (EvPrint ("initialized distributed training: WORLD_SIZE=" ++ str world_size))) ;;
    ret {| rank := Some rank;
           world_size := Some world_size;
           local_rank := Some local_rank;
           main_rank := Some main_rank;
           is_main_process := is_main_process;
           process_name := "dist_process_rank" ++ str rank;
           device := local_rank;
           global_batch_size := device_batch_size args * world_size |}
  else
    (* Assuming single GPU training: *)
    tell (EvPrint "single GPU training") ;;
    lift (assert (negb (distributed args))) ;;
    ret {| rank := None;
           world_size := None;
           local_rank := None;
           main_rank := None;
           is_main_process := true;
           process_name := "single_process";
           device := 0;
           global_batch_size := device_batch_size args |}.

(** Numerical precision settings, lines 400-408. *)
Definition precision_settings (args : Args) : M startup_state unit :=
  if String.eqb (precision args) "fp32" then tell EvDisableTf32
  else if String.eqb (precision args) "tf32" then tell EvEnableTf32
  else if existsb (String.eqb (precision args)) ["bf16"; "fp16"; "amp"]
  then raise (NotImplementedError ("precision='" ++ precision args ++ "'"))
  else raise (ValueError ("unknown precision='" ++ precision args ++ "'")).

(** Lines 367-408. *)
Definition training_start (args : Args) (env : environ) : M startup_state process :=
  proc <- select_process args env ;;
  tell (EvSetDevice (device proc)) ;;
  precision_settings args ;;
  ret proc.

(** ** The training state and what the loop is given *)

Record loop_state : Type := mkLoopState {
  alphafold : nn_module Params;
  swa_alphafold : nn_module Params;         (* the shadow network of AlphaFoldSWA *)
  grads : Grads;
  optimizer : OptState;
  autograd : bool;                          (* torch.is_grad_enabled() *)
  lr_scheduler : Z;                         (* the iteration the scheduler is at *)
  train_logs : list Z;                      (* iterations of the buffered records *)
  process_logs : list Z;
  loop_trace : list event
}.

Definition set_alphafold (m : nn_module Params) (s : loop_state) : loop_state :=
  mkLoopState m (swa_alphafold s) (grads s) (optimizer s) (autograd s)
              (lr_scheduler s) (train_logs s) (process_logs s) (loop_trace s).
Definition set_swa_alphafold (m : nn_module Params) (s : loop_state) : loop_state :=
  mkLoopState (alphafold s) m (grads s) (optimizer s) (autograd s)
              (lr_scheduler s) (train_logs s) (process_logs s) (loop_trace s).
Definition set_grads (g : Grads) (s : loop_state) : loop_state :=
  mkLoopState (alphafold s) (swa_alphafold s) g (optimizer s) (autograd s)
              (lr_scheduler s) (train_logs s) (process_logs s) (loop_trace s).
Definition set_optimizer (o : OptState) (s : loop_state) : loop_state :=
  mkLoopState (alphafold s) (swa_alphafold s) (grads s) o (autograd s)
              (lr_scheduler s) (train_logs s) (process_logs s) (loop_trace s).
Definition set_autograd (b : bool) (s : loop_state) : loop_state :=
  mkLoopState (alphafold s) (swa_alphafold s) (grads s) (optimizer s) b
              (lr_scheduler s) (train_logs s) (process_logs s) (loop_trace s).
Definition set_lr_scheduler (i : Z) (s : loop_state) : loop_state :=
  mkLoopState (alphafold s) (swa_alphafold s) (grads s) (optimizer s) (autograd s)
              i (train_logs s) (process_logs s) (loop_trace s).
Definition set_train_logs (l : list Z) (s : loop_state) : loop_state :=
  mkLoopState (alphafold s) (swa_alphafold s) (grads s) (optimizer s) (autograd s)
              (lr_scheduler s) l (process_logs s) (loop_trace s).
Definition set_process_logs (l : list Z) (s : loop_state) : loop_state :=
  mkLoopState (alphafold s) (swa_alphafold s) (grads s) (optimizer s) (autograd s)
              (lr_scheduler s) (train_logs s) l (loop_trace s).
Definition set_loop_trace (t : list event) (s : loop_state) : loop_state :=
  mkLoopState (alphafold s) (swa_alphafold s) (grads s) (optimizer s) (autograd s)
              (lr_scheduler s) (train_logs s) (process_logs s) t.

#[global] Instance Traced_loop_state : Traced loop_state :=
  {| trace := loop_trace;
     set_trace := set_loop_trace;
     trace_set_trace := fun _ _ => eq_refl |}.

(** ** Initialisation from a checkpoint:
       [initialize_parameters_from_checkpoint], lines 298-327 *)

(** A Python dictionary with string keys is the partial map from its keys
    to its values. *)

(** [key in d] *)
Definition dict_mem {V} (key : string) (d : string -> option V) : bool :=
  match d key with
  | Some _ => true
  | None => false
  end.

(** [d[key]] *)
Definition dict_getitem {V} (key : string) (d : string -> option V) : result V :=
  match d key with
  | Some v => Ok v
  | None => Raise (KeyError key)
  end.

(** [repr] of a [pathlib.Path] *)
Definition repr_path (p : string) : string := "PosixPath('" ++ p ++ "')".

(** [alphafold.load_state_dict(d, strict=True)]: the parameters are
    written in place, also by a call that ends with an exception. *)
Definition load_alphafold (d : PyObj) : M loop_state unit :=
  fun st =>
    let '(p, r) := alphafold_load_state_dict d (weights (alphafold st)) in
    (set_alphafold {| in_training := in_training (alphafold st); weights := p |} st, r).

(** [optimizer.load_state_dict(d)] *)
Definition load_optimizer (d : PyObj) : M loop_state unit :=
  fun st =>
    let '(o, r) := optimizer_load_state_dict d (optimizer st) in
    (set_optimizer o st, r).

(** [torch_load] is [torch.load] on the files of this run: the dictionary
    stored at a path, or the exception of the call. *)
Definition initialize_parameters_from_checkpoint
    (torch_load : string -> result (string -> option PyObj))
    (checkpoint_filepath : string) (verbose : bool)
    : M loop_state unit :=
  checkpoint <- lift (torch_load checkpoint_filepath) ;;
  let is_resumable_checkpoint :=
    dict_mem "alphafold_state_dict" checkpoint
    && dict_mem "optimizer_state_dict" checkpoint in
  '(init_alphafold_state_dict, init_optimizer_state_dict) <-
    (if is_resumable_checkpoint then
       a <- lift (dict_getitem "alphafold_state_dict" checkpoint) ;;
       o <- lift (dict_getitem "optimizer_state_dict" checkpoint) ;;
       ret (a, o)
     else ret (PyDict checkpoint, PyNone)) ;;
  when verbose
    (tell (EvPrint ("Initializing parameters from " ++ repr_path checkpoint_filepath
                    ++ "..."))) ;;
  load_alphafold init_alphafold_state_dict ;;
  when verbose
    (tell (EvPrint ("Parameters initialized from " ++ repr_path checkpoint_filepath
                    ++ " successfully!"))) ;;
  when (negb (is_none init_optimizer_state_dict))
    (when verbose
       (tell (EvPrint ("Initializing optimizer from " ++ repr_path checkpoint_filepath
                       ++ "..."))) ;;
     load_optimizer init_optimizer_state_dict ;;
     when verbose
       (tell (EvPrint ("Optimizer initialized from " ++ repr_path checkpoint_filepath
                       ++ " successfully!")))).

(** What the run receives from outside the program: the environment, the
    configuration preset, the constructors and functions of the library
    that build and restore the training objects, the data, and what the
    collective calls deliver to this process. *)
Record Env : Type := mkEnv {
  os_environ : environ;
  alphafold_config : Config;                (* AlphaFoldConfig.from_preset(...) *)
  swa_enabled : bool;                       (* alphafold_config.swa_enabled *)
  process_generators : rng_state;           (* the generators when the network is created *)
  AlphaFold : Config -> rng_state -> rng_state * Params;
  fresh_grads : Grads;                      (* the [.grad] of new parameters *)
  Adam : Params -> OptState;                (* torch.optim.Adam(params, lr, eps) *)
  torch_load : string -> result (string -> option PyObj);
  AlphaFoldSWA : nn_module Params -> nn_module Params;   (* the shadow of a network *)
  (* resume_from_latest_checkpoint: the three objects after the call,
     which writes them in place, and the number of iterations it returns *)
  resume_from_latest_checkpoint :
    nn_module Params -> OptState -> nn_module Params ->
    (nn_module Params * OptState * nn_module Params) * result Z;
  train_batch_at : Z -> Batch;              (* batch of the training dataloader, by iteration *)
  validation_dataloader : dataloader Batch;
  validation_dataset_len : nat;             (* len(validation_dataset) *)
  (* result of dist_gather_val_metrics in this process, by iteration *)
  dist_gather_val_metrics : Z -> list val_metrics -> list val_metrics;
  (* content of the main rank's tensor at the broadcast, by iteration *)
  broadcast_src : Z -> float
}.


(** ** The training loop, lines 537-749 *)

Section Loop.
Variables (args : Args) (env : Env) (proc : process).

Definition is_logging_enabled : bool := log_every_iters args >? 0.
Definition is_main_process_and_logging : bool :=
  is_main_process proc && is_logging_enabled.

(** Line 562. *)
Definition training_seed : Z :=
  get_seed_from_string ("training_seed_" ++ seed args).

(** Lines 588-591: reset at the first iteration of a window, then
    [loss.backward()]. *)
Definition backward_pass (iteration s : Z) : M loop_state unit :=
  r <- lift (mod_ (iteration - 1) (gradient_accumulation_iters args)) ;;
  when (r =? 0)
    (tell EvZeroGrad ;;
     modify (fun st => set_grads (zero_grad (grads st)) st)) ;;
  tell EvBackward ;;
  modify (fun st =>
    set_grads (accumulate_grad (weights (alphafold st)) s
                 (train_batch_at env iteration)
                 (gradient_accumulation_iters args) (grads st)) st).

(** [optimizer.step()]: the one place that writes the parameters. *)
Definition optimizer_step_ : M loop_state unit :=
  tell EvOptimizerStep ;;
  modify (fun st =>
    let '(o, p) := optimizer_step (optimizer st) (weights (alphafold st)) (grads st) in
    set_optimizer o
      (set_alphafold {| in_training := in_training (alphafold st); weights := p |} st)).

(** [swa_alphafold.update(alphafold)] *)
Definition swa_update_ : M loop_state unit :=
  tell EvSwaUpdate ;;
  modify (fun st =>
    set_swa_alphafold
      {| in_training := in_training (swa_alphafold st);
         weights := swa_update (weights (swa_alphafold st)) (weights (alphafold st)) |}
      st).

(** Lines 593-606: the end of a window. *)
Definition window_end (iteration : Z) : M loop_state unit :=
  r <- lift (mod_ iteration (gradient_accumulation_iters args)) ;;
  when (r =? 0)
    (when (gradient_clipping args)
       (tell EvClipGradNorm ;;
        modify (fun st =>
          set_grads (clip_grad_norm (clip_grad_max_norm args) (grads st)) st)) ;;
     optimizer_step_ ;;
     when (swa_enabled env) swa_update_).

(** Lines 566-606: seed, batch, forward pass, backward pass, update. *)
Definition train_step (iteration : Z) : M loop_state unit :=
  s <- lift (mod_ (training_seed + iteration) TORCH_SEED_MODULUS) ;;
  tell (EvManualSeed s) ;;
  tell EvNextTrainBatch ;;
  st <- get ;;
  tell (EvForward (in_training (alphafold st)) (autograd st)) ;;
  backward_pass iteration s ;;
  window_end iteration.

(** Lines 608-623: losses for the logs. *)
Definition average_losses : M loop_state unit :=
  when is_logging_enabled
    (when (distributed args) (tell (EvReduceLossesAvg false))).

(** Lines 628-660: log buffers and their flush. *)
Definition update_logs (iteration : Z) : M loop_state unit :=
  when (is_logging_enabled && save_process_logs args)
    (modify (fun st => set_process_logs (process_logs st ++ [iteration]) st)) ;;
  when is_main_process_and_logging
    (modify (fun st => set_train_logs (train_logs st ++ [iteration]) st) ;;
     tell (EvPrint "training {train_log}")) ;;
  when is_logging_enabled
    (r <- lift (mod_ iteration (log_every_iters args)) ;;
     when (r =? 0)
       (when (save_process_logs args)
          (tell (EvSaveLogs ("logs/" ++ process_name proc ++ ".log"))) ;;
        modify (set_process_logs []) ;;
        when (is_main_process proc)
          (tell (EvSaveLogs "logs/training.log") ;;
           modify (set_train_logs [])))).

(** Line 670: the validation runner on the averaged network when weight
    averaging is enabled, otherwise on the live one. *)
Definition run_validation : M loop_state (list val_metrics) :=
  fun st =>
    let m := if swa_enabled env then swa_alphafold st else alphafold st in
    let '(ns, r) :=
      validation (validation_dataloader env)
        {| net := m; grad_enabled := autograd st; net_trace := loop_trace st |} in
    let st1 := set_loop_trace (net_trace ns) (set_autograd (grad_enabled ns) st) in
    (if swa_enabled env then set_swa_alphafold (net ns) st1
     else set_alphafold (net ns) st1, r).

(** Reading a local variable that is bound only on some paths. *)
Definition read_local {A} (name : string) (v : option A) : result A :=
  match v with
  | Some a => Ok a
  | None => Raise (UnboundLocalError name)
  end.

(** Lines 687-693: aggregation in the main process.  The result is the
    binding of [val_avg_lddt_ca], which stays unbound elsewhere. *)
Definition aggregate (val_metrics_list : list val_metrics) : M loop_state (option float) :=
  if is_main_process proc then
    val_avg_lddt_ca <- lift (mean_lddt_ca val_metrics_list) ;;
    let val_size := List.length val_metrics_list in
    lift (assert (Nat.eqb val_size (validation_dataset_len env))) ;;
    ret (Some val_avg_lddt_ca)
  else ret None.

(** Lines 708-714: the tensor [stop_training_flag] before the broadcast,
    [torch.ones(1)] or [torch.zeros(1)]. *)
Definition local_stop_flag (val_avg_lddt_ca : option float) : M loop_state float :=
  if is_main_process proc then
    v <- lift (read_local "val_avg_lddt_ca" val_avg_lddt_ca) ;;
    if (target_avg_lddt_ca_value args <=? v)%float   (* v >= target *)
    then ret 1%float
    else ret 0%float
  else ret 0%float.

(** Line 716, [torch.distributed.broadcast(tensor, src=main_rank)]: the
    source keeps its tensor, every other rank receives the source's. *)
Definition broadcast (iteration : Z) (tensor : float) : M loop_state float :=
  tell EvBroadcast ;;
  ret (if is_main_process proc then tensor else broadcast_src env iteration).

(** Lines 665-685: the validation pass and, in a distributed run, the
    gather of its records. *)
Definition collect_val_metrics (iteration : Z) : M loop_state (list val_metrics) :=
  when is_main_process_and_logging (tell (EvPrint "validation...")) ;;
  val_metrics_list <- run_validation ;;
  if distributed args then
    tell (EvGatherValMetrics true) ;;
    ret (dist_gather_val_metrics env iteration val_metrics_list)
  else ret val_metrics_list.

(** Lines 665-714, up to the local stop flag. *)
Definition validation_local (iteration : Z) : M loop_state (option float * float) :=
  val_metrics_list <- collect_val_metrics iteration ;;
  val_avg_lddt_ca <- aggregate val_metrics_list ;;
  when is_main_process_and_logging
    (lift (read_local "val_avg_lddt_ca" val_avg_lddt_ca) ;;
     tell (EvPrint "validation {val_log}") ;;
     tell (EvSaveLogs "logs/validation.log")) ;;
  stop_training_flag <- local_stop_flag val_avg_lddt_ca ;;
  ret (val_avg_lddt_ca, stop_training_flag).

(** Lines 664-719. *)
Definition validation_block (iteration : Z) : M loop_state (option float * float) :=
  '(val_avg_lddt_ca, stop_training_flag) <- validation_local iteration ;;
  stop_training_flag <-
    (if distributed args then broadcast iteration stop_training_flag
     else ret stop_training_flag) ;;
  tell EvEmptyCache ;;
  ret (val_avg_lddt_ca, stop_training_flag).

(** Lines 722-738. *)
Definition save_checkpoint (iteration : Z) (is_validation : bool)
    (val_avg_lddt_ca : option float) : M loop_state unit :=
  when (is_main_process proc && (checkpoint_every_iters args >? 0))
    (r <- lift (mod_ iteration (checkpoint_every_iters args)) ;;
     when (r =? 0)
       (score <- (if is_validation
                  then v <- lift (read_local "val_avg_lddt_ca" val_avg_lddt_ca) ;;
                       ret (Some v)
                  else ret None) ;;
        tell (EvSaveCheckpoint iteration is_validation score))).

(** Truth value of a one-element tensor. *)
Definition tensor_bool (t : float) : bool := negb (t =? 0)%float.

Inductive control : Type := Continue | Break.

(** Lines 608-660: the logs of the training step. *)
Definition log_step (iteration : Z) : M loop_state unit :=
  average_losses ;;
  update_logs iteration.

(** Lines 721-745: checkpoint, stop test, scheduler. *)
Definition finish_iteration (iteration : Z) (is_validation : bool)
    (val_avg_lddt_ca stop_training_flag : option float) : M loop_state control :=
  save_checkpoint iteration is_validation val_avg_lddt_ca ;;
  stop <- (if is_validation
           then f <- lift (read_local "stop_training_flag" stop_training_flag) ;;
                ret (tensor_bool f)
           else ret false) ;;
  if stop then ret Break
  else
    tell EvLrSchedulerStep ;;
    modify (fun st => set_lr_scheduler (lr_scheduler st + 1) st) ;;
    ret Continue.

(** Lines 662-745: validation when it is due, then the end of the
    iteration.  The variables [val_avg_lddt_ca] and [stop_training_flag]
    are read only in iterations that have just assigned them, so they are
    local here. *)
Definition validate_and_finish (iteration : Z) : M loop_state control :=
  r <- lift (mod_ iteration (val_every_iters args)) ;;
  let is_validation := r =? 0 in
  '(val_avg_lddt_ca, stop_training_flag) <-
    (if is_validation
     then '(a, f) <- validation_block iteration ;; ret (a, Some f)
     else ret (None, None)) ;;
  finish_iteration iteration is_validation val_avg_lddt_ca stop_training_flag.

(** One pass through the body of the [for] loop, lines 566-745. *)
Definition training_iteration (iteration : Z) : M loop_state control :=
  train_step iteration ;;
  log_step iteration ;;
  validate_and_finish iteration.

(** The part of a validation iteration that precedes the broadcast. *)
Definition until_broadcast (iteration : Z) : M loop_state (option float * float) :=
  train_step iteration ;;
  log_step iteration ;;
  validation_local iteration.

(** [range(lo, hi)] *)
Definition range (lo hi : Z) : list Z :=
  map (fun k => lo + Z.of_nat k) (seq 0 (Z.to_nat (hi - lo))).

(** The [for] loop with its [break]. *)
Fixpoint for_iterations (iterations : list Z) : M loop_state unit :=
  match iterations with
  | [] => ret tt
  | iteration :: rest =>
    c <- training_iteration iteration ;;
    match c with
    | Break => ret tt
    | Continue => for_iterations rest
    end
  end.

(** Line 445: the network is built on the generators of the process;
    the training state does not follow the generators further. *)
Definition with_generators {A} (c : M init_state A) : M loop_state A :=
  fun st =>
    let '(i, r) := c {| generators := process_generators env;
                        init_trace := loop_trace st |} in
    (set_loop_trace (init_trace i) st, r).

(** Lines 480-487: the call writes the network, the optimizer and the
    shadow in place. *)
Definition resume_call : M loop_state Z :=
  fun st =>
    let '(a, o, w, r) :=
      resume_from_latest_checkpoint env (alphafold st) (optimizer st) (swa_alphafold st) in
    (set_swa_alphafold w (set_optimizer o (set_alphafold a st)), r).

Definition resume : M loop_state Z :=
  tell (EvCreate "resume_from_latest_checkpoint") ;;
  resume_call.

(** Lines 410-477: the objects that exist before the resume. *)
Definition create_objects : M loop_state unit :=
  tell (EvCreate "AlphaFoldConfig") ;;
  tell (EvCreate "InitialTrainingDataset") ;;
  tell (EvCreate "ValidationDataset") ;;
  created <- with_generators
               (create_alphafold_module (AlphaFold env) (alphafold_config env)
                  (device proc)
                  (get_seed_from_string ("alphafold_init_" ++ seed args))) ;;
  (* alphafold.train() *)
  modify (fun st => set_grads (fresh_grads env) (set_alphafold (train created) st)) ;;
  tell (EvCreate "AlphaFoldLoss") ;;
  tell (EvCreate "Adam") ;;
  modify (fun st => set_optimizer (Adam env (weights (alphafold st))) st) ;;
  match initialize_parameters_from args with
  | Some checkpoint_filepath =>
    initialize_parameters_from_checkpoint (torch_load env) checkpoint_filepath
      (is_main_process proc)
  | None => ret tt
  end ;;
  tell (EvCreate "AlphaFoldSWA") ;;
  modify (fun st => set_swa_alphafold (AlphaFoldSWA env (alphafold st)) st).

(** Lines 490-559: what is built once the number of previous iterations
    is known; the result is [first_iteration]. *)
Definition create_loaders (num_prev_iters : Z) : M loop_state Z :=
  when (distributed args) (tell (EvCreate "DistributedDataParallel")) ;;
  tell (EvCreate "InitialTrainingSampler") ;;
  tell (EvCreate "ValidationSampler") ;;
  tell (EvCreate "InitialTrainingDataloader") ;;
  tell (EvCreate "ValidationDataloader") ;;
  modify (set_train_logs []) ;;
  modify (set_process_logs []) ;;
  let first_iteration := num_prev_iters + 1 in
  tell (EvCreate "AlphaFoldLRScheduler") ;;
  modify (set_lr_scheduler first_iteration) ;;
  ret first_iteration.

(** Lines 410-562: construction of the training objects. *)
Definition training_setup : M loop_state Z :=
  create_objects ;;
  num_prev_iters <- resume ;;
  lift (assert_divisible num_prev_iters (gradient_accumulation_iters args)) ;;
  create_loaders num_prev_iters.

(** Lines 410-749. *)
Definition training_run : M loop_state unit :=
  first_iteration <- training_setup ;;
  for_iterations (range first_iteration (num_train_iters args + 1)) ;;
  when (distributed args) (tell EvBarrier).

(** The training state when [training] is entered.  The variables of
    the training objects are not bound yet: the set-up assigns each of
    them before it is read, so the values they have here are never
    observed.  Autograd is on, as it is in a new process. *)
Definition unbound_state (t : list event) : loop_state :=
  let p := snd (AlphaFold env (alphafold_config env) (process_generators env)) in
  {| alphafold := {| in_training := true; weights := p |};
     swa_alphafold := {| in_training := true; weights := p |};
     grads := fresh_grads env;
     optimizer := Adam env p;
     autograd := true;
     lr_scheduler := 0;
     train_logs := [];
     process_logs := [];
     loop_trace := t |}.

End Loop.

(** [training(args)]: the effects of the run and how it ends. *)
Definition training (args : Args) (env : Env) : list event * result unit :=
  match training_start args (os_environ env)
          {| dist_initialized := false; startup_trace := [] |} with
  | (st, Raise e) => (startup_trace st, Raise e)
  | (st, Ok proc) =>
    let '(ls, r) := training_run args env proc (unbound_state env (startup_trace st)) in
    (loop_trace ls, r)
  end.

(** [training(parse_args())] of the main block: the arguments are parsed
    and checked before [training] is entered. *)
Definition main (argv : Args) (env : Env) : list event * result unit :=
  match parse_args argv with
  | Raise e => ([], Raise e)
  | Ok args => training args env
  end.


(** ** All processes of a distributed run at a validation iteration *)

(** One rank: what it is given, who it is and where it stands. *)
Record rank_state : Type := mkRank {
  rank_env : Env;
  rank_proc : process;
  rank_loop : loop_state
}.

Definition set_broadcast_src (f : float) (e : Env) : Env :=
  {| os_environ := os_environ e;
     alphafold_config := alphafold_config e;
     swa_enabled := swa_enabled e;
     process_generators := process_generators e;
     AlphaFold := AlphaFold e;
     fresh_grads := fresh_grads e;
     Adam := Adam e;
     torch_load := torch_load e;
     AlphaFoldSWA := AlphaFoldSWA e;
     resume_from_latest_checkpoint := resume_from_latest_checkpoint e;
     train_batch_at := train_batch_at e;
     validation_dataloader := validation_dataloader e;
     validation_dataset_len := validation_dataset_len e;
     dist_gather_val_metrics := dist_gather_val_metrics e;
     broadcast_src := fun _ => f |}.

(** All ranks execute the same validation iteration; the broadcast hands
    every rank the tensor that the main rank holds when it reaches the
    call.  When the main rank raises before that, the run is aborted and
    there is no result. *)
Definition world_iteration (args : Args) (main : rank_state) (others : list rank_state)
    (iteration : Z) : option (list (loop_state * result control)) :=
  match until_broadcast args (rank_env main) (rank_proc main) iteration (rank_loop main) with
  | (_, Ok (_, stop_training_flag)) =>
    Some (map (fun r =>
                 training_iteration args
                   (set_broadcast_src stop_training_flag (rank_env r))
                   (rank_proc r) iteration (rank_loop r))
              (main :: others))
  | (_, Raise _) => None
  end.

End OpenFoldProgram.

(** ** DeepCAM: the inference driver, [inference], lines 11-41 *)

Class DeepCam : Type := {
  NetParams : Type;
  Inputs : Type;
  Filename : Type;
  Logits : Type;
  Labels : Type;
  NdArray : Type;
  to_device : Inputs -> Inputs;                          (* inputs.to(device) *)
  net_forward : NetParams -> bool -> Inputs -> Logits;   (* net.forward(inputs) *)
  softmax : Logits -> Z -> Logits;                       (* torch.softmax(x, dim) *)
  argmax : Logits -> Z -> Labels;                        (* torch.argmax(x, dim) *)
  cpu_numpy : Labels -> NdArray                          (* x.cpu().numpy() *)
}.

Section DeepCamProgram.
Context `{DeepCam}.

(** The body of [for inputs_inf, filename_inf in inference_loader]. *)
Fixpoint inference_loop (inference_loader : list (Inputs * Filename))
    (predictions_all : list (Filename * NdArray))
    : M (net_state NetParams) (list (Filename * NdArray)) :=
  match inference_loader with
  | [] => ret predictions_all
  | (inputs_inf, filename_inf) :: rest =>
    outputs_inf <- call_net net_forward (to_device inputs_inf) ;;
    let predictions_inf := argmax (softmax outputs_inf 1) 1 in
    inference_loop rest
      (predictions_all ++ [(filename_inf, cpu_numpy predictions_inf)])
  end.

Definition inference (inference_loader : list (Inputs * Filename))
    : M (net_state NetParams) (list (Filename * NdArray)) :=
  tell (EvLogStart "inference_start") ;;
  modify (set_net (@eval _)) ;;                           (* net.eval() *)
  predictions_all <- no_grad (inference_loop inference_loader []) ;;
  tell (EvLogEnd "inference_stop") ;;
  ret predictions_all.

End DeepCamProgram.

(** ** Concrete collaborators and configurations *)

Module Toy.

(** The objects of a checkpoint file: [None], a state dictionary worth a
    number, complete or with a key missing, or anything else. *)
Inductive obj : Type :=
| ObjNone
| ObjState (t : Z)
| ObjPartial (t : Z)
| ObjOther.

(** [load_state_dict]: a complete dictionary is copied; one with a key
    missing is copied as far as it goes and then refused. *)
Definition load_state_dict (d : obj) (old : Z) : Z * result unit :=
  match d with
  | ObjState t => (t, Ok tt)
  | ObjPartial t => (t, Raise (RuntimeError "Missing key(s) in state_dict"))
  | ObjNone | ObjOther => (old, Raise (RuntimeError "Unexpected key(s) in state_dict"))
  end.

(** A network whose parameters count the optimizer steps taken and whose
    gradient slot counts the backward passes accumulated. *)
#[global] Instance openfold : OpenFold :=
  {| Params := Z;
     Grads := Z;
     OptState := Z;
     Batch := list id_tuple;
     Outputs := Z;
     batch_id := fun b => b;
     forward := fun p _ _ => p;
     compute_lddt_ca := fun _ _ => 0x1.ccccccccccccdp-1%float;   (* 0.9 *)
     zero_grad := fun _ => 0;
     accumulate_grad := fun _ _ _ _ g => g + 1;
     clip_grad_norm := fun _ g => g;
     optimizer_step := fun o p g => (o + 1, p + g);
     swa_update := fun _ live => live;
     mean_lddt_ca := fun l =>
       match l with
       | [] => Raise (KeyError "lddt_ca")
       | m :: _ => Ok (lddt_ca m)
       end;
     get_seed_from_string := fun s => Z.of_nat (String.length s);
     TORCH_SEED_MODULUS := 2 ^ 64;
     NumpyRng := Z;
     TorchRng := Z;
     CudaRng := Z;
     Config := Z;
     NUMPY_SEED_MODULUS := 2 ^ 32;
     numpy_seeded := fun n => n;
     torch_seeded := fun n => n + 1;
     cuda_seeded := fun n => n + 2;
     PyObj := obj;
     PyNone := ObjNone;
     PyDict := fun d => match d "module.weight" with
                        | Some o => o
                        | None => ObjOther
                        end;
     is_none := fun o => match o with ObjNone => true | _ => false end;
     is_none_PyNone := eq_refl;
     alphafold_load_state_dict := load_state_dict;
     optimizer_load_state_dict := load_state_dict |}.

Definition sample (i : Z) : list id_tuple :=
  [{| id_val_index := i; id_pdb_chain_id := "7abc_A" |}].

Definition rng0 : rng_state :=
  {| numpy_rng := 100; torch_rng := 200; cuda_rng := fun d => 300 + d |}.

(** A constructor that draws once from each generator of device 0; the
    parameters it returns are the configuration number plus what it drew. *)
Definition AlphaFold_drawing (c : Z) (r : rng_state) : rng_state * Z :=
  ({| numpy_rng := numpy_rng r + 1;
      torch_rng := torch_rng r + 1;
      cuda_rng := fun d => if d =? 0 then cuda_rng r d + 1 else cuda_rng r d |},
   c + numpy_rng r + torch_rng r + cuda_rng r 0).

(** Checkpoint files: one written by a training run, one that holds only
    the network's entry, one whose optimizer entry is [None], one whose
    network entry lacks a key, and a bare state dictionary. *)
Definition resumable_checkpoint (key : string) : option obj :=
  if String.eqb key "iteration" then Some (ObjState 10)
  else if String.eqb key "alphafold_state_dict" then Some (ObjState 41)
  else if String.eqb key "optimizer_state_dict" then Some (ObjState 42)
  else None.

Definition half_checkpoint (key : string) : option obj :=
  if String.eqb key "alphafold_state_dict" then Some (ObjState 41) else None.

Definition none_optimizer_checkpoint (key : string) : option obj :=
  if String.eqb key "alphafold_state_dict" then Some (ObjState 41)
  else if String.eqb key "optimizer_state_dict" then Some ObjNone
  else None.

Definition partial_checkpoint (key : string) : option obj :=
  if String.eqb key "alphafold_state_dict" then Some (ObjPartial 40)
  else if String.eqb key "optimizer_state_dict" then Some (ObjState 42)
  else None.

Definition bare_state_dict (key : string) : option obj :=
  if String.eqb key "module.weight" then Some (ObjState 43) else None.

Definition files (path : string) : result (string -> option obj) :=
  if String.eqb path "resumable.pt" then Ok resumable_checkpoint
  else if String.eqb path "half.pt" then Ok half_checkpoint
  else if String.eqb path "none_optimizer.pt" then Ok none_optimizer_checkpoint
  else if String.eqb path "partial.pt" then Ok partial_checkpoint
  else if String.eqb path "bare.pt" then Ok bare_state_dict
  else Raise (RuntimeError "No such file").

(** A validation set of two samples, seen whole by one process. *)
Definition env : Env :=
  {| os_environ := {| RANK := Some 0; WORLD_SIZE := Some 2; LOCAL_RANK := Some 0;
                      MASTER_ADDR := Some "localhost"; MASTER_PORT := Some 29500 |};
     alphafold_config := 0;
     swa_enabled := true;
     process_generators := rng0;
     AlphaFold := fun _ r => (r, 0);
     fresh_grads := 0;
     Adam := fun _ => 0;
     torch_load := files;
     AlphaFoldSWA := fun m => m;
     resume_from_latest_checkpoint := fun a o w => ((a, o, w), Ok 0);
     train_batch_at := fun i => sample i;
     validation_dataloader := {| dl_len := 2; dl_batches := [sample 0; sample 1] |};
     validation_dataset_len := 2;
     dist_gather_val_metrics := fun _ l => l;
     broadcast_src := fun _ => 0%float |}.

(** The same process with a loader whose first batch holds two samples. *)
Definition env_bad_batch : Env :=
  {| os_environ := os_environ env;
     alphafold_config := 0;
     swa_enabled := false;
     process_generators := rng0;
     AlphaFold := fun _ r => (r, 0);
     fresh_grads := 0;
     Adam := fun _ => 0;
     torch_load := files;
     AlphaFoldSWA := fun m => m;
     resume_from_latest_checkpoint := fun a o w => ((a, o, w), Ok 0);
     train_batch_at := fun i => sample i;
     validation_dataloader := {| dl_len := 1; dl_batches := [(sample 0 ++ sample 1)%list] |};
     validation_dataset_len := 2;
     dist_gather_val_metrics := fun _ l => l;
     broadcast_src := fun _ => 0%float |}.

(** A gather that loses a record. *)
Definition env_lossy_gather : Env :=
  {| os_environ := os_environ env;
     alphafold_config := 0;
     swa_enabled := true;
     process_generators := rng0;
     AlphaFold := fun _ r => (r, 0);
     fresh_grads := 0;
     Adam := fun _ => 0;
     torch_load := files;
     AlphaFoldSWA := fun m => m;
     resume_from_latest_checkpoint := fun a o w => ((a, o, w), Ok 0);
     train_batch_at := fun i => sample i;
     validation_dataloader := validation_dataloader env;
     validation_dataset_len := 2;
     dist_gather_val_metrics := fun _ l => tl l;
     broadcast_src := fun _ => 0%float |}.

Definition with_cadences (K log ckpt val n : Z) (dist : bool) (prec : string) : Args :=
  {| target_avg_lddt_ca_value := target_avg_lddt_ca_value default_args;
     initialize_parameters_from := None;
     precision := prec;
     seed := seed default_args;
     num_train_iters := n;
     log_every_iters := log;
     checkpoint_every_iters := ckpt;
     keep_last_checkpoints := 0;
     val_every_iters := val;
     keep_best_checkpoints := 0;
     keep_val_checkpoints := false;
     device_batch_size := 1;
     warmup_lr_length := 0;
     init_lr_length := 0;
     gradient_clipping := true;
     clip_grad_max_norm := clip_grad_max_norm default_args;
     gradient_accumulation_iters := K;
     save_process_logs := false;
     distributed := dist |}.

Definition main_proc : process :=
  {| rank := Some 0; world_size := Some 2; local_rank := Some 0; main_rank := Some 0;
     is_main_process := true; process_name := "dist_process_rank0";
     device := 0; global_batch_size := 2 |}.

Definition other_proc : process :=
  {| rank := Some 1; world_size := Some 2; local_rank := Some 1; main_rank := Some 0;
     is_main_process := false; process_name := "dist_process_rank1";
     device := 1; global_batch_size := 2 |}.

(** The training state in which a run of [e] enters its loop, with the
    effects of the set-up left out. *)
Definition start (e : Env) : loop_state :=
  set_loop_trace []
    (fst (training_setup (with_cadences 1 (-1) 0 2 2 false "tf32") e main_proc
            (unbound_state e []))).

(** A run that finds a checkpoint written after three iterations. *)
Definition env_resumed_at_3 : Env :=
  {| os_environ := os_environ env;
     alphafold_config := 0;
     swa_enabled := true;
     process_generators := rng0;
     AlphaFold := fun _ r => (r, 0);
     fresh_grads := 0;
     Adam := fun _ => 0;
     torch_load := files;
     AlphaFoldSWA := fun m => m;
     resume_from_latest_checkpoint := fun a o w =>
       (({| in_training := in_training a; weights := 3 |}, 3,
         {| in_training := in_training w; weights := 3 |}), Ok 3);
     train_batch_at := fun i => sample i;
     validation_dataloader := validation_dataloader env;
     validation_dataset_len := 2;
     dist_gather_val_metrics := fun _ l => l;
     broadcast_src := fun _ => 0%float |}.

(** A run whose constructor draws from the generators, under
    configuration number 5. *)
Definition env_drawing : Env :=
  {| os_environ := os_environ env;
     alphafold_config := 5;
     swa_enabled := true;
     process_generators := rng0;
     AlphaFold := AlphaFold_drawing;
     fresh_grads := 0;
     Adam := fun p => p;
     torch_load := files;
     AlphaFoldSWA := fun m => m;
     resume_from_latest_checkpoint := fun a o w => ((a, o, w), Ok 0);
     train_batch_at := fun i => sample i;
     validation_dataloader := validation_dataloader env;
     validation_dataset_len := 2;
     dist_gather_val_metrics := fun _ l => l;
     broadcast_src := fun _ => 0%float |}.

(** The arguments of a run initialised from a checkpoint file. *)
Definition initialized_from (path : string) (dist : bool) : Args :=
  {| target_avg_lddt_ca_value := target_avg_lddt_ca_value default_args;
     initialize_parameters_from := Some path;
     precision := "tf32";
     seed := seed default_args;
     num_train_iters := 0;
     log_every_iters := -1;
     checkpoint_every_iters := 0;
     keep_last_checkpoints := 0;
     val_every_iters := 2;
     keep_best_checkpoints := 0;
     keep_val_checkpoints := false;
     device_batch_size := 1;
     warmup_lr_length := 0;
     init_lr_length := 0;
     gradient_clipping := true;
     clip_grad_max_norm := clip_grad_max_norm default_args;
     gradient_accumulation_iters := 1;
     save_process_logs := false;
     distributed := dist |}.

Definition net0 : net_state Z :=
  {| net := {| in_training := true; weights := 7 |};
     grad_enabled := true;
     net_trace := [] |}.

#[global] Instance deepcam : DeepCam :=
  {| NetParams := Z;
     Inputs := Z;
     Filename := string;
     Logits := Z;
     Labels := Z;
     NdArray := Z;
     to_device := fun x => x;
     net_forward := fun p _ x => p + x;
     softmax := fun x _ => x;
     argmax := fun x d => x + d;
     cpu_numpy := fun x => x |}.

End Toy.


(** ** Vocabulary of the statements *)

(** [silent p c]: whatever [c] does, it only appends to the trace, and
    none of the events it appends satisfies [p]. *)
Definition silent {S A} `{Traced S} (p : event -> bool) (c : M S A) : Prop :=
  forall s, exists evs, trace (fst (c s)) = (trace s ++ evs)%list /\ filter p evs = [].

(** [preserves f c]: [c] leaves the component [f] of the state alone. *)
Definition preserves {S A X} (f : S -> X) (c : M S A) : Prop :=
  forall s, f (fst (c s)) = f s.

(** Events of the optimisation proper. *)
Definition is_optim_event (ev : event) : bool :=
  match ev with
  | EvZeroGrad | EvBackward | EvClipGradNorm | EvOptimizerStep | EvSwaUpdate => true
  | _ => false
  end.

(** Classifiers of single kinds of events. *)
Definition is_manual_seed (ev : event) : bool :=
  match ev with EvManualSeed _ => true | _ => false end.

Definition is_reduce_losses (ev : event) : bool :=
  match ev with EvReduceLossesAvg _ => true | _ => false end.

Definition is_lr_step (ev : event) : bool :=
  match ev with EvLrSchedulerStep => true | _ => false end.

Definition is_save_checkpoint (ev : event) : bool :=
  match ev with EvSaveCheckpoint _ _ _ => true | _ => false end.

(** A process at the start of [training]: no process group, no effect. *)
Definition fresh_process : startup_state :=
  {| dist_initialized := false; startup_trace := [] |}.

(** Effects that precede the construction of any training object. *)
Definition startup_effect (ev : event) : Prop :=
  ev = EvInitProcessGroup \/ (exists m, ev = EvPrint m) \/ (exists d, ev = EvSetDevice d).

Section Vocabulary.
Context `{OpenFold}.
Variables (args : Args) (env : Env) (proc : process).

(** The record that the runner builds for a batch, under parameters [p]
    and module mode [mode]. *)
Definition record_of (p : Params) (mode : bool) (b : Batch) (m : val_metrics) : Prop :=
  batch_id b = [{| id_val_index := val_index m; id_pdb_chain_id := pdb_chain_id m |}] /\
  lddt_ca m = compute_lddt_ca (forward p mode b) b.

(** A batch that holds exactly one sample. *)
Definition single_sample (b : Batch) : Prop := List.length (batch_id b) = 1%nat.

(** The part of the training state that only the optimizer and the
    weight averaging write: parameters, optimizer state, shadow. *)
Definition learned (s : loop_state) : Params * OptState * Params :=
  (weights (alphafold s), optimizer s, weights (swa_alphafold s)).

(** The events of the optimisation in one iteration. *)
Definition optim_events (iteration : Z) : list event :=
  ((if (iteration - 1) mod gradient_accumulation_iters args =? 0 then [EvZeroGrad] else [])
   ++ [EvBackward]
   ++ (if iteration mod gradient_accumulation_iters args =? 0
       then (if gradient_clipping args then [EvClipGradNorm] else [])
            ++ [EvOptimizerStep]
            ++ (if swa_enabled env then [EvSwaUpdate] else [])
       else []))%list.

(** The seed applied in an iteration. *)
Definition iteration_seed (iteration : Z) : Z :=
  (get_seed_from_string ("training_seed_" ++ seed args) + iteration) mod TORCH_SEED_MODULUS.

(** The gradients handed to the optimizer at the end of a window. *)
Definition window_grads (iteration : Z) (s : loop_state) : Grads :=
  let g0 := if (iteration - 1) mod gradient_accumulation_iters args =? 0
            then zero_grad (grads s) else grads s in
  let g1 := accumulate_grad (weights (alphafold s)) (iteration_seed iteration)
              (train_batch_at env iteration) (gradient_accumulation_iters args) g0 in
  if gradient_clipping args then clip_grad_norm (clip_grad_max_norm args) g1 else g1.

(** The seed of the construction of the network (line 448). *)
Definition init_seed : Z := get_seed_from_string ("alphafold_init_" ++ seed args).

(** The generators after the seeding of [create_alphafold_module]. *)
Definition seeded (seed : Z) : rng_state :=
  {| numpy_rng := numpy_seeded (seed mod NUMPY_SEED_MODULUS);
     torch_rng := torch_seeded seed;
     cuda_rng := fun _ => cuda_seeded seed |}.

(** The network that the set-up creates. *)
Definition created_network (seed : Z) : nn_module Params :=
  {| in_training := true;
     weights := snd (AlphaFold env (alphafold_config env) (seeded seed)) |}.

(** The effects of the set-up up to the construction of the optimizer. *)
Definition network_events : list event :=
  [EvCreate "AlphaFoldConfig"; EvCreate "InitialTrainingDataset";
   EvCreate "ValidationDataset";
   EvNumpySeed (init_seed mod NUMPY_SEED_MODULUS); EvManualSeed init_seed;
   EvCreate "AlphaFold";
   EvSetRngState "torch.cuda"; EvSetRngState "torch"; EvSetRngState "numpy";
   EvCreate "AlphaFoldLoss"; EvCreate "Adam"].

(** Whether the main process writes a checkpoint in this iteration. *)
Definition checkpoint_due (iteration : Z) : bool :=
  is_main_process proc && (checkpoint_every_iters args >? 0)
  && (iteration mod checkpoint_every_iters args =? 0).

(** The events of a validation iteration from the broadcast on. *)
Definition closing_events (iteration : Z) (score : option float) : list event :=
  ((if distributed args then [EvBroadcast] else [])
   ++ [EvEmptyCache]
   ++ (if checkpoint_due iteration then [EvSaveCheckpoint iteration true score] else []))%list.

(** The tensor a process holds after the broadcast. *)
Definition received_flag (iteration : Z) (local : float) : float :=
  if distributed args
  then (if is_main_process proc then local else broadcast_src env iteration)
  else local.

End Vocabulary.

(** Two training states that agree on the network, the gradients, the
    optimizer, the autograd switch and the effects made. *)
Definition assigned_alike `{OpenFold} (s s' : loop_state) : Prop :=
  alphafold s = alphafold s' /\
  grads s = grads s' /\
  optimizer s = optimizer s' /\
  autograd s = autograd s' /\
  loop_trace s = loop_trace s'.

(** Effects on what the processes share: a print, a checkpoint, or a
    log saved to a file other than [own]. *)
Definition foreign_write (own : string) (ev : event) : bool :=
  match ev with
  | EvPrint _ => true
  | EvSaveCheckpoint _ _ _ => true
  | EvSaveLogs outpath => negb (String.eqb outpath own)
  | _ => false
  end.


(** * Properties *)

(** ** Python arithmetic and assertions *)

Lemma assert_divisible_eq (a b : Z) :
  b <> 0 ->
  assert_divisible a b = if a mod b =? 0 then Ok tt else Raise AssertionError.
Proof.
  intros Hb. unfold assert_divisible, mod_.
  destruct (Z.eqb_spec b 0) as [E | _]; [contradiction |].
  cbn. destruct (a mod b =? 0); reflexivity.
Qed.

Lemma assert_divisible_ok (a b : Z) :
  b <> 0 -> (assert_divisible a b = Ok tt <-> a mod b = 0).
Proof.
  intros Hb. rewrite assert_divisible_eq by assumption.
  destruct (Z.eqb_spec (a mod b) 0); split; intros; try discriminate; auto; contradiction.
Qed.

Lemma assert_divisible_raises (a b : Z) (e : exn) :
  b <> 0 -> assert_divisible a b = Raise e -> e = AssertionError /\ a mod b <> 0.
Proof.
  intros Hb. rewrite assert_divisible_eq by assumption.
  destruct (Z.eqb_spec (a mod b) 0); intros E; inversion E; auto.
Qed.

Lemma bind_result_ok {A B} (m : result A) (k : A -> result B) (b : B) :
  bind m k = Ok b <-> exists a, m = Ok a /\ k a = Ok b.
Proof.
  destruct m; cbn; split.
  - eauto.
  - intros (a' & E & K). inversion E; subst; exact K.
  - discriminate.
  - intros (a' & E & _). discriminate.
Qed.

Lemma when_result_ok (c : bool) (body : result unit) :
  when c body = Ok tt <-> (c = true -> body = Ok tt).
Proof.
  destruct c; cbn; split; auto. intros; discriminate.
Qed.

Lemma bind_unit_ok {B} (m : result unit) (k : unit -> result B) (b : B) :
  bind m k = Ok b <-> m = Ok tt /\ k tt = Ok b.
Proof.
  rewrite bind_result_ok. split.
  - intros ([] & E & K). auto.
  - intros (E & K). exists tt. auto.
Qed.

(** ** [parse_args] *)

Lemma parser_parse_args_ok (argv args : Args) :
  parser_parse_args argv = Ok args <->
  args = argv /\ In (precision argv) precision_choices.
Proof.
  unfold parser_parse_args.
  destruct (existsb (String.eqb (precision argv)) precision_choices) eqn:E.
  - apply existsb_exists in E as (x & Hin & Hx). apply String.eqb_eq in Hx. subst x.
    split.
    + intros E'. inversion E'; subst. split; [reflexivity | assumption].
    + intros (-> & _). reflexivity.
  - split; [discriminate |]. intros (_ & Hin).
    assert (existsb (String.eqb (precision argv)) precision_choices = true) as E'.
    { apply existsb_exists. exists (precision argv). split; [assumption | apply String.eqb_refl]. }
    congruence.
Qed.

(** What [parse_args] accepts, exactly. *)
Lemma parse_args_ok (argv args : Args) :
  parse_args argv = Ok args <->
  args = argv /\
  In (precision argv) precision_choices /\
  (0 < checkpoint_every_iters argv ->
     val_every_iters argv mod checkpoint_every_iters argv = 0) /\
  (0 < log_every_iters argv ->
     val_every_iters argv mod log_every_iters argv = 0 /\
     (0 < checkpoint_every_iters argv ->
        checkpoint_every_iters argv mod log_every_iters argv = 0)) /\
  1 <= gradient_accumulation_iters argv /\
  num_train_iters argv mod gradient_accumulation_iters argv = 0 /\
  val_every_iters argv mod gradient_accumulation_iters argv = 0 /\
  checkpoint_every_iters argv mod gradient_accumulation_iters argv = 0 /\
  log_every_iters argv mod gradient_accumulation_iters argv = 0 /\
  warmup_lr_length argv mod gradient_accumulation_iters argv = 0 /\
  init_lr_length argv mod gradient_accumulation_iters argv = 0.
Proof.
  unfold parse_args.
  rewrite bind_result_ok.
  split.
  - intros (a & Hp & Hrest). apply parser_parse_args_ok in Hp as (-> & Hprec).
    apply bind_unit_ok in Hrest as (Hck & Hrest). rewrite when_result_ok in Hck.
    apply bind_unit_ok in Hrest as (Hlog & Hrest). rewrite when_result_ok in Hlog.
    apply bind_unit_ok in Hrest as (HK & Hrest).
    unfold assert in HK.
    destruct (Z.geb_spec (gradient_accumulation_iters argv) 1) as [HK1 | ]; [| discriminate].
    assert (gradient_accumulation_iters argv <> 0) as HK0 by lia.
    repeat (apply bind_unit_ok in Hrest as (?H & Hrest)).
    repeat match goal with
           | H : assert_divisible _ (gradient_accumulation_iters argv) = Ok tt |- _ =>
               apply assert_divisible_ok in H; [| assumption]
           end.
    inversion Hrest; subst args.
    repeat split; try assumption; try lia.
    + intros Hpos. apply assert_divisible_ok; [lia |].
      apply Hck. apply Z.gtb_lt. assumption.
    + assert ((log_every_iters argv >? 0) = true) as Hl by (apply Z.gtb_lt; assumption).
      specialize (Hlog Hl). apply bind_unit_ok in Hlog as (Hv & _).
      apply assert_divisible_ok in Hv; [assumption | lia].
    + intros Hc.
      assert ((log_every_iters argv >? 0) = true) as Hl by (apply Z.gtb_lt; assumption).
      specialize (Hlog Hl). apply bind_unit_ok in Hlog as (_ & Hc').
      rewrite when_result_ok in Hc'.
      apply assert_divisible_ok; [lia |]. apply Hc'. apply Z.gtb_lt. assumption.
  - intros (-> & Hprec & Hck & Hlog & HK & Hn & Hv & Hc & Hl & Hw & Hi).
    assert (gradient_accumulation_iters argv <> 0) as HK0 by lia.
    exists argv. split; [apply parser_parse_args_ok; auto |].
    apply bind_unit_ok. split.
    { apply when_result_ok. intros Hpos%Z.gtb_lt.
      apply assert_divisible_ok; [lia | auto]. }
    apply bind_unit_ok. split.
    { apply when_result_ok. intros Hpos%Z.gtb_lt.
      destruct (Hlog Hpos) as (Hvl & Hcl).
      apply bind_unit_ok. split.
      - apply assert_divisible_ok; [lia | assumption].
      - apply when_result_ok. intros Hc0%Z.gtb_lt.
        apply assert_divisible_ok; [lia | auto]. }
    apply bind_unit_ok. split.
    { unfold assert. destruct (Z.geb_spec (gradient_accumulation_iters argv) 1); [reflexivity | lia]. }
    repeat (apply bind_unit_ok; split; [apply assert_divisible_ok; assumption |]).
    reflexivity.
Qed.

Example parse_args_default : parse_args default_args = Ok default_args.
Proof. reflexivity. Qed.

Lemma parse_args_result (argv : Args) :
  parse_args argv = Ok argv \/ exists e, parse_args argv = Raise e.
Proof.
  destruct (parse_args argv) as [args | e] eqn:E.
  - left. apply parse_args_ok in E as (-> & _). reflexivity.
  - right. eauto.
Qed.

Lemma main_rejected (argv : Args) `{OpenFold} (env : Env) (e : exn) :
  parse_args argv = Raise e -> main argv env = ([], Raise e).
Proof. intros E. unfold main. rewrite E. reflexivity. Qed.

(** C3, as the code has it: a configuration is accepted exactly when the
    precision is one of the choices, the accumulation window is at least
    1 and divides the iteration count, the validation, checkpoint and log
    cadences and the two schedule lengths, an enabled checkpoint cadence
    divides the validation cadence, and an enabled log cadence divides the
    validation cadence and an enabled checkpoint cadence (the validation
    cadence is a multiple of the log cadence, not the reverse).  Any other
    configuration ends the program in [parse_args], before [training]
    has made a single effect. *)
Theorem parse_args_enforces_cadences (argv : Args) `{OpenFold} (env : Env) :
  (parse_args argv = Ok argv <->
     In (precision argv) precision_choices /\
     1 <= gradient_accumulation_iters argv /\
     num_train_iters argv mod gradient_accumulation_iters argv = 0 /\
     val_every_iters argv mod gradient_accumulation_iters argv = 0 /\
     checkpoint_every_iters argv mod gradient_accumulation_iters argv = 0 /\
     log_every_iters argv mod gradient_accumulation_iters argv = 0 /\
     warmup_lr_length argv mod gradient_accumulation_iters argv = 0 /\
     init_lr_length argv mod gradient_accumulation_iters argv = 0 /\
     (0 < checkpoint_every_iters argv ->
        val_every_iters argv mod checkpoint_every_iters argv = 0) /\
     (0 < log_every_iters argv ->
        val_every_iters argv mod log_every_iters argv = 0 /\
        (0 < checkpoint_every_iters argv ->
           checkpoint_every_iters argv mod log_every_iters argv = 0))) /\
  (parse_args argv <> Ok argv ->
     exists e, parse_args argv = Raise e /\ main argv env = ([], Raise e)).
Proof.
  split.
  - rewrite parse_args_ok. intuition.
  - intros Hno. destruct (parse_args_result argv) as [E | (e & E)]; [contradiction |].
    exists e. split; [assumption | apply main_rejected; assumption].
Qed.

Lemma parse_args_enforces_cadences_witness :
  parse_args (Toy.with_cadences 2 4 8 8 16 true "tf32")
    = Ok (Toy.with_cadences 2 4 8 8 16 true "tf32") /\
  exists e, parse_args (Toy.with_cadences 2 3 0 6 12 true "tf32") = Raise e /\
            main (Toy.with_cadences 2 3 0 6 12 true "tf32") Toy.env = ([], Raise e).
Proof.
  split.
  - apply (proj1 (parse_args_enforces_cadences (Toy.with_cadences 2 4 8 8 16 true "tf32") Toy.env)).
    cbn. repeat split; try reflexivity; auto; lia.
  - apply (proj2 (parse_args_enforces_cadences (Toy.with_cadences 2 3 0 6 12 true "tf32") Toy.env)).
    vm_compute. discriminate.
Defined.

(** C3, as stated, fails: this configuration saves logs every 100
    iterations and validates every 200; it is accepted although 100 is not
    a multiple of 200. *)
Lemma log_cadence_not_multiple_of_validation :
  parse_args (Toy.with_cadences 1 100 0 200 400 false "tf32")
    = Ok (Toy.with_cadences 1 100 0 200 400 false "tf32") /\
  0 < log_every_iters (Toy.with_cadences 1 100 0 200 400 false "tf32") /\
  log_every_iters (Toy.with_cadences 1 100 0 200 400 false "tf32")
    mod val_every_iters (Toy.with_cadences 1 100 0 200 400 false "tf32") <> 0.
Proof.
  split; [reflexivity |]. split; [reflexivity |]. cbn. discriminate.
Qed.

(** C9, as the code has it: with an accumulation window [K > 1] and
    [log_every_iters] left at -1, [parse_args] fails an assertion, the one
    on [log_every_iters % K], because [(-1) % K = K - 1]; the disabled
    checkpoint cadence 0 passes its check for every window size.  But the
    check is on divisibility alone: a cadence that is zero or negative
    leaves logging disabled, and a configuration with such a cadence is
    accepted exactly when the cadence is a multiple of [K] and the checks
    that do not involve the log cadence pass. *)
Theorem default_log_cadence_rejected_under_accumulation (argv : Args) :
  1 < gradient_accumulation_iters argv ->
  In (precision argv) precision_choices ->
  (log_every_iters argv = -1 ->
   parse_args argv = Raise AssertionError /\
   assert_divisible (log_every_iters argv) (gradient_accumulation_iters argv)
     = Raise AssertionError) /\
  assert_divisible 0 (gradient_accumulation_iters argv) = Ok tt /\
  (log_every_iters argv <= 0 ->
   is_logging_enabled argv = false /\
   (parse_args argv = Ok argv <->
      log_every_iters argv mod gradient_accumulation_iters argv = 0 /\
      num_train_iters argv mod gradient_accumulation_iters argv = 0 /\
      val_every_iters argv mod gradient_accumulation_iters argv = 0 /\
      checkpoint_every_iters argv mod gradient_accumulation_iters argv = 0 /\
      warmup_lr_length argv mod gradient_accumulation_iters argv = 0 /\
      init_lr_length argv mod gradient_accumulation_iters argv = 0 /\
      (0 < checkpoint_every_iters argv ->
         val_every_iters argv mod checkpoint_every_iters argv = 0))).
Proof.
  intros HK Hprec.
  assert (gradient_accumulation_iters argv <> 0) as HK0 by lia.
  split; [| split].
  - intros Hlog.
    assert ((-1) mod gradient_accumulation_iters argv = gradient_accumulation_iters argv - 1)
      as Hm.
    { symmetry. apply (Z.mod_unique _ _ (-1)); lia. }
    assert (assert_divisible (log_every_iters argv) (gradient_accumulation_iters argv)
            = Raise AssertionError) as Hl.
    { rewrite assert_divisible_eq by assumption. rewrite Hlog, Hm.
      destruct (Z.eqb_spec (gradient_accumulation_iters argv - 1) 0); [lia | reflexivity]. }
    split; [| exact Hl].
    unfold parse_args.
    assert (parser_parse_args argv = Ok argv) as -> by (apply parser_parse_args_ok; auto).
    cbn -[assert_divisible].
    replace (log_every_iters argv >? 0) with false by (rewrite Hlog; reflexivity).
    cbn -[assert_divisible].
    destruct (when _ _) as [[] | e] eqn:E1.
    + unfold assert at 1.
      destruct (Z.geb_spec (gradient_accumulation_iters argv) 1); [| lia].
      repeat match goal with
             | |- context [assert_divisible ?a ?b] =>
                 lazymatch a with
                 | log_every_iters argv => fail
                 | _ => let E := fresh "E" in
                        destruct (assert_divisible a b) as [[] | ?e] eqn:E;
                        [| apply assert_divisible_raises in E as (-> & _);
                           [reflexivity | assumption]]
                 end
             end.
      rewrite Hl. reflexivity.
    + unfold when in E1. destruct (checkpoint_every_iters argv >? 0) eqn:Hc; [| discriminate].
      apply Z.gtb_lt in Hc.
      apply assert_divisible_raises in E1 as (-> & _); [reflexivity | lia].
  - apply assert_divisible_ok; [assumption | apply Z.mod_0_l; assumption].
  - intros Hoff. split.
    + unfold is_logging_enabled.
      destruct (Z.gtb_spec (log_every_iters argv) 0); [lia | reflexivity].
    + rewrite parse_args_ok. split.
      * intros (_ & _ & Hck & _ & _ & Hn & Hv & Hc & Hl & Hw & Hi). auto 10.
      * intros (Hl & Hn & Hv & Hc & Hw & Hi & Hck).
        split; [reflexivity |]. split; [assumption |]. split; [assumption |].
        split; [intros Hpos; lia |]. split; [lia |]. auto 10.
Qed.

Lemma default_log_cadence_rejected_under_accumulation_witness :
  parse_args (Toy.with_cadences 2 (-1) 0 4 8 false "tf32") = Raise AssertionError /\
  assert_divisible (-1) 2 = Raise AssertionError /\
  assert_divisible 0 2 = Ok tt.
Proof.
  destruct (default_log_cadence_rejected_under_accumulation
              (Toy.with_cadences 2 (-1) 0 4 8 false "tf32")) as (Hdefault & Hzero & _).
  - cbn. lia.
  - cbn. auto.
  - destruct Hdefault as (Hp & Hl); [reflexivity |].
    split; [exact Hp |]. split; [exact Hl | exact Hzero].
Defined.

(** C9, as stated, fails in its last sentence: with a window of two
    iterations the negative cadence -2 is accepted, and it disables
    logging. *)
Lemma negative_log_cadence_accepted_under_accumulation :
  1 < gradient_accumulation_iters (Toy.with_cadences 2 (-2) 0 4 8 false "tf32") /\
  log_every_iters (Toy.with_cadences 2 (-2) 0 4 8 false "tf32") < 0 /\
  parse_args (Toy.with_cadences 2 (-2) 0 4 8 false "tf32")
    = Ok (Toy.with_cadences 2 (-2) 0 4 8 false "tf32") /\
  is_logging_enabled (Toy.with_cadences 2 (-2) 0 4 8 false "tf32") = false.
Proof.
  split; [reflexivity |]. split; [reflexivity |]. split; reflexivity.
Qed.

(** ** Evaluation routines on a network *)

Section DeepCamProperties.
Context `{DeepCam}.

Lemma inference_loop_run (loader : list (Inputs * Filename)) :
  forall (acc : list (Filename * NdArray)) (s : net_state NetParams),
    inference_loop loader acc s =
      ({| net := net s;
          grad_enabled := grad_enabled s;
          net_trace := net_trace s ++
                       repeat (EvForward (in_training (net s)) (grad_enabled s))
                              (List.length loader) |},
       Ok (acc ++
           map (fun x =>
                  (snd x,
                   cpu_numpy (argmax (softmax
                                        (net_forward (weights (net s)) (in_training (net s))
                                                     (to_device (fst x))) 1) 1)))
               loader)%list).
Proof.
  induction loader as [| [x f] loader IH]; intros acc s.
  - cbn. rewrite !app_nil_r. destruct s; reflexivity.
  - cbn [inference_loop]. cbn -[inference_loop]. rewrite IH. cbn.
    rewrite <- !app_assoc. reflexivity.
Qed.

(** C10: [inference] signals its start, puts the network in evaluation
    mode, runs one forward pass per element of the loader with autograd
    off, returns for each element, in loader order, its file name with
    the argmax over dimension 1 of the softmax over dimension 1 of the
    outputs, signals its end, and leaves the network in evaluation mode
    with its parameters untouched and autograd as it found it. *)
Theorem inference_collects_predictions
    (inference_loader : list (Inputs * Filename)) (s : net_state NetParams) :
  inference inference_loader s =
    ({| net := eval (net s);
        grad_enabled := grad_enabled s;
        net_trace := net_trace s ++
                     [EvLogStart "inference_start"] ++
                     repeat (EvForward false false) (List.length inference_loader) ++
                     [EvLogEnd "inference_stop"] |},
     Ok (map (fun x =>
                (snd x,
                 cpu_numpy (argmax (softmax (net_forward (weights (net s)) false
                                                         (to_device (fst x))) 1) 1)))
             inference_loader)).
Proof.
  unfold inference, no_grad. cbn -[inference_loop].
  rewrite inference_loop_run. cbn.
  rewrite <- !app_assoc. reflexivity.
Qed.

End DeepCamProperties.

Example inference_toy :
  inference [(1, "a.h5"); (2, "b.h5")] Toy.net0 =
    ({| net := {| in_training := false; weights := 7 |};
        grad_enabled := true;
        net_trace := [EvLogStart "inference_start"; EvForward false false;
                      EvForward false false; EvLogEnd "inference_stop"] |},
     Ok [("a.h5", 9); ("b.h5", 10)]).
Proof. reflexivity. Qed.

Section ValidationProperties.
Context `{OpenFold}.

(** The loop leaves the network and the autograd switch as they were,
    runs its forward passes with autograd off, and either returns one
    record per batch or stops at the first batch that is missing or does
    not hold exactly one sample. *)
Lemma validation_loop_run (n : nat) :
  forall (it : list Batch) (acc : list val_metrics) (s : net_state Params),
  exists (k : nat) (r : result (list val_metrics)),
    validation_loop n it acc s =
      ({| net := net s;
          grad_enabled := grad_enabled s;
          net_trace := net_trace s ++ repeat (EvForward (in_training (net s)) false) k |}, r) /\
    (k <= n)%nat /\
    match r with
    | Ok l =>
        k = n /\ (n <= List.length it)%nat /\
        exists l', l = (acc ++ l')%list /\
                   Forall2 (record_of (weights (net s)) (in_training (net s))) (firstn n it) l'
    | Raise e =>
        (k < n)%nat /\
        ((e = StopIteration /\ (List.length it < n)%nat) \/
         (e = AssertionError /\ ~ Forall single_sample (firstn n it)))
    end.
Proof.
  induction n as [| n IH]; intros it acc s.
  - exists 0%nat, (Ok acc). cbn. rewrite app_nil_r. destruct s. cbn.
    repeat split; try lia. exists []. rewrite app_nil_r. split; [reflexivity | constructor].
  - destruct it as [| b it].
    + exists 0%nat, (Raise StopIteration). cbn. rewrite app_nil_r. destruct s. cbn.
      repeat split; try lia. left. split; [reflexivity | cbn; lia].
    + cbn [validation_loop].
      destruct (batch_id b) as [| id [| id2 ids]] eqn:Eb.
      * exists 0%nat, (Raise AssertionError). cbn. rewrite app_nil_r. destruct s. cbn.
        split; [reflexivity |]. split; [lia |]. split; [lia |].
        right. split; [reflexivity |].
        intros HF. inversion HF as [| ? ? Hs _]; subst. unfold single_sample in Hs.
        rewrite Eb in Hs. discriminate.
      * cbn -[validation_loop]. unfold no_grad. cbn -[validation_loop].
        match goal with
        | |- context [validation_loop n it ?a ?st] =>
            destruct (IH it a st) as (k & r & E & Hk & Hr); rewrite E
        end.
        cbn in *. exists (S k), r. rewrite <- app_assoc. cbn.
        split; [reflexivity |]. split; [lia |].
        destruct r as [l | e].
        -- destruct Hr as (Hkn & Hlen & l' & Hl & HF). subst k l.
           split; [reflexivity |]. split; [lia |].
           eexists. rewrite <- app_assoc. split; [reflexivity |].
           constructor; [| exact HF].
           split; [cbn; rewrite Eb; destruct id; reflexivity | reflexivity].
        -- destruct Hr as (Hlt & [(-> & Hlen) | (-> & HF)]); (split; [lia |]).
           ++ left. split; [reflexivity | lia].
           ++ right. split; [reflexivity |]. intros HF'. apply HF.
              inversion HF'; assumption.
      * exists 0%nat, (Raise AssertionError). cbn. rewrite app_nil_r. destruct s. cbn.
        split; [reflexivity |]. split; [lia |]. split; [lia |].
        right. split; [reflexivity |].
        intros HF. inversion HF as [| ? ? Hs _]; subst. unfold single_sample in Hs.
        rewrite Eb in Hs. discriminate.
Qed.


(** The state in which a call of [validation] leaves the process. *)
Lemma validation_run (validation_dataloader : dataloader Batch) (s : net_state Params) :
  exists (k : nat) (r : result (list val_metrics)),
    validation validation_dataloader s =
      ({| net := {| in_training := is_ok r; weights := weights (net s) |};
          grad_enabled := grad_enabled s;
          net_trace := net_trace s ++ repeat (EvForward false false) k |}, r).
Proof.
  unfold validation. cbn -[validation_loop].
  match goal with
  | |- context [validation_loop ?n ?it ?a ?st] =>
      destruct (validation_loop_run n it a st) as (k & r & E & _); rewrite E
  end.
  exists k, r. destruct r; reflexivity.
Qed.

(** C6, as the code has it: [validation] switches the network to
    evaluation mode, runs one forward pass per batch with autograd off in
    that mode, and on a normal return has produced exactly one record per
    batch of the loader, in order, and has switched the network back to
    training mode.  When an exception escapes (the iterator is exhausted
    early, or a batch does not hold exactly one sample) the network is
    left in evaluation mode: the mode is restored on normal return only.
    The parameters and the autograd switch are as before on every exit. *)
Theorem validation_restores_mode_on_return
    (validation_dataloader : dataloader Batch) (s : net_state Params) :
  exists (k : nat) (r : result (list val_metrics)),
    validation validation_dataloader s =
      ({| net := {| in_training := is_ok r; weights := weights (net s) |};
          grad_enabled := grad_enabled s;
          net_trace := net_trace s ++ repeat (EvForward false false) k |}, r) /\
    match r with
    | Ok l =>
        k = dl_len validation_dataloader /\
        List.length l = dl_len validation_dataloader /\
        Forall2 (record_of (weights (net s)) false)
                (firstn (dl_len validation_dataloader) (dl_batches validation_dataloader)) l
    | Raise e =>
        (k < dl_len validation_dataloader)%nat /\
        ((e = StopIteration /\
          (List.length (dl_batches validation_dataloader) < dl_len validation_dataloader)%nat) \/
         (e = AssertionError /\
          ~ Forall single_sample
              (firstn (dl_len validation_dataloader) (dl_batches validation_dataloader))))
    end.
Proof.
  unfold validation. cbn -[validation_loop].
  match goal with
  | |- context [validation_loop ?n ?it ?a ?st] =>
      destruct (validation_loop_run n it a st) as (k & r & E & Hk & Hr); rewrite E
  end.
  cbn in *. exists k, r. destruct r as [l | e]; cbn.
  - split; [reflexivity |].
    destruct Hr as (-> & Hlen & l' & -> & HF). cbn.
    split; [reflexivity |]. split; [| exact HF].
    apply Forall2_length in HF. rewrite <- HF. apply firstn_length_le. exact Hlen.
  - split; [reflexivity | exact Hr].
Qed.

End ValidationProperties.

(** C6, as stated, fails: a loader whose first batch holds two samples
    makes the runner raise, and the network stays in evaluation mode. *)
Lemma validation_exception_leaves_eval_mode :
  validation (validation_dataloader Toy.env_bad_batch) Toy.net0 =
    ({| net := {| in_training := false; weights := 7 |};
        grad_enabled := true;
        net_trace := [] |},
     Raise AssertionError).
Proof. reflexivity. Qed.

Example validation_toy :
  validation (validation_dataloader Toy.env) Toy.net0 =
    ({| net := {| in_training := true; weights := 7 |};
        grad_enabled := true;
        net_trace := [EvForward false false; EvForward false false] |},
     Ok [{| lddt_ca := 0x1.ccccccccccccdp-1%float; val_index := 0; pdb_chain_id := "7abc_A" |};
         {| lddt_ca := 0x1.ccccccccccccdp-1%float; val_index := 1; pdb_chain_id := "7abc_A" |}]).
Proof. reflexivity. Qed.

(** ** Start-up *)

Section StartupProperties.
Context `{OpenFold}.

Lemma select_process_effects (args : Args) (env : environ)
    (st : startup_state) (r : result process) :
  select_process args env fresh_process = (st, r) ->
  Forall startup_effect (startup_trace st) /\
  (distributed args = true -> is_ok r = true -> In EvInitProcessGroup (startup_trace st)).
Proof.
  unfold select_process, init_process_group, fresh_process.
  intros E. pose proof (f_equal snd E) as Er. apply (f_equal fst) in E.
  cbn [fst snd] in E, Er. subst st r.
  destruct (distributed args), (RANK env) as [rk |], (WORLD_SIZE env), (LOCAL_RANK env),
    (MASTER_ADDR env), (MASTER_PORT env);
    cbn -[str String.append]; try destruct (rk =? 0); cbn -[str String.append];
    (split;
     [repeat (apply Forall_cons;
              [unfold startup_effect;
               first [left; reflexivity | right; left; eexists; reflexivity] |]);
      apply Forall_nil
     | intros; auto; try discriminate]).
Qed.

Lemma precision_settings_unimplemented (args : Args) (st : startup_state) :
  In (precision args) ["bf16"; "fp16"; "amp"] ->
  precision_settings args st =
    (st, Raise (NotImplementedError ("precision='" ++ precision args ++ "'"))).
Proof.
  intros Hin. unfold precision_settings.
  cbn in Hin. destruct Hin as [E | [E | [E | []]]]; rewrite <- E; reflexivity.
Qed.

Lemma precision_not_a_choice (argv : Args) :
  ~ In (precision argv) precision_choices -> parse_args argv = Raise (SystemExit 2).
Proof.
  intros Hn. unfold parse_args, parser_parse_args.
  destruct (existsb _ _) eqn:E; [| reflexivity].
  apply existsb_exists in E as (x & Hin & Hx). apply String.eqb_eq in Hx. subst x.
  contradiction.
Qed.

(** C8, as the code has it: a precision outside the parser's choices ends
    the program in [parse_args] with no effect at all.  The modes bf16,
    fp16 and amp are choices of the parser; a run with one of them always
    fails, and never constructs a training object, but when the arguments
    pass [parse_args] the failure is raised inside [training], after the
    process group was initialised (in a distributed run) and after the
    device was selected. *)
Theorem unsupported_precision_is_fatal (argv : Args) (env : Env) :
  (~ In (precision argv) precision_choices ->
     main argv env = ([], Raise (SystemExit 2))) /\
  (In (precision argv) ["bf16"; "fp16"; "amp"] ->
     exists (t : list event) (e : exn),
       main argv env = (t, Raise e) /\
       Forall startup_effect t /\
       (forall st proc,
          parse_args argv = Ok argv ->
          select_process argv (os_environ env) fresh_process = (st, Ok proc) ->
          t = (startup_trace st ++ [EvSetDevice (device proc)])%list /\
          (distributed argv = true -> In EvInitProcessGroup t) /\
          e = NotImplementedError ("precision='" ++ precision argv ++ "'"))).
Proof.
  split.
  - intros Hn. apply main_rejected. apply precision_not_a_choice. assumption.
  - intros Hin. destruct (parse_args_result argv) as [E | (e & E)].
    + unfold main. rewrite E. unfold training, training_start.
      fold fresh_process. cbn -[select_process precision_settings fresh_process].
      destruct (select_process argv (os_environ env) fresh_process) as [st [proc | e]] eqn:Es.
      * destruct (select_process_effects _ _ Es) as (Hev & Hpg).
        cbn -[precision_settings].
        rewrite precision_settings_unimplemented by assumption.
        do 2 eexists. split; [reflexivity |]. split.
        -- apply Forall_app. split; [assumption |].
           constructor; [| constructor]. right. right. eauto.
        -- intros st' proc' _ E'. inversion E'; subst. split; [reflexivity |].
           split; [| reflexivity].
           intros Hd. apply in_or_app. left. apply Hpg; [assumption | reflexivity].
      * destruct (select_process_effects _ _ Es) as (Hev & _).
        do 2 eexists. split; [reflexivity |]. split; [assumption |].
        intros st' proc' _ E'. discriminate.
    + exists [], e. split; [apply main_rejected; assumption |].
      split; [constructor |]. intros st proc E'. congruence.
Qed.

End StartupProperties.

Lemma unsupported_precision_is_fatal_witness :
  main (Toy.with_cadences 1 (-1) 0 2 2 false "int8") Toy.env = ([], Raise (SystemExit 2)) /\
  exists t e,
    main (Toy.with_cadences 1 (-1) 0 2 2 false "fp16") Toy.env = (t, Raise e) /\
    Forall startup_effect t.
Proof.
  split.
  - apply (proj1 (unsupported_precision_is_fatal
                    (Toy.with_cadences 1 (-1) 0 2 2 false "int8") Toy.env)).
    cbn. intros [E | [E | [E | [E | [E | []]]]]]; discriminate.
  - destruct (proj2 (unsupported_precision_is_fatal
                       (Toy.with_cadences 1 (-1) 0 2 2 false "fp16") Toy.env))
      as (t & e & Hm & Hev & _).
    + cbn. auto.
    + exists t, e. split; assumption.
Defined.

(** C8, as stated, fails: with [--precision bf16 --distributed] the
    process group has been initialised and the device selected when the
    error is raised. *)
Lemma unimplemented_precision_raised_after_device_selection :
  main (Toy.with_cadences 1 (-1) 0 2 2 true "bf16") Toy.env =
    ([EvInitProcessGroup;
      EvPrint "initialized distributed training: WORLD_SIZE=2";
      EvSetDevice 0],
     Raise (NotImplementedError "precision='bf16'")).
Proof. reflexivity. Qed.

(** ** Reasoning about effectful code *)

Section MonadProperties.
Context {S : Type} `{Traced S}.

Lemma bind_run {A B} (c : M S A) (k : A -> M S B) (s : S) :
  bind c k s = match c s with
               | (s', Ok a) => k a s'
               | (s', Raise e) => (s', Raise e)
               end.
Proof. reflexivity. Qed.

Lemma bind_assoc_run {A B C} (c : M S A) (k1 : A -> M S B) (k2 : B -> M S C) (s : S) :
  bind (bind c k1) k2 s = bind c (fun a => bind (k1 a) k2) s.
Proof. rewrite !bind_run. destruct (c s) as [s1 [a | e]]; reflexivity. Qed.

Lemma silent_ret {A} p (a : A) : silent p (ret a : M S A).
Proof. intros s. exists []. cbn. rewrite app_nil_r. auto. Qed.

Lemma silent_lift {A} p (r : result A) : silent p (lift r : M S A).
Proof. intros s. exists []. cbn. rewrite app_nil_r. auto. Qed.

Lemma silent_raise {A} p (e : exn) : silent p (raise e : M S A).
Proof. intros s. exists []. cbn. rewrite app_nil_r. auto. Qed.

Lemma silent_get p : silent p (get : M S S).
Proof. intros s. exists []. cbn. rewrite app_nil_r. auto. Qed.

Lemma silent_modify p (f : S -> S) :
  (forall s, trace (f s) = trace s) -> silent p (modify f).
Proof. intros Hf s. exists []. cbn. rewrite app_nil_r. auto. Qed.

Lemma silent_tell p (e : event) : p e = false -> silent p (tell e : M S unit).
Proof.
  intros Hp s. exists [e]. unfold tell, modify. cbn.
  rewrite trace_set_trace, Hp. auto.
Qed.

Lemma silent_bind {A B} p (c : M S A) (k : A -> M S B) :
  silent p c -> (forall a, silent p (k a)) -> silent p (bind c k).
Proof.
  intros Hc Hk s. rewrite bind_run.
  destruct (Hc s) as (e1 & E1 & F1).
  destruct (c s) as [s1 [a | e]]; cbn in E1.
  - destruct (Hk a s1) as (e2 & E2 & F2).
    exists (e1 ++ e2)%list. rewrite E2, E1, app_assoc, filter_app, F1, F2. auto.
  - exists e1. auto.
Qed.

Lemma silent_when p (b : bool) (c : M S unit) : silent p c -> silent p (when b c).
Proof. destruct b; cbn; [auto | intros; apply silent_ret]. Qed.

Lemma silent_if {A} p (b : bool) (c1 c2 : M S A) :
  silent p c1 -> silent p c2 -> silent p (if b then c1 else c2).
Proof. destruct b; auto. Qed.

Lemma preserves_ret {A X} (f : S -> X) (a : A) : preserves f (ret a : M S A).
Proof. intros s. reflexivity. Qed.

Lemma preserves_lift {A X} (f : S -> X) (r : result A) : preserves f (lift r : M S A).
Proof. intros s. reflexivity. Qed.

Lemma preserves_get {X} (f : S -> X) : preserves f (get : M S S).
Proof. intros s. reflexivity. Qed.

Lemma preserves_modify {X} (f : S -> X) (g : S -> S) :
  (forall s, f (g s) = f s) -> preserves f (modify g).
Proof. intros Hg s. apply Hg. Qed.

Lemma preserves_tell {X} (f : S -> X) (e : event) :
  (forall t s, f (set_trace t s) = f s) -> preserves f (tell e : M S unit).
Proof. intros Hf s. apply Hf. Qed.

Lemma preserves_bind {A B X} (f : S -> X) (c : M S A) (k : A -> M S B) :
  preserves f c -> (forall a, preserves f (k a)) -> preserves f (bind c k).
Proof.
  intros Hc Hk s. rewrite bind_run. specialize (Hc s).
  destruct (c s) as [s1 [a | e]]; cbn in Hc.
  - rewrite Hk. exact Hc.
  - exact Hc.
Qed.

Lemma preserves_when {X} (f : S -> X) (b : bool) (c : M S unit) :
  preserves f c -> preserves f (when b c).
Proof. destruct b; cbn; [auto | intros; apply preserves_ret]. Qed.

Lemma preserves_if {A X} (f : S -> X) (b : bool) (c1 c2 : M S A) :
  preserves f c1 -> preserves f c2 -> preserves f (if b then c1 else c2).
Proof. destruct b; auto. Qed.

End MonadProperties.

Create HintDb effects.

#[global] Hint Resolve silent_ret silent_lift silent_raise silent_get silent_when
  silent_if preserves_ret preserves_lift preserves_get preserves_when preserves_if
  : effects.

(** Decomposes a computation along its binds, conditionals and pattern
    matches, and closes the leaves that emit or modify. *)
Ltac effects :=
  repeat first
    [ progress intros
    | progress cbv beta
    | solve [eauto 3 with effects]
    | apply silent_bind | apply preserves_bind
    | apply silent_when | apply preserves_when
    | apply silent_if | apply preserves_if
    | apply silent_ret | apply preserves_ret
    | apply silent_lift | apply preserves_lift
    | apply silent_get | apply preserves_get
    | apply silent_raise
    | apply silent_tell; reflexivity
    | apply preserves_tell; reflexivity
    | apply silent_modify; reflexivity
    | apply preserves_modify; reflexivity
    | match goal with
      | |- silent _ (let '(_, _) := ?x in _) => destruct x
      | |- preserves _ (let '(_, _) := ?x in _) => destruct x
      | |- silent _ (match ?x with _ => _ end) => destruct x
      | |- preserves _ (match ?x with _ => _ end) => destruct x
      end ].

(** ** The training loop *)

Section LoopProperties.
Context `{OpenFold}.
Variables (args : Args) (env : Env) (proc : process).

Lemma filter_repeat_false (p : event -> bool) (ev : event) (n : nat) :
  p ev = false -> filter p (repeat ev n) = [].
Proof. intros Hp. induction n; cbn; [| rewrite Hp]; auto. Qed.

Lemma run_validation_run (s : loop_state) :
  exists (k : nat) (r : result (list val_metrics)),
    run_validation env s =
      ((if swa_enabled env
        then set_swa_alphafold
               {| in_training := is_ok r; weights := weights (swa_alphafold s) |}
        else set_alphafold
               {| in_training := is_ok r; weights := weights (alphafold s) |})
         (set_loop_trace (loop_trace s ++ repeat (EvForward false false) k) s), r).
Proof.
  unfold run_validation.
  destruct (validation_run (validation_dataloader env)
              {| net := if swa_enabled env then swa_alphafold s else alphafold s;
                 grad_enabled := autograd s;
                 net_trace := loop_trace s |}) as (k & r & E).
  rewrite E. exists k, r. cbn. destruct (swa_enabled env), s; reflexivity.
Qed.

Lemma validation_ok (dl : dataloader Batch) (s s' : net_state Params)
    (l : list val_metrics) :
  validation dl s = (s', Ok l) ->
  s' = {| net := train (net s);
          grad_enabled := grad_enabled s;
          net_trace := net_trace s ++ repeat (EvForward false false) (dl_len dl) |} /\
  Forall2 (record_of (weights (net s)) false) (firstn (dl_len dl) (dl_batches dl)) l.
Proof.
  unfold validation. cbn -[validation_loop].
  match goal with
  | |- context [validation_loop ?n ?it ?a ?st] =>
      destruct (validation_loop_run n it a st) as (k & r & E & _ & Hr); rewrite E
  end.
  destruct r as [l0 | e]; cbn; [| discriminate].
  intros E'. inversion E'; subst. cbn in Hr.
  destruct Hr as (-> & _ & l' & -> & HF). split; [reflexivity | exact HF].
Qed.

(** The records of the validation inside the loop are those of the
    network it scores. *)
Lemma run_validation_records (s s' : loop_state) (l : list val_metrics) :
  run_validation env s = (s', Ok l) ->
  Forall2 (record_of (weights (if swa_enabled env then swa_alphafold s else alphafold s))
                     false)
          (firstn (dl_len (validation_dataloader env))
                  (dl_batches (validation_dataloader env))) l.
Proof.
  unfold run_validation.
  destruct (validation (validation_dataloader env) _) as [ns [l0 | e]] eqn:Ev;
    [| destruct (swa_enabled env); discriminate].
  apply validation_ok in Ev as (_ & HF). cbn in HF.
  intros E. assert (l0 = l) as <- by (destruct (swa_enabled env); inversion E; reflexivity).
  exact HF.
Qed.

Lemma run_validation_grads : preserves grads (run_validation env).
Proof.
  intros s. destruct (run_validation_run s) as (k & r & E). rewrite E.
  destruct (swa_enabled env); reflexivity.
Qed.

Lemma run_validation_silent (p : event -> bool) :
  p (EvForward false false) = false -> silent p (run_validation env).
Proof.
  intros Hp s. destruct (run_validation_run s) as (k & r & E). rewrite E.
  exists (repeat (EvForward false false) k). split.
  - destruct (swa_enabled env); reflexivity.
  - apply filter_repeat_false. assumption.
Qed.

Lemma run_validation_learned : preserves learned (run_validation env).
Proof.
  intros s. destruct (run_validation_run s) as (k & r & E). rewrite E.
  destruct (swa_enabled env); reflexivity.
Qed.

Lemma run_validation_lr : preserves lr_scheduler (run_validation env).
Proof.
  intros s. destruct (run_validation_run s) as (k & r & E). rewrite E.
  destruct (swa_enabled env); reflexivity.
Qed.

Hint Resolve run_validation_learned run_validation_lr : effects.
Hint Extern 1 (silent _ (run_validation _)) =>
  apply run_validation_silent; reflexivity : effects.

Ltac unfold_blocks :=
  unfold validate_and_finish, validation_block, validation_local, collect_val_metrics,
    aggregate, local_stop_flag, broadcast, finish_iteration, save_checkpoint,
    log_step, average_losses, update_logs.

Lemma after_train_step_silent p iteration :
  p = is_optim_event \/ p = is_manual_seed ->
  silent p (log_step args proc iteration ;; validate_and_finish args env proc iteration).
Proof.
  intros [-> | ->]; unfold_blocks; effects.
Qed.

Lemma after_train_step_events p iteration (s : loop_state) :
  p = is_optim_event \/ p = is_manual_seed ->
  exists evs,
    loop_trace (fst ((log_step args proc iteration ;;
                      validate_and_finish args env proc iteration) s))
      = (loop_trace s ++ evs)%list /\
    filter p evs = [].
Proof. intros Hp. exact (after_train_step_silent iteration Hp s). Qed.

Lemma after_train_step_learned iteration :
  preserves learned
    (log_step args proc iteration ;; validate_and_finish args env proc iteration).
Proof. unfold_blocks; effects. Qed.

Lemma train_step_run (iteration : Z) (s : loop_state) :
  gradient_accumulation_iters args <> 0 ->
  TORCH_SEED_MODULUS <> 0 ->
  exists s1,
    train_step args env iteration s = (s1, Ok tt) /\
    loop_trace s1 =
      (loop_trace s ++
       [EvManualSeed (iteration_seed args iteration); EvNextTrainBatch;
        EvForward (in_training (alphafold s)) (autograd s)] ++
       optim_events args env iteration)%list /\
    lr_scheduler s1 = lr_scheduler s /\
    (iteration mod gradient_accumulation_iters args <> 0 -> learned s1 = learned s) /\
    (iteration mod gradient_accumulation_iters args = 0 ->
       (optimizer s1, weights (alphafold s1)) =
         optimizer_step (optimizer s) (weights (alphafold s)) (window_grads args env iteration s) /\
       weights (swa_alphafold s1) =
         if swa_enabled env
         then swa_update (weights (swa_alphafold s)) (weights (alphafold s1))
         else weights (swa_alphafold s)).
Proof.
  intros HK HM.
  unfold train_step, backward_pass, window_end, optimizer_step_, swa_update_,
    optim_events, window_grads, iteration_seed, training_seed, mod_.
  destruct (Z.eqb_spec TORCH_SEED_MODULUS 0) as [| _]; [contradiction |].
  destruct (Z.eqb_spec (gradient_accumulation_iters args) 0) as [| _]; [contradiction |].
  cbn -[Z.modulo String.append].
  destruct (Z.eqb_spec ((iteration - 1) mod gradient_accumulation_iters args) 0) as [E1 | E1];
    destruct (Z.eqb_spec (iteration mod gradient_accumulation_iters args) 0) as [E2 | E2];
    cbn -[Z.modulo String.append];
    try destruct (gradient_clipping args); cbn -[Z.modulo String.append];
    try (match goal with
         | |- context [optimizer_step ?o ?p ?g] => destruct (optimizer_step o p g) as [o' p'] eqn:Eo
         end);
    try destruct (swa_enabled env); cbn -[Z.modulo String.append];
    eexists; (split; [reflexivity |]); cbn -[Z.modulo String.append];
    rewrite <- ?app_assoc; cbn -[Z.modulo String.append];
    (split; [reflexivity |]); (split; [reflexivity |]);
    (split; [intros; try contradiction; reflexivity |]);
    intros; try contradiction; try (rewrite Eo); (split; reflexivity).
Qed.

Lemma after_train_step_grads iteration :
  preserves grads
    (log_step args proc iteration ;; validate_and_finish args env proc iteration).
Proof. pose proof run_validation_grads. unfold_blocks; effects. Qed.

(** The gradient buffer after the training step. *)
Lemma train_step_grads (iteration : Z) (s : loop_state) :
  gradient_accumulation_iters args <> 0 ->
  TORCH_SEED_MODULUS <> 0 ->
  grads (fst (train_step args env iteration s)) =
    let g0 := if (iteration - 1) mod gradient_accumulation_iters args =? 0
              then zero_grad (grads s) else grads s in
    let g1 := accumulate_grad (weights (alphafold s)) (iteration_seed args iteration)
                (train_batch_at env iteration) (gradient_accumulation_iters args) g0 in
    if (iteration mod gradient_accumulation_iters args =? 0) && gradient_clipping args
    then clip_grad_norm (clip_grad_max_norm args) g1 else g1.
Proof.
  intros HK HM.
  unfold train_step, backward_pass, window_end, optimizer_step_, swa_update_,
    iteration_seed, training_seed, mod_.
  destruct (Z.eqb_spec TORCH_SEED_MODULUS 0) as [| _]; [contradiction |].
  destruct (Z.eqb_spec (gradient_accumulation_iters args) 0) as [| _]; [contradiction |].
  cbn -[Z.modulo String.append].
  destruct ((iteration - 1) mod gradient_accumulation_iters args =? 0);
    destruct (iteration mod gradient_accumulation_iters args =? 0);
    cbn -[Z.modulo String.append];
    try destruct (gradient_clipping args); cbn -[Z.modulo String.append];
    try (match goal with
         | |- context [optimizer_step ?o ?p ?g] => destruct (optimizer_step o p g) as [o' p']
         end);
    try destruct (swa_enabled env); cbn -[Z.modulo String.append];
    reflexivity.
Qed.

Lemma filter_optim_events (iteration : Z) :
  filter is_optim_event (optim_events args env iteration) = optim_events args env iteration.
Proof.
  unfold optim_events.
  destruct (_ =? 0), (_ =? 0), (gradient_clipping args), (swa_enabled env); reflexivity.
Qed.

Lemma filter_seed_optim_events (iteration : Z) :
  filter is_manual_seed (optim_events args env iteration) = [] /\
  filter is_reduce_losses (optim_events args env iteration) = [].
Proof.
  unfold optim_events.
  destruct (_ =? 0), (_ =? 0), (gradient_clipping args), (swa_enabled env); split; reflexivity.
Qed.

(** C1: in every iteration of the loop (window size [K >= 1]) the
    optimisation events are, in this order: a reset of the gradients
    exactly when [(iteration - 1) % K = 0]; one backward pass; and exactly
    when [iteration % K = 0], the optional clipping, the optimizer step
    and, if weight averaging is enabled, the shadow update.  Parameters,
    optimizer state and shadow are those the iteration started with unless
    [iteration % K = 0], where they are the result of that one optimizer
    step and shadow update.  The gradient buffer the iteration leaves is
    the one it found, reset first exactly when [(iteration - 1) % K = 0],
    with the gradients of this iteration's batch accumulated onto it, and
    clipped exactly when [iteration % K = 0] and clipping is configured:
    between a reset and the next one every backward pass adds to what the
    passes before it left. *)
Theorem gradient_accumulation_window (iteration : Z) (s : loop_state) :
  1 <= gradient_accumulation_iters args ->
  TORCH_SEED_MODULUS <> 0 ->
  exists evs,
    loop_trace (fst (training_iteration args env proc iteration s))
      = (loop_trace s ++ evs)%list /\
    filter is_optim_event evs =
      ((if (iteration - 1) mod gradient_accumulation_iters args =? 0
        then [EvZeroGrad] else [])
       ++ [EvBackward]
       ++ (if iteration mod gradient_accumulation_iters args =? 0
           then (if gradient_clipping args then [EvClipGradNorm] else [])
                ++ [EvOptimizerStep]
                ++ (if swa_enabled env then [EvSwaUpdate] else [])
           else []))%list /\
    (iteration mod gradient_accumulation_iters args <> 0 ->
       learned (fst (training_iteration args env proc iteration s)) = learned s) /\
    (iteration mod gradient_accumulation_iters args = 0 ->
       let s' := fst (training_iteration args env proc iteration s) in
       (optimizer s', weights (alphafold s')) =
         optimizer_step (optimizer s) (weights (alphafold s)) (window_grads args env iteration s) /\
       weights (swa_alphafold s') =
         if swa_enabled env
         then swa_update (weights (swa_alphafold s)) (weights (alphafold s'))
         else weights (swa_alphafold s)) /\
    grads (fst (training_iteration args env proc iteration s)) =
      (let g0 := if (iteration - 1) mod gradient_accumulation_iters args =? 0
                 then zero_grad (grads s) else grads s in
       let g1 := accumulate_grad (weights (alphafold s))
                   ((get_seed_from_string ("training_seed_" ++ seed args) + iteration)
                    mod TORCH_SEED_MODULUS)
                   (train_batch_at env iteration) (gradient_accumulation_iters args) g0 in
       if (iteration mod gradient_accumulation_iters args =? 0) && gradient_clipping args
       then clip_grad_norm (clip_grad_max_norm args) g1 else g1).
Proof.
  intros HK HM.
  destruct (@train_step_run iteration s) as (s1 & E & Htr & _ & Hne & Heq); [lia | assumption |].
  destruct (@after_train_step_events is_optim_event iteration s1 (or_introl eq_refl))
    as (evs & Et & Hf).
  pose proof (@after_train_step_learned iteration s1) as Hl.
  pose proof (@after_train_step_grads iteration s1) as Hg.
  pose proof (@train_step_grads iteration s) as Hg1.
  rewrite E in Hg1. cbn [fst] in Hg1.
  unfold training_iteration. rewrite bind_run, E. cbv beta iota.
  set (sF := fst ((log_step args proc iteration ;;
                   validate_and_finish args env proc iteration) s1)) in *.
  eexists. split; [rewrite Et, Htr, <- app_assoc; reflexivity |].
  split; [| rewrite Hg, Hg1 by lia; rewrite <- and_assoc; split; [| reflexivity]].
  - rewrite !filter_app, Hf, filter_optim_events, app_nil_r. reflexivity.
  - assert (weights (alphafold sF) = weights (alphafold s1)) as Hw
      by exact (f_equal (fun x => fst (fst x)) Hl).
    assert (optimizer sF = optimizer s1) as Ho
      by exact (f_equal (fun x => snd (fst x)) Hl).
    assert (weights (swa_alphafold sF) = weights (swa_alphafold s1)) as Hs
      by exact (f_equal (fun x => snd x) Hl).
    split.
    + intros Hn. rewrite Hl. auto.
    + intros Hz. cbv zeta. destruct (Heq Hz) as (Hstep & Hswa).
      rewrite Hw, Ho, Hs. split; assumption.
Qed.

Lemma iteration_seed_applied (iteration : Z) (s : loop_state) :
  1 <= gradient_accumulation_iters args ->
  TORCH_SEED_MODULUS <> 0 ->
  exists evs,
    loop_trace (fst (training_iteration args env proc iteration s)) =
      (loop_trace s ++
       EvManualSeed ((get_seed_from_string ("training_seed_" ++ seed args) + iteration)
                     mod TORCH_SEED_MODULUS)
       :: EvNextTrainBatch :: EvForward (in_training (alphafold s)) (autograd s)
       :: evs)%list /\
    filter is_manual_seed evs = [].
Proof.
  intros HK HM.
  destruct (@train_step_run iteration s) as (s1 & E & Htr & _); [lia | assumption |].
  destruct (@after_train_step_events is_manual_seed iteration s1 (or_intror eq_refl))
    as (evs & Et & Hf).
  unfold training_iteration. rewrite bind_run, E. cbv beta iota.
  exists (optim_events args env iteration ++ evs)%list. split.
  - rewrite Et, Htr, <- app_assoc. reflexivity.
  - rewrite filter_app, Hf.
    destruct (filter_seed_optim_events iteration) as (-> & _). reflexivity.
Qed.

(** The events of an iteration that follow the training step, seen
    through the loss reduction. *)
Lemma after_train_step_reduce (iteration : Z) (s : loop_state) :
  exists evs,
    loop_trace (fst ((log_step args proc iteration ;;
                      validate_and_finish args env proc iteration) s))
      = (loop_trace s ++ evs)%list /\
    filter is_reduce_losses evs =
      if is_logging_enabled args && distributed args then [EvReduceLossesAvg false] else [].
Proof.
  assert (silent is_reduce_losses
            (update_logs args proc iteration ;;
             validate_and_finish args env proc iteration)) as Hs
    by (unfold_blocks; effects).
  unfold log_step. rewrite bind_assoc_run, bind_run.
  unfold average_losses.
  destruct (is_logging_enabled args), (distributed args); cbn [when andb];
    match goal with
    | |- context [match ?c s with _ => _ end] =>
        let s1 := fresh "s1" in
        remember (fst (c s)) as s1 eqn:Es1;
        assert (c s = (s1, Ok tt)) as -> by (subst s1; reflexivity)
    end;
    destruct (Hs s1) as (evs & Et & Hf);
    cbn [trace Traced_loop_state] in Et;
    subst s1; cbn in Et |- *; rewrite Et.
  - exists (EvReduceLossesAvg false :: evs). split.
    + rewrite <- app_assoc. reflexivity.
    + cbn. rewrite Hf. reflexivity.
  - exists evs. auto.
  - exists evs. auto.
  - exists evs. auto.
Qed.

(** C7, as the code has it: the losses are averaged across processes,
    with [synchronize=False], once in every iteration of a distributed run
    with logging enabled, whether or not the iteration closes an
    accumulation window, and never otherwise. *)
Theorem loss_averaging_every_logged_iteration (iteration : Z) (s : loop_state) :
  1 <= gradient_accumulation_iters args ->
  TORCH_SEED_MODULUS <> 0 ->
  exists evs,
    loop_trace (fst (training_iteration args env proc iteration s))
      = (loop_trace s ++ evs)%list /\
    filter is_reduce_losses evs =
      if is_logging_enabled args && distributed args then [EvReduceLossesAvg false] else [].
Proof.
  intros HK HM.
  destruct (@train_step_run iteration s) as (s1 & E & Htr & _); [lia | assumption |].
  destruct (after_train_step_reduce iteration s1) as (evs & Et & Hf).
  unfold training_iteration. rewrite bind_run, E. cbv beta iota.
  eexists. split; [rewrite Et, Htr, <- app_assoc; reflexivity |].
  rewrite !filter_app, Hf.
  destruct (filter_seed_optim_events iteration) as (_ & ->). reflexivity.
Qed.

(** *** Validation iterations *)

Lemma mod_ok (a b : Z) : b <> 0 -> mod_ a b = Ok (a mod b).
Proof. intros Hb. unfold mod_. destruct (Z.eqb_spec b 0); [contradiction | reflexivity]. Qed.

Lemma validate_and_finish_validation (iteration : Z) (s : loop_state) :
  val_every_iters args <> 0 ->
  iteration mod val_every_iters args = 0 ->
  validate_and_finish args env proc iteration s =
    match validation_local args env proc iteration s with
    | (s1, Ok (a, f0)) =>
        match (if distributed args then broadcast env proc iteration f0 else ret f0) s1 with
        | (s2, Ok f) =>
            finish_iteration args proc iteration true a (Some f)
              (set_loop_trace (loop_trace s2 ++ [EvEmptyCache]) s2)
        | (s2, Raise e) => (s2, Raise e)
        end
    | (s1, Raise e) => (s1, Raise e)
    end.
Proof.
  intros Hv Hm. unfold validate_and_finish, validation_block.
  rewrite mod_ok by assumption. rewrite Hm.
  rewrite bind_run. unfold lift. cbv beta iota zeta. cbn [Z.eqb].
  rewrite !bind_assoc_run. rewrite bind_run.
  destruct (validation_local args env proc iteration s) as [s1 [[a f0] | e]]; [| reflexivity].
  cbv beta iota. rewrite !bind_assoc_run. rewrite bind_run.
  destruct ((if distributed args then broadcast env proc iteration f0 else ret f0) s1)
    as [s2 [f | e]]; reflexivity.
Qed.

Lemma aggregate_mismatch (l : list val_metrics) (s : loop_state) :
  is_main_process proc = true ->
  List.length l <> validation_dataset_len env ->
  exists e,
    aggregate env proc l s = (s, Raise e) /\
    (forall v, mean_lddt_ca l = Ok v -> e = AssertionError) /\
    (forall e', mean_lddt_ca l = Raise e' -> e = e').
Proof.
  intros Hmain Hlen. unfold aggregate. rewrite Hmain.
  destruct (mean_lddt_ca l) as [v | e'] eqn:Em; cbn.
  - destruct (Nat.eqb_spec (List.length l) (validation_dataset_len env)); [contradiction |].
    cbn. exists AssertionError. repeat split; auto. intros; discriminate.
  - exists e'. repeat split; auto.
    + intros; discriminate.
    + intros e'' E. inversion E. reflexivity.
Qed.

(** What the local part of a validation iteration returns: on the main
    process the mean and its comparison with the target, elsewhere no
    mean and a zero flag. *)
Lemma validation_local_result (iteration : Z) (s s1 : loop_state)
    (a : option float) (f : float) :
  validation_local args env proc iteration s = (s1, Ok (a, f)) ->
  if is_main_process proc
  then exists v, a = Some v /\
                 f = (if (target_avg_lddt_ca_value args <=? v)%float then 1 else 0)%float
  else a = None /\ f = 0%float.
Proof.
  unfold validation_local, aggregate, local_stop_flag, is_main_process_and_logging.
  rewrite bind_run.
  destruct (collect_val_metrics args env proc iteration s) as [s0 [l | e]]; [| discriminate].
  destruct (is_main_process proc).
  - destruct (mean_lddt_ca l) as [v | e]; cbn; [| discriminate].
    destruct (Nat.eqb _ _); cbn; [| discriminate].
    destruct (is_logging_enabled args); cbn;
      destruct (target_avg_lddt_ca_value args <=? v)%float eqn:Ele; cbn;
      intros E; inversion E; subst; exists v; rewrite ?Ele; auto.
  - cbn. intros E. inversion E. auto.
Qed.

(** On the main process the score is the mean of the records that the
    validation pass produced and, in a distributed run, the gather
    delivered, and these are as many as the validation set has samples. *)
Lemma validation_local_mean (iteration : Z) (s s1 : loop_state)
    (a : option float) (f : float) :
  is_main_process proc = true ->
  validation_local args env proc iteration s = (s1, Ok (a, f)) ->
  exists (local records : list val_metrics) (v : float),
    Forall2 (record_of (weights (if swa_enabled env then swa_alphafold s else alphafold s))
                       false)
            (firstn (dl_len (validation_dataloader env))
                    (dl_batches (validation_dataloader env))) local /\
    records = (if distributed args
               then dist_gather_val_metrics env iteration local else local) /\
    List.length records = validation_dataset_len env /\
    mean_lddt_ca records = Ok v /\
    a = Some v /\
    f = (if (target_avg_lddt_ca_value args <=? v)%float then 1 else 0)%float.
Proof.
  intros Hmain.
  unfold validation_local, collect_val_metrics, aggregate, local_stop_flag,
    is_main_process_and_logging.
  rewrite Hmain. cbn [andb].
  rewrite !bind_assoc_run, bind_run.
  assert (exists s', (when (is_logging_enabled args) (tell (EvPrint "validation..."))) s
                     = (s', Ok tt) /\
                     alphafold s' = alphafold s /\ swa_alphafold s' = swa_alphafold s)
    as (s' & -> & Ha & Hs).
  { destruct (is_logging_enabled args); cbn; eexists; repeat split; reflexivity. }
  cbv beta iota. rewrite bind_assoc_run, bind_run.
  destruct (run_validation env s') as [s2 [local | e]] eqn:Ev;
    cbv beta iota; [| intros; discriminate].
  apply run_validation_records in Ev. rewrite Ha, Hs in Ev.
  set (records := if distributed args
                  then dist_gather_val_metrics env iteration local else local).
  assert (forall k : list val_metrics -> M loop_state (option float * float),
            exists s3,
              bind (if distributed args
                    then tell (EvGatherValMetrics true) ;;
                         ret (dist_gather_val_metrics env iteration local)
                    else ret local) k s2 = k records s3) as Hk.
  { intros k. subst records. destruct (distributed args); cbn; eexists; reflexivity. }
  destruct (Hk (fun val_metrics_list =>
                  val_avg_lddt_ca <-
                    (val_avg_lddt_ca <- lift (mean_lddt_ca val_metrics_list) ;;
                     lift (assert (Nat.eqb (List.length val_metrics_list)
                                           (validation_dataset_len env))) ;;
                     ret (Some val_avg_lddt_ca)) ;;
                  when (is_logging_enabled args)
                    (lift (read_local "val_avg_lddt_ca" val_avg_lddt_ca) ;;
                     tell (EvPrint "validation {val_log}") ;;
                     tell (EvSaveLogs "logs/validation.log")) ;;
                  stop_training_flag <-
                    (v <- lift (read_local "val_avg_lddt_ca" val_avg_lddt_ca) ;;
                     if (target_avg_lddt_ca_value args <=? v)%float
                     then ret 1%float else ret 0%float) ;;
                  ret (val_avg_lddt_ca, stop_training_flag))) as (s3 & ->).
  destruct (mean_lddt_ca records) as [v | e] eqn:Em; cbn; [| discriminate].
  destruct (Nat.eqb_spec (List.length records) (validation_dataset_len env)) as [Hlen | ];
    cbn; [| discriminate].
  destruct (is_logging_enabled args); cbn;
    destruct (target_avg_lddt_ca_value args <=? v)%float eqn:Ele; cbn;
    intros E; inversion E; subst;
    exists local, records, v; rewrite ?Ele; repeat split; auto.
Qed.

Lemma until_broadcast_split (iteration : Z) (s s1 : loop_state) (x : option float * float) :
  until_broadcast args env proc iteration s = (s1, Ok x) ->
  exists s0,
    (train_step args env iteration ;; log_step args proc iteration) s = (s0, Ok tt) /\
    validation_local args env proc iteration s0 = (s1, Ok x).
Proof.
  unfold until_broadcast. rewrite !bind_run.
  destruct (train_step args env iteration s) as [sa [[] | e]];
    cbv beta iota; [| discriminate].
  rewrite bind_run.
  destruct (log_step args proc iteration sa) as [sb [[] | e]];
    cbv beta iota; [| discriminate].
  intros E. exists sb. auto.
Qed.

Lemma training_iteration_until_broadcast (iteration : Z) (s s1 : loop_state) (e : exn) :
  val_every_iters args <> 0 ->
  iteration mod val_every_iters args = 0 ->
  until_broadcast args env proc iteration s = (s1, Raise e) ->
  training_iteration args env proc iteration s = (s1, Raise e).
Proof.
  intros Hv Hm. unfold until_broadcast, training_iteration. rewrite !bind_run.
  destruct (train_step args env iteration s) as [sa [[] | e1]];
    cbv beta iota; [| intros E; inversion E; reflexivity].
  rewrite !bind_run.
  destruct (log_step args proc iteration sa) as [sb [[] | e2]];
    cbv beta iota; [| intros E; inversion E; reflexivity].
  rewrite validate_and_finish_validation by assumption.
  intros ->. reflexivity.
Qed.

(** A validation iteration, from the broadcast to its end. *)
Lemma training_iteration_closing (iteration : Z) (s s1 : loop_state)
    (a : option float) (f0 : float) :
  val_every_iters args <> 0 ->
  iteration mod val_every_iters args = 0 ->
  until_broadcast args env proc iteration s = (s1, Ok (a, f0)) ->
  training_iteration args env proc iteration s =
    if tensor_bool (received_flag args env proc iteration f0)
    then (set_loop_trace (loop_trace s1 ++ closing_events args proc iteration a) s1, Ok Break)
    else (set_lr_scheduler (lr_scheduler s1 + 1)
            (set_loop_trace
               (loop_trace s1 ++ closing_events args proc iteration a ++ [EvLrSchedulerStep]) s1),
          Ok Continue).
Proof.
  intros Hv Hm Hu.
  destruct (until_broadcast_split _ _ Hu) as (s0 & E0 & El).
  pose proof (validation_local_result _ _ El) as Hres.
  unfold training_iteration. rewrite <- bind_assoc_run, bind_run, E0.
  rewrite validate_and_finish_validation by assumption. rewrite El.
  unfold closing_events, received_flag, checkpoint_due, finish_iteration,
    save_checkpoint, broadcast.
  destruct (is_main_process proc).
  - destruct Hres as (v & -> & _).
    destruct (distributed args); cbn -[Z.modulo tensor_bool];
      (destruct (checkpoint_every_iters args >? 0) eqn:Ec;
       [rewrite mod_ok by (apply Z.gtb_lt in Ec; lia) |]);
      cbn -[Z.modulo tensor_bool];
      try destruct (iteration mod checkpoint_every_iters args =? 0);
      cbn -[Z.modulo tensor_bool];
      destruct (tensor_bool f0); cbn; rewrite <- ?app_assoc; reflexivity.
  - destruct Hres as (-> & ->).
    destruct (distributed args); cbn -[Z.modulo tensor_bool];
      match goal with
      | |- context [tensor_bool ?x] => destruct (tensor_bool x)
      end; cbn; rewrite <- ?app_assoc; reflexivity.
Qed.

(** A [break] ends the loop. *)
Lemma for_iterations_break (iteration : Z) (rest : list Z) (s s' : loop_state) :
  training_iteration args env proc iteration s = (s', Ok Break) ->
  for_iterations args env proc (iteration :: rest) s = (s', Ok tt).
Proof. intros E. cbn [for_iterations]. rewrite bind_run, E. reflexivity. Qed.

(** An exception in an iteration ends the loop and the run. *)
Lemma for_iterations_raise (iteration : Z) (rest : list Z) (s s' : loop_state) (e : exn) :
  training_iteration args env proc iteration s = (s', Raise e) ->
  for_iterations args env proc (iteration :: rest) s = (s', Raise e).
Proof. intros E. cbn [for_iterations]. rewrite bind_run, E. reflexivity. Qed.

Lemma until_broadcast_lr (iteration : Z) :
  preserves lr_scheduler (until_broadcast args env proc iteration).
Proof.
  unfold until_broadcast, train_step, backward_pass, window_end, optimizer_step_,
    swa_update_. unfold_blocks.
  effects.
  all: try (apply preserves_modify; intros st;
            destruct (optimizer_step _ _ _); reflexivity).
Qed.

Lemma collect_val_metrics_silent p iteration :
  p = is_save_checkpoint \/ p = is_lr_step ->
  silent p (train_step args env iteration ;; log_step args proc iteration ;;
            collect_val_metrics args env proc iteration).
Proof.
  intros [-> | ->];
    unfold train_step, backward_pass, window_end, optimizer_step_, swa_update_;
    unfold_blocks; effects;
    try (apply silent_modify; intros st; destruct (optimizer_step _ _ _); reflexivity).
Qed.

Lemma collect_val_metrics_gathered (iteration : Z) (s s1 : loop_state)
    (l : list val_metrics) :
  distributed args = true ->
  collect_val_metrics args env proc iteration s = (s1, Ok l) ->
  exists pre local,
    loop_trace s1 = (pre ++ [EvGatherValMetrics true])%list /\
    l = dist_gather_val_metrics env iteration local.
Proof.
  intros Hd. unfold collect_val_metrics. rewrite Hd, bind_run.
  match goal with
  | |- context [match ?c s with _ => _ end] => destruct (c s) as [s0 [[] | e]]
  end; cbv beta iota; [| discriminate].
  rewrite bind_run.
  destruct (run_validation env s0) as [s2 [local | e]]; cbv beta iota; [| discriminate].
  cbn. intros E. inversion E; subst. cbn. eauto.
Qed.

(** C5: when the main process holds, after the validation pass and (in a
    distributed run) the gather, a list of records whose length is not
    [len(validation_dataset)], the iteration raises at that point, with
    [AssertionError] unless the computation of the mean has already
    failed; the exception ends the loop; no checkpoint is written and the
    schedule is not advanced in that iteration. *)
Theorem gathered_count_mismatch_is_fatal (iteration : Z) (s s1 : loop_state)
    (l : list val_metrics) :
  is_main_process proc = true ->
  val_every_iters args <> 0 ->
  iteration mod val_every_iters args = 0 ->
  (train_step args env iteration ;; log_step args proc iteration ;;
   collect_val_metrics args env proc iteration) s = (s1, Ok l) ->
  List.length l <> validation_dataset_len env ->
  exists e,
    training_iteration args env proc iteration s = (s1, Raise e) /\
    (forall v, mean_lddt_ca l = Ok v -> e = AssertionError) /\
    (forall rest, for_iterations args env proc (iteration :: rest) s = (s1, Raise e)) /\
    (distributed args = true ->
       exists pre local,
         loop_trace s1 = (pre ++ [EvGatherValMetrics true])%list /\
         l = dist_gather_val_metrics env iteration local) /\
    exists evs,
      loop_trace s1 = (loop_trace s ++ evs)%list /\
      filter is_save_checkpoint evs = [] /\
      filter is_lr_step evs = [].
Proof.
  intros Hmain Hv Hm Hc Hlen.
  destruct (aggregate_mismatch l s1 Hmain Hlen) as (e & Ea & Hass & _).
  assert (training_iteration args env proc iteration s = (s1, Raise e)) as Hit.
  { unfold training_iteration. rewrite bind_run in Hc; rewrite bind_run.
    destruct (train_step args env iteration s) as [sa [[] | e1]];
      cbv beta iota in Hc |- *; [| discriminate].
    rewrite bind_run in Hc; rewrite bind_run.
    destruct (log_step args proc iteration sa) as [sb [[] | e2]];
      cbv beta iota in Hc |- *; [| discriminate].
    rewrite validate_and_finish_validation by assumption.
    unfold validation_local. rewrite bind_run, Hc, bind_run, Ea. reflexivity. }
  exists e. split; [exact Hit |]. split; [exact Hass |].
  split; [intros rest; apply for_iterations_raise; exact Hit |].
  split.
  - intros Hd. rewrite bind_run in Hc.
    destruct (train_step args env iteration s) as [sa [[] | e1]];
      cbv beta iota in Hc; [| discriminate].
    rewrite bind_run in Hc.
    destruct (log_step args proc iteration sa) as [sb [[] | e2]];
      cbv beta iota in Hc; [| discriminate].
    eapply collect_val_metrics_gathered; eassumption.
  - destruct (@collect_val_metrics_silent is_save_checkpoint iteration (or_introl eq_refl) s)
      as (evs & Et & Hf).
    destruct (@collect_val_metrics_silent is_lr_step iteration (or_intror eq_refl) s)
      as (evs' & Et' & Hf').
    rewrite Hc in Et, Et'. cbn in Et, Et'.
    rewrite Et in Et'. apply app_inv_head in Et'. subst evs'.
    exists evs. auto.
Qed.

End LoopProperties.

(** C4: the seed applied in an iteration is
    [(get_seed_from_string("training_seed_" + seed) + iteration) %
    TORCH_SEED_MODULUS]; it is applied first, before the batch is fetched
    and the forward pass is run, and it is the only seed applied in the
    iteration.  Two runs that agree on the configured seed string apply
    the same seed at the same iteration, whatever else differs between
    them (other options, process, data, state). *)
Theorem iteration_seed_deterministic `{OpenFold}
    (args args' : Args) (env env' : Env) (proc proc' : process)
    (iteration : Z) (s s' : loop_state) :
  seed args = seed args' ->
  1 <= gradient_accumulation_iters args ->
  1 <= gradient_accumulation_iters args' ->
  TORCH_SEED_MODULUS <> 0 ->
  exists evs evs',
    loop_trace (fst (training_iteration args env proc iteration s)) =
      (loop_trace s ++
       EvManualSeed ((get_seed_from_string ("training_seed_" ++ seed args) + iteration)
                     mod TORCH_SEED_MODULUS)
       :: EvNextTrainBatch :: EvForward (in_training (alphafold s)) (autograd s)
       :: evs)%list /\
    loop_trace (fst (training_iteration args' env' proc' iteration s')) =
      (loop_trace s' ++
       EvManualSeed ((get_seed_from_string ("training_seed_" ++ seed args) + iteration)
                     mod TORCH_SEED_MODULUS)
       :: EvNextTrainBatch :: EvForward (in_training (alphafold s')) (autograd s')
       :: evs')%list /\
    filter is_manual_seed evs = [] /\
    filter is_manual_seed evs' = [].
Proof.
  intros Hseed HK HK' HM.
  destruct (iteration_seed_applied args env proc iteration s HK HM) as (evs & E1 & F1).
  destruct (iteration_seed_applied args' env' proc' iteration s' HK' HM) as (evs' & E2 & F2).
  exists evs, evs'. rewrite <- Hseed in E2. auto.
Qed.

(** ** The stop decision across processes *)

Section WorldProperties.
Context `{OpenFold}.

Lemma Forall2_map_r {A B} (R : A -> B -> Prop) (g : A -> B) (l : list A) :
  (forall x, In x l -> R x (g x)) -> Forall2 R l (map g l).
Proof.
  induction l as [| x l IH]; intros Hl; cbn; constructor.
  - apply Hl. left. reflexivity.
  - apply IH. intros y Hy. apply Hl. right. assumption.
Qed.

Lemma tensor_bool_flag (b : bool) :
  tensor_bool (if b then 1%float else 0%float) = b.
Proof. destruct b; reflexivity. Qed.

(** C2: at a validation iteration that the main process carries to the
    point of the broadcast, there is one decision: the comparison, made
    by the main process, of its mean lDDT-Ca with the target.  That mean
    is [mean_lddt_ca] of the records of the validation pass over the
    network as the training step of the iteration left it (the averaged
    network when weight averaging is enabled), as the gather delivered
    them in a distributed run, and they are as many as the validation set
    has samples.  Every other process holds a zero flag until the
    broadcast.  Every process that
    reaches that point then ends the iteration on that decision: when it
    is to stop, with a [break] that ends its loop, the scheduler left
    where it was and the checkpoint of the iteration (written by the main
    process when one is due) as the last effect; when it is to continue,
    with the scheduler advanced.  A run that is not distributed has the
    main process only. *)
Theorem stop_decision_shared_by_all_ranks
    (args : Args) (main : rank_state) (others : list rank_state) (iteration : Z)
    (results : list (loop_state * result control)) :
  (distributed args = false -> others = []) ->
  is_main_process (rank_proc main) = true ->
  Forall (fun r => is_main_process (rank_proc r) = false) others ->
  val_every_iters args <> 0 ->
  iteration mod val_every_iters args = 0 ->
  world_iteration args main others iteration = Some results ->
  exists (v : float) (sm : loop_state),
    let stop := (target_avg_lddt_ca_value args <=? v)%float in
    until_broadcast args (rank_env main) (rank_proc main) iteration (rank_loop main)
      = (sm, Ok (Some v, if stop then 1%float else 0%float)) /\
    (exists (s0 : loop_state) (local records : list val_metrics),
       (train_step args (rank_env main) iteration ;;
        log_step args (rank_proc main) iteration) (rank_loop main) = (s0, Ok tt) /\
       Forall2 (record_of (weights (if swa_enabled (rank_env main)
                                    then swa_alphafold s0 else alphafold s0)) false)
               (firstn (dl_len (validation_dataloader (rank_env main)))
                       (dl_batches (validation_dataloader (rank_env main)))) local /\
       records = (if distributed args
                  then dist_gather_val_metrics (rank_env main) iteration local
                  else local) /\
       List.length records = validation_dataset_len (rank_env main) /\
       mean_lddt_ca records = Ok v) /\
    Forall (fun r =>
              forall sb a f,
                until_broadcast args (rank_env r) (rank_proc r) iteration (rank_loop r)
                  = (sb, Ok (a, f)) ->
                a = None /\ f = 0%float) others /\
    Forall2
      (fun r out =>
         match until_broadcast args (rank_env r) (rank_proc r) iteration (rank_loop r) with
         | (sb, Ok (a, _)) =>
             let closing :=
               ((if distributed args then [EvBroadcast] else [])
                ++ [EvEmptyCache]
                ++ (if is_main_process (rank_proc r) && (checkpoint_every_iters args >? 0)
                       && (iteration mod checkpoint_every_iters args =? 0)
                    then [EvSaveCheckpoint iteration true a] else []))%list in
             lr_scheduler sb = lr_scheduler (rank_loop r) /\
             out = (if stop
                    then (set_loop_trace (loop_trace sb ++ closing) sb, Ok Break)
                    else (set_lr_scheduler (lr_scheduler sb + 1)
                            (set_loop_trace
                               (loop_trace sb ++ closing ++ [EvLrSchedulerStep]) sb),
                          Ok Continue)) /\
             (stop = true ->
              forall rest,
                for_iterations args (set_broadcast_src 1%float (rank_env r)) (rank_proc r)
                  (iteration :: rest) (rank_loop r) = (fst out, Ok tt))
         | (sb, Raise e) => out = (sb, Raise e)
         end)
      (main :: others) results.
Proof.
  intros Hd Hmain Hothers Hv Hm. unfold world_iteration.
  destruct (until_broadcast args (rank_env main) (rank_proc main) iteration (rank_loop main))
    as [sm [[a0 f0] | e]] eqn:Eu; [| discriminate].
  intros E. inversion E; subst results; clear E.
  pose proof Eu as El. apply until_broadcast_split in El as (s0 & E0 & El).
  destruct (@validation_local_mean _ args (rank_env main) (rank_proc main) iteration
              s0 sm a0 f0 Hmain El)
    as (local & records & v & HF & Hrec & Hlen & Hmean & -> & ->).
  exists v, sm. cbv zeta.
  set (stop := (target_avg_lddt_ca_value args <=? v)%float) in *.
  split; [reflexivity |].
  split; [exists s0, local, records; repeat split; assumption |]. split.
  - rewrite Forall_forall in Hothers |- *. intros r Hr sb a f Er.
    pose proof Er as El'. apply until_broadcast_split in El' as (s0' & _ & El').
    pose proof El' as Hres. apply validation_local_result in Hres.
    rewrite (Hothers r Hr) in Hres. exact Hres.
  - set (flag := if stop then 1%float else 0%float) in *.
    refine (Forall2_map_r _
              (fun r => training_iteration args (set_broadcast_src flag (rank_env r))
                          (rank_proc r) iteration (rank_loop r))
              (main :: others) _).
    intros r Hr.
    destruct (until_broadcast args (rank_env r) (rank_proc r) iteration (rank_loop r))
      as [sb [[a f] | e]] eqn:Er.
    + assert (received_flag args (set_broadcast_src flag (rank_env r)) (rank_proc r)
                iteration f = flag) as Hrecv.
      { unfold received_flag. destruct (distributed args) eqn:Edist.
        - destruct Hr as [<- | Hr].
          + rewrite Hmain. rewrite Eu in Er. inversion Er. reflexivity.
          + rewrite Forall_forall in Hothers. rewrite (Hothers r Hr). reflexivity.
        - rewrite (Hd eq_refl) in Hr. destruct Hr as [<- | []].
          rewrite Eu in Er. inversion Er. reflexivity. }
      pose proof (@training_iteration_closing _ args (set_broadcast_src flag (rank_env r))
                    (rank_proc r) iteration (rank_loop r) sb a f Hv Hm Er) as Hclose.
      assert (tensor_bool flag = stop) as Hflag by (unfold flag; apply tensor_bool_flag).
      rewrite Hrecv, Hflag in Hclose.
      unfold closing_events, checkpoint_due in Hclose.
      split.
      * pose proof (until_broadcast_lr args (rank_env r) (rank_proc r) iteration
                      (rank_loop r)) as Hlr.
        rewrite Er in Hlr. exact Hlr.
      * split; [exact Hclose |].
        intros Hstop rest. apply for_iterations_break.
        assert (flag = 1%float) as Hf1 by (unfold flag; rewrite Hstop; reflexivity).
        rewrite Hf1 in Hclose |- *. rewrite Hclose, Hstop. reflexivity.
    + apply (@training_iteration_until_broadcast _ args (set_broadcast_src flag (rank_env r)));
        assumption.
Qed.

End WorldProperties.

(** ** The properties on a concrete run *)

Lemma gradient_accumulation_window_witness :
  exists evs,
    loop_trace (fst (training_iteration (Toy.with_cadences 2 2 2 2 4 true "tf32")
                       Toy.env Toy.main_proc 2
                       (@set_grads Toy.openfold 1 (Toy.start Toy.env)))) = evs /\
    filter is_optim_event evs =
      [EvBackward; EvClipGradNorm; EvOptimizerStep; EvSwaUpdate] /\
    grads (fst (training_iteration (Toy.with_cadences 2 2 2 2 4 true "tf32")
                  Toy.env Toy.main_proc 2 (@set_grads Toy.openfold 1 (Toy.start Toy.env)))) = 2.
Proof.
  destruct (@gradient_accumulation_window _ (Toy.with_cadences 2 2 2 2 4 true "tf32")
              Toy.env Toy.main_proc 2 (@set_grads Toy.openfold 1 (Toy.start Toy.env)))
    as (evs & E & F & _ & _ & G).
  - cbn. lia.
  - vm_compute. discriminate.
  - exists evs. split; [exact E |]. split; [exact F |]. rewrite G. reflexivity.
Defined.

Lemma iteration_seed_deterministic_witness :
  exists sd evs evs',
    loop_trace (fst (training_iteration (Toy.with_cadences 2 2 2 2 4 true "tf32")
                       Toy.env Toy.main_proc 3 (Toy.start Toy.env)))
      = EvManualSeed sd :: EvNextTrainBatch :: EvForward true true :: evs /\
    loop_trace (fst (training_iteration (Toy.with_cadences 1 (-1) 0 2 4 false "fp32")
                       Toy.env_lossy_gather Toy.other_proc 3
                       (Toy.start Toy.env_lossy_gather)))
      = EvManualSeed sd :: EvNextTrainBatch :: EvForward true true :: evs'.
Proof.
  destruct (@iteration_seed_deterministic _
              (Toy.with_cadences 2 2 2 2 4 true "tf32")
              (Toy.with_cadences 1 (-1) 0 2 4 false "fp32")
              Toy.env Toy.env_lossy_gather Toy.main_proc Toy.other_proc 3
              (Toy.start Toy.env) (Toy.start Toy.env_lossy_gather))
    as (evs & evs' & E1 & E2 & _).
  - reflexivity.
  - cbn. lia.
  - cbn. lia.
  - vm_compute. discriminate.
  - eexists. exists evs, evs'. split; [exact E1 | exact E2].
Defined.

Lemma gathered_count_mismatch_is_fatal_witness :
  snd (training_iteration (Toy.with_cadences 2 2 2 2 4 true "tf32")
         Toy.env_lossy_gather Toy.main_proc 2 (Toy.start Toy.env_lossy_gather))
    = Raise AssertionError.
Proof.
  destruct (@gathered_count_mismatch_is_fatal _ (Toy.with_cadences 2 2 2 2 4 true "tf32")
              Toy.env_lossy_gather Toy.main_proc 2 (Toy.start Toy.env_lossy_gather)
              (fst ((train_step (Toy.with_cadences 2 2 2 2 4 true "tf32")
                       Toy.env_lossy_gather 2 ;;
                     log_step (Toy.with_cadences 2 2 2 2 4 true "tf32") Toy.main_proc 2 ;;
                     collect_val_metrics (Toy.with_cadences 2 2 2 2 4 true "tf32")
                       Toy.env_lossy_gather Toy.main_proc 2)
                      (Toy.start Toy.env_lossy_gather)))
              [{| lddt_ca := 0x1.ccccccccccccdp-1%float; val_index := 1;
                  pdb_chain_id := "7abc_A" |}])
    as (e & Hit & Hass & _).
  - reflexivity.
  - cbn. discriminate.
  - reflexivity.
  - vm_compute. reflexivity.
  - cbn. discriminate.
  - rewrite Hit. cbn. f_equal. eapply Hass. reflexivity.
Defined.

Lemma loss_averaging_every_logged_iteration_witness :
  exists evs,
    loop_trace (fst (training_iteration (Toy.with_cadences 2 2 0 2 4 true "tf32")
                       Toy.env Toy.main_proc 1 (Toy.start Toy.env))) = evs /\
    filter is_reduce_losses evs = [EvReduceLossesAvg false].
Proof.
  destruct (@loss_averaging_every_logged_iteration _
              (Toy.with_cadences 2 2 0 2 4 true "tf32")
              Toy.env Toy.main_proc 1 (Toy.start Toy.env))
    as (evs & E & F).
  - cbn. lia.
  - vm_compute. discriminate.
  - exists evs. split; [exact E | exact F].
Defined.

(** C7, as stated, fails: in a distributed run with logging enabled and a
    window of two iterations, the accepted configuration below averages
    the losses at iteration 1, which does not close a window. *)
Lemma loss_averaging_inside_window :
  parse_args (Toy.with_cadences 2 2 0 2 4 true "tf32")
    = Ok (Toy.with_cadences 2 2 0 2 4 true "tf32") /\
  1 mod gradient_accumulation_iters (Toy.with_cadences 2 2 0 2 4 true "tf32") <> 0 /\
  loop_trace (fst (training_iteration (Toy.with_cadences 2 2 0 2 4 true "tf32")
                     Toy.env Toy.main_proc 1 (Toy.start Toy.env))) =
    [EvManualSeed 25; EvNextTrainBatch; EvForward true true; EvZeroGrad; EvBackward;
     EvReduceLossesAvg false; EvPrint "training {train_log}"; EvLrSchedulerStep].
Proof.
  split; [reflexivity |]. split; [cbn; discriminate | reflexivity].
Qed.

Lemma stop_decision_shared_by_all_ranks_witness :
  exists v sm records,
    until_broadcast (Toy.with_cadences 2 2 2 2 4 true "tf32") Toy.env Toy.main_proc 2
      (Toy.start Toy.env)
    = (sm, Ok (Some v,
               if (target_avg_lddt_ca_value (Toy.with_cadences 2 2 2 2 4 true "tf32") <=? v)%float
               then 1%float else 0%float)) /\
    mean_lddt_ca records = Ok v.
Proof.
  destruct (@stop_decision_shared_by_all_ranks _
              (Toy.with_cadences 2 2 2 2 4 true "tf32")
              (mkRank Toy.env Toy.main_proc (Toy.start Toy.env))
              [mkRank Toy.env Toy.other_proc (Toy.start Toy.env)] 2
              (map (fun r =>
                      training_iteration (Toy.with_cadences 2 2 2 2 4 true "tf32")
                        (set_broadcast_src 1%float (rank_env r))
                        (rank_proc r) 2 (rank_loop r))
                   [mkRank Toy.env Toy.main_proc (Toy.start Toy.env);
                    mkRank Toy.env Toy.other_proc (Toy.start Toy.env)]))
    as (v & sm & Hu & (s0 & local & records & _ & _ & _ & _ & Hmean) & _).
  - cbn. discriminate.
  - reflexivity.
  - repeat constructor.
  - cbn. discriminate.
  - reflexivity.
  - vm_compute. reflexivity.
  - exists v, sm, records. split; [exact Hu | exact Hmean].
Defined.

Example world_iteration_toy :
  option_map (map snd)
    (world_iteration (Toy.with_cadences 2 2 2 2 4 true "tf32")
       (mkRank Toy.env Toy.main_proc (Toy.start Toy.env))
       [mkRank Toy.env Toy.other_proc (Toy.start Toy.env)] 2)
  = Some [Ok Break; Ok Break].
Proof. reflexivity. Qed.

(** The end-to-end scenario of the specification: one process, ten
    iterations, validation and checkpoint every five, a target below the
    first validation score.  The run seeds the construction of the
    network, then iterations 1 to 5, advances the schedule four times,
    writes one checkpoint tagged with the score at iteration 5 and stops
    there. *)
Example end_to_end_stop_at_first_validation :
  (let '(t, r) := main (Toy.with_cadences 1 (-1) 5 5 10 false "tf32") Toy.env in
   (filter (fun e => is_save_checkpoint e || is_lr_step e || is_manual_seed e) t, r))
  = ([EvManualSeed 25;
      EvManualSeed 25; EvLrSchedulerStep; EvManualSeed 26; EvLrSchedulerStep;
      EvManualSeed 27; EvLrSchedulerStep; EvManualSeed 28; EvLrSchedulerStep;
      EvManualSeed 29;
      EvSaveCheckpoint 5 true (Some 0x1.ccccccccccccdp-1%float)],
     Ok tt).
Proof. vm_compute. reflexivity. Qed.

(** ** Construction and initialisation of the network *)

Section CreateModuleProperties.
Context `{OpenFold}.

(** X1: [create_alphafold_module] builds the network from generators
    seeded with [seed] alone, so the network does not depend on the state
    of the generators at the call; it returns the network in training
    mode and puts back the numpy generator, the torch CPU generator and
    the CUDA generator of [device].  The CUDA generators of the other
    devices are not put back: they are left as the constructor left them
    after the seeding.  The calls it makes on the generators are, in
    order: [np.random.seed(seed % NUMPY_SEED_MODULUS)],
    [torch.manual_seed(seed)], the construction, and the three
    restorations, CUDA first and numpy last. *)
Theorem create_alphafold_module_restores_rng
    (AlphaFold : Config -> rng_state -> rng_state * Params)
    (alphafold_config : Config) (device seed : Z) (s : init_state) :
  NUMPY_SEED_MODULUS <> 0 ->
  let seeded := {| numpy_rng := numpy_seeded (seed mod NUMPY_SEED_MODULUS);
                   torch_rng := torch_seeded seed;
                   cuda_rng := fun _ => cuda_seeded seed |} in
  exists s',
    create_alphafold_module AlphaFold alphafold_config device seed s =
      (s', Ok {| in_training := true;
                 weights := snd (AlphaFold alphafold_config seeded) |}) /\
    numpy_rng (generators s') = numpy_rng (generators s) /\
    torch_rng (generators s') = torch_rng (generators s) /\
    cuda_rng (generators s') device = cuda_rng (generators s) device /\
    (forall d, d <> device ->
       cuda_rng (generators s') d = cuda_rng (fst (AlphaFold alphafold_config seeded)) d) /\
    init_trace s' =
      (init_trace s ++
       [EvNumpySeed (seed mod NUMPY_SEED_MODULUS); EvManualSeed seed; EvCreate "AlphaFold";
        EvSetRngState "torch.cuda"; EvSetRngState "torch"; EvSetRngState "numpy"])%list.
Proof.
  intros HM seeded. unfold create_alphafold_module.
  rewrite mod_ok by assumption.
  unfold np_random_seed, torch_manual_seed, construct, torch_cuda_set_rng_state,
    torch_set_rng_state, np_random_set_state, tell, modify, set_generators,
    manual_seed, set_numpy_rng.
  cbn. fold seeded.
  destruct (AlphaFold alphafold_config seeded) as [r1 p] eqn:E.
  cbn. eexists. split; [reflexivity |]. cbn.
  split; [reflexivity |]. split; [reflexivity |]. split; [| split].
  - rewrite Z.eqb_refl. reflexivity.
  - intros d Hd. destruct (Z.eqb_spec d device); [contradiction | reflexivity].
  - rewrite <- !app_assoc. reflexivity.
Qed.

End CreateModuleProperties.

Lemma create_alphafold_module_restores_rng_witness :
  exists s',
    create_alphafold_module Toy.AlphaFold_drawing 5 0 (2 ^ 32 + 7)
      {| generators := Toy.rng0; init_trace := [] |} =
      (s', Ok {| in_training := true; weights := 5 + 7 + (2 ^ 32 + 8) + (2 ^ 32 + 9) |}) /\
    numpy_rng (generators s') = 100 /\
    torch_rng (generators s') = 200 /\
    cuda_rng (generators s') 0 = 300 /\
    init_trace s' =
      [EvNumpySeed 7; EvManualSeed (2 ^ 32 + 7); EvCreate "AlphaFold";
       EvSetRngState "torch.cuda"; EvSetRngState "torch"; EvSetRngState "numpy"].
Proof.
  destruct (@create_alphafold_module_restores_rng Toy.openfold Toy.AlphaFold_drawing
              5 0 (2 ^ 32 + 7) {| generators := Toy.rng0; init_trace := [] |})
    as (s' & E & Hn & Ht & Hc & _ & Htr).
  - vm_compute. discriminate.
  - exists s'. split; [exact E |]. split; [exact Hn |]. split; [exact Ht |].
    split; [exact Hc | exact Htr].
Defined.

Section InitializeProperties.
Context `{OpenFold}.

(** What the checkpoint dictionary hands to the network and to the
    optimizer (lines 306-314). *)
Lemma initialize_run
    (torch_load : string -> result (string -> option PyObj))
    (checkpoint_filepath : string) (verbose : bool)
    (checkpoint : string -> option PyObj) (s : loop_state) :
  torch_load checkpoint_filepath = Ok checkpoint ->
  initialize_parameters_from_checkpoint torch_load checkpoint_filepath verbose s =
    (let '(a, o) := match checkpoint "alphafold_state_dict",
                          checkpoint "optimizer_state_dict" with
                    | Some a, Some o => (a, o)
                    | _, _ => (PyDict checkpoint, PyNone)
                    end in
     when verbose
       (tell (EvPrint ("Initializing parameters from " ++ repr_path checkpoint_filepath
                       ++ "..."))) ;;
     load_alphafold a ;;
     when verbose
       (tell (EvPrint ("Parameters initialized from " ++ repr_path checkpoint_filepath
                       ++ " successfully!"))) ;;
     when (negb (is_none o))
       (when verbose
          (tell (EvPrint ("Initializing optimizer from " ++ repr_path checkpoint_filepath
                          ++ "..."))) ;;
        load_optimizer o ;;
        when verbose
          (tell (EvPrint ("Optimizer initialized from " ++ repr_path checkpoint_filepath
                          ++ " successfully!"))))) s.
Proof.
  intros E. unfold initialize_parameters_from_checkpoint, dict_mem, dict_getitem.
  rewrite E. rewrite bind_run. unfold lift at 1. cbv beta iota zeta.
  destruct (checkpoint "alphafold_state_dict"), (checkpoint "optimizer_state_dict");
    cbn [andb]; rewrite bind_run;
    cbn -[String.append repr_path when tell load_alphafold load_optimizer];
    reflexivity.
Qed.

(** X2: [initialize_parameters_from_checkpoint] takes the network's
    state from the entry "alphafold_state_dict" only when the checkpoint
    also has the entry "optimizer_state_dict"; otherwise it hands the
    whole checkpoint dictionary to the network, even one that has an
    "alphafold_state_dict" entry, and leaves the optimizer alone.  The
    optimizer is also left alone when its entry is there and is [None].
    The network is loaded first and keeps what its [load_state_dict]
    wrote, also when that call raises; the optimizer is then not touched.
    When the optimizer's loading raises, the optimizer is as that call
    left it.  A failing [torch.load] changes nothing.  Nothing else of
    the training state is written, every effect is a print, and [verbose]
    changes only what is printed. *)
Theorem initialize_parameters_from_checkpoint_dispatch
    (torch_load : string -> result (string -> option PyObj))
    (checkpoint_filepath : string) (verbose : bool) (s : loop_state) :
  let out := initialize_parameters_from_checkpoint torch_load checkpoint_filepath verbose s in
  match torch_load checkpoint_filepath with
  | Raise e => out = (s, Raise e)
  | Ok checkpoint =>
    let '(source, optimizer_source) :=
      match checkpoint "alphafold_state_dict", checkpoint "optimizer_state_dict" with
      | Some a, Some o => (a, o)
      | _, _ => (PyDict checkpoint, PyNone)
      end in
    let '(p, loaded) := alphafold_load_state_dict source (weights (alphafold s)) in
    weights (alphafold (fst out)) = p /\
    match loaded with
    | Raise e => snd out = Raise e /\ optimizer (fst out) = optimizer s
    | Ok _ =>
      if is_none optimizer_source
      then snd out = Ok tt /\ optimizer (fst out) = optimizer s
      else (optimizer (fst out), snd out)
           = optimizer_load_state_dict optimizer_source (optimizer s)
    end
  end /\
  in_training (alphafold (fst out)) = in_training (alphafold s) /\
  swa_alphafold (fst out) = swa_alphafold s /\
  grads (fst out) = grads s /\
  autograd (fst out) = autograd s /\
  lr_scheduler (fst out) = lr_scheduler s /\
  (exists evs, loop_trace (fst out) = (loop_trace s ++ evs)%list /\
               Forall (fun ev => exists m, ev = EvPrint m) evs /\
               (verbose = false -> evs = [])) /\
  set_loop_trace (loop_trace s) (fst out)
    = fst (initialize_parameters_from_checkpoint torch_load checkpoint_filepath false s) /\
  snd out = snd (initialize_parameters_from_checkpoint torch_load checkpoint_filepath false s).
Proof.
  cbv zeta.
  destruct (torch_load checkpoint_filepath) as [checkpoint | e] eqn:El.
  - rewrite (@initialize_run _ _ verbose _ s El), (@initialize_run _ _ false _ s El).
    destruct s as [af swa g op ag lr tl pl tr].
    set (entries := match checkpoint "alphafold_state_dict",
                          checkpoint "optimizer_state_dict" with
                    | Some a, Some o => (a, o)
                    | _, _ => (PyDict checkpoint, PyNone)
                    end).
    destruct entries as [a o].
    unfold load_alphafold, load_optimizer, tell, modify.
    cbn -[String.append repr_path].
    destruct (alphafold_load_state_dict a (weights af)) as [p [[] | e]] eqn:Ea;
      destruct verbose; cbn -[String.append repr_path]; rewrite ?Ea;
      cbn -[String.append repr_path];
      destruct (is_none o) eqn:En; cbn -[String.append repr_path];
      try (destruct (optimizer_load_state_dict o op) as [o' [[] | e']] eqn:Eo;
           cbn -[String.append repr_path]; rewrite ?Eo; cbn -[String.append repr_path]);
      repeat split; try reflexivity;
      eexists; (split; [rewrite <- ?app_assoc; cbn; try reflexivity;
                        symmetry; apply app_nil_r |]);
      (split; [repeat (constructor; [eexists; reflexivity |]); constructor
              | intros; try discriminate; reflexivity]).
  - unfold initialize_parameters_from_checkpoint. rewrite El.
    destruct s. cbn. repeat split; try reflexivity.
    exists []. cbn. rewrite app_nil_r. repeat split; auto.
Qed.

End InitializeProperties.

Example initialize_from_resumable_checkpoint :
  let out := initialize_parameters_from_checkpoint Toy.files "resumable.pt" false
               (Toy.start Toy.env) in
  (weights (alphafold (fst out)), optimizer (fst out), snd out) = (41, 42, Ok tt).
Proof. reflexivity. Qed.

(** A file with the network's entry only is taken for a bare state
    dictionary, which it is not. *)
Example initialize_from_half_checkpoint :
  let out := initialize_parameters_from_checkpoint Toy.files "half.pt" false
               (Toy.start Toy.env) in
  (weights (alphafold (fst out)), optimizer (fst out), snd out)
  = (0, 0, Raise (RuntimeError "Unexpected key(s) in state_dict")).
Proof. reflexivity. Qed.

(** An optimizer entry that is [None] is not loaded. *)
Example initialize_from_checkpoint_without_optimizer_state :
  let out := initialize_parameters_from_checkpoint Toy.files "none_optimizer.pt" true
               (Toy.start Toy.env) in
  (weights (alphafold (fst out)), optimizer (fst out), snd out, loop_trace (fst out))
  = (41, 0, Ok tt,
     [EvPrint "Initializing parameters from PosixPath('none_optimizer.pt')...";
      EvPrint "Parameters initialized from PosixPath('none_optimizer.pt') successfully!"]).
Proof. reflexivity. Qed.

(** A strict load that fails has written the entries it found. *)
Example initialize_from_partial_checkpoint :
  let out := initialize_parameters_from_checkpoint Toy.files "partial.pt" false
               (Toy.start Toy.env) in
  (weights (alphafold (fst out)), optimizer (fst out), snd out)
  = (40, 0, Raise (RuntimeError "Missing key(s) in state_dict")).
Proof. reflexivity. Qed.

(** ** Cadences of an accepted configuration *)

Lemma mod_0_trans (a b c : Z) : c <> 0 -> b <> 0 -> a mod b = 0 -> b mod c = 0 -> a mod c = 0.
Proof.
  intros Hc Hb Hab Hbc.
  apply Z.mod_divide in Hab; [| assumption]. apply Z.mod_divide in Hbc; [| assumption].
  apply Z.mod_divide; [assumption |]. eapply Z.divide_trans; eassumption.
Qed.

(** X3: in a configuration that [parse_args] accepts, every validation
    iteration closes an accumulation window, is a checkpoint iteration
    when checkpoints are enabled and a flush of the logs when logging is
    enabled; and every checkpoint iteration closes an accumulation window
    and, when logging is enabled, flushes the logs. *)
Theorem accepted_cadences_coincide (argv : Args) (iteration : Z) :
  parse_args argv = Ok argv ->
  (val_every_iters argv <> 0 ->
   iteration mod val_every_iters argv = 0 ->
   iteration mod gradient_accumulation_iters argv = 0 /\
   (0 < checkpoint_every_iters argv -> iteration mod checkpoint_every_iters argv = 0) /\
   (0 < log_every_iters argv -> iteration mod log_every_iters argv = 0)) /\
  (0 < checkpoint_every_iters argv ->
   iteration mod checkpoint_every_iters argv = 0 ->
   iteration mod gradient_accumulation_iters argv = 0 /\
   (0 < log_every_iters argv -> iteration mod log_every_iters argv = 0)).
Proof.
  intros Hok. apply parse_args_ok in Hok
    as (_ & _ & Hck & Hlog & HK & _ & Hv & Hc & _).
  split.
  - intros Hv0 Hit. split; [| split].
    + apply mod_0_trans with (b := val_every_iters argv); auto; lia.
    + intros Hpos. apply mod_0_trans with (b := val_every_iters argv); auto; lia.
    + intros Hpos. destruct (Hlog Hpos) as (Hvl & _).
      apply mod_0_trans with (b := val_every_iters argv); auto; lia.
  - intros Hpos Hit. split.
    + apply mod_0_trans with (b := checkpoint_every_iters argv); auto; lia.
    + intros Hl. destruct (Hlog Hl) as (_ & Hcl).
      apply mod_0_trans with (b := checkpoint_every_iters argv); auto; lia.
Qed.

Lemma accepted_cadences_coincide_witness :
  40 mod gradient_accumulation_iters (Toy.with_cadences 2 4 8 8 16 true "tf32") = 0 /\
  40 mod checkpoint_every_iters (Toy.with_cadences 2 4 8 8 16 true "tf32") = 0 /\
  40 mod log_every_iters (Toy.with_cadences 2 4 8 8 16 true "tf32") = 0.
Proof.
  destruct (@accepted_cadences_coincide (Toy.with_cadences 2 4 8 8 16 true "tf32") 40)
    as (Hval & _).
  - reflexivity.
  - destruct Hval as (HK & Hc & Hl).
    + cbn. discriminate.
    + reflexivity.
    + split; [exact HK |]. split; [apply Hc | apply Hl]; reflexivity.
Defined.

(** ** The run around the loop *)

Lemma range_nil (lo hi : Z) : hi <= lo -> range lo hi = [].
Proof.
  intros Hle. unfold range. replace (Z.to_nat (hi - lo)) with 0%nat by lia. reflexivity.
Qed.


Lemma range_snoc (lo hi : Z) : lo <= hi -> range lo (hi + 1) = (range lo hi ++ [hi])%list.
Proof.
  intros Hle. unfold range.
  replace (Z.to_nat (hi + 1 - lo)) with (Z.to_nat (hi - lo) + 1)%nat by lia.
  rewrite seq_app, map_app. cbn. f_equal. f_equal. lia.
Qed.

Section RunProperties.
Context `{OpenFold}.
Variables (args : Args) (env : Env) (proc : process).

(** The events of the constructions that follow the resume. *)
Lemma create_loaders_run (n : Z) (s : loop_state) :
  create_loaders args n s =
    (set_lr_scheduler (n + 1)
       (set_process_logs []
          (set_train_logs []
             (set_loop_trace
                (loop_trace s ++
                 (if distributed args then [EvCreate "DistributedDataParallel"] else []) ++
                 [EvCreate "InitialTrainingSampler"; EvCreate "ValidationSampler";
                  EvCreate "InitialTrainingDataloader"; EvCreate "ValidationDataloader";
                  EvCreate "AlphaFoldLRScheduler"]) s))),
     Ok (n + 1)).
Proof.
  unfold create_loaders, tell, modify. destruct s.
  destruct (distributed args); cbn; rewrite <- ?app_assoc; reflexivity.
Qed.

(** The set-up from the resume on. *)
Lemma training_setup_resume (s s1 : loop_state)
    (a w : nn_module Params) (o : OptState) (r : result Z) :
  create_objects args env proc s = (s1, Ok tt) ->
  resume_from_latest_checkpoint env (alphafold s1) (optimizer s1) (swa_alphafold s1)
    = ((a, o, w), r) ->
  training_setup args env proc s =
    let s2 := set_swa_alphafold w
                (set_optimizer o
                   (set_alphafold a
                      (set_loop_trace
                         (loop_trace s1 ++ [EvCreate "resume_from_latest_checkpoint"]) s1))) in
    match r with
    | Ok n =>
      match assert_divisible n (gradient_accumulation_iters args) with
      | Ok _ => create_loaders args n s2
      | Raise e => (s2, Raise e)
      end
    | Raise e => (s2, Raise e)
    end.
Proof.
  intros Ec Er. unfold training_setup. rewrite bind_run, Ec. cbv beta iota.
  rewrite (@bind_run loop_state _ _ (resume env) _ s1).
  unfold resume at 1. rewrite bind_run.
  unfold tell at 1, modify at 1. cbv beta iota. unfold resume_call.
  destruct s1 as [af swa g op ag lr tl pl tr].
  cbn -[assert_divisible create_loaders] in Er |- *. rewrite Er.
  destruct r as [n | e]; [| reflexivity].
  cbn -[assert_divisible create_loaders].
  destruct (assert_divisible n (gradient_accumulation_iters args)) as [[] | e]; reflexivity.
Qed.

(** X4: when the number of iterations that
    [resume_from_latest_checkpoint] returns is not a multiple of the
    accumulation window, [training] raises [AssertionError] right after
    the resume, before the loop: the network, the optimizer and the
    shadow are as the resume left them, and no effect follows the call. *)
Theorem misaligned_resume_is_fatal (s s1 : loop_state)
    (a w : nn_module Params) (o : OptState) (n : Z) :
  1 <= gradient_accumulation_iters args ->
  create_objects args env proc s = (s1, Ok tt) ->
  resume_from_latest_checkpoint env (alphafold s1) (optimizer s1) (swa_alphafold s1)
    = ((a, o, w), Ok n) ->
  n mod gradient_accumulation_iters args <> 0 ->
  training_run args env proc s =
    ({| alphafold := a;
        swa_alphafold := w;
        grads := grads s1;
        optimizer := o;
        autograd := autograd s1;
        lr_scheduler := lr_scheduler s1;
        train_logs := train_logs s1;
        process_logs := process_logs s1;
        loop_trace := loop_trace s1 ++ [EvCreate "resume_from_latest_checkpoint"] |},
     Raise AssertionError).
Proof.
  intros HK Ec Er Hmis.
  unfold training_run. rewrite bind_run, (training_setup_resume _ Ec Er). cbv zeta.
  rewrite assert_divisible_eq by lia.
  destruct (Z.eqb_spec (n mod gradient_accumulation_iters args) 0) as [| _];
    [contradiction |].
  destruct s1. reflexivity.
Qed.

(** X5: when the run resumes at or beyond the last iteration
    ([num_train_iters <= num_prev_iters]) the loop body is not executed:
    after the resume [training] only constructs the samplers, the
    dataloaders and the scheduler, enters the final barrier if the run is
    distributed, and returns; the network, the optimizer and the shadow
    are as the resume left them. *)
Theorem finished_run_does_nothing (s s1 : loop_state)
    (a w : nn_module Params) (o : OptState) (n : Z) :
  1 <= gradient_accumulation_iters args ->
  create_objects args env proc s = (s1, Ok tt) ->
  resume_from_latest_checkpoint env (alphafold s1) (optimizer s1) (swa_alphafold s1)
    = ((a, o, w), Ok n) ->
  n mod gradient_accumulation_iters args = 0 ->
  num_train_iters args <= n ->
  exists evs,
    training_run args env proc s =
      ({| alphafold := a;
          swa_alphafold := w;
          grads := grads s1;
          optimizer := o;
          autograd := autograd s1;
          lr_scheduler := n + 1;
          train_logs := [];
          process_logs := [];
          loop_trace := loop_trace s1 ++ [EvCreate "resume_from_latest_checkpoint"] ++ evs
                        ++ (if distributed args then [EvBarrier] else []) |},
       Ok tt) /\
    Forall (fun ev => exists what, ev = EvCreate what) evs.
Proof.
  intros HK Ec Er Hal Hdone.
  exists ((if distributed args then [EvCreate "DistributedDataParallel"] else []) ++
          [EvCreate "InitialTrainingSampler"; EvCreate "ValidationSampler";
           EvCreate "InitialTrainingDataloader"; EvCreate "ValidationDataloader";
           EvCreate "AlphaFoldLRScheduler"])%list.
  split.
  - unfold training_run. rewrite bind_run, (training_setup_resume _ Ec Er). cbv zeta.
    rewrite assert_divisible_eq by lia. rewrite Hal. cbn [Z.eqb].
    rewrite create_loaders_run. cbv beta iota.
    rewrite range_nil by lia.
    cbn [for_iterations]. destruct s1.
    destruct (distributed args); unfold tell, modify; cbn;
      rewrite <- ?app_assoc; cbn; rewrite ?app_nil_r; reflexivity.
  - destruct (distributed args); cbn;
      repeat (constructor; [eexists; reflexivity |]); constructor.
Qed.

End RunProperties.

(** ** The set-up *)

Section SetupProperties.
Context `{OpenFold}.
Variables (args : Args) (env : Env) (proc : process).

(** The network is built on the generators of the process, which the loop
    state does not follow. *)
Lemma create_module_run (device seed : Z) (s : loop_state) :
  NUMPY_SEED_MODULUS <> 0 ->
  with_generators env
    (create_alphafold_module (AlphaFold env) (alphafold_config env) device seed) s =
    (set_loop_trace
       (loop_trace s ++
        [EvNumpySeed (seed mod NUMPY_SEED_MODULUS); EvManualSeed seed; EvCreate "AlphaFold";
         EvSetRngState "torch.cuda"; EvSetRngState "torch"; EvSetRngState "numpy"]) s,
     Ok (created_network env seed)).
Proof.
  intros HM. unfold with_generators, create_alphafold_module, created_network, seeded.
  rewrite mod_ok by assumption.
  unfold np_random_seed, torch_manual_seed, construct, torch_cuda_set_rng_state,
    torch_set_rng_state, np_random_set_state, tell, modify, set_generators,
    manual_seed, set_numpy_rng.
  cbn.
  destruct (AlphaFold env (alphafold_config env) _) as [r1 p].
  cbn. rewrite <- !app_assoc. reflexivity.
Qed.

(** Lines 410-460, up to the optimizer. *)
Lemma create_objects_run (s : loop_state) :
  NUMPY_SEED_MODULUS <> 0 ->
  create_objects args env proc s =
    let created := created_network env (init_seed args) in
    let s0 :=
      {| alphafold := created;
         swa_alphafold := swa_alphafold s;
         grads := fresh_grads env;
         optimizer := Adam env (weights created);
         autograd := autograd s;
         lr_scheduler := lr_scheduler s;
         train_logs := train_logs s;
         process_logs := process_logs s;
         loop_trace := loop_trace s ++ network_events args |} in
    match
      match initialize_parameters_from args with
      | Some checkpoint_filepath =>
        initialize_parameters_from_checkpoint (torch_load env) checkpoint_filepath
          (is_main_process proc) s0
      | None => (s0, Ok tt)
      end
    with
    | (s1, Ok _) =>
      (set_swa_alphafold (AlphaFoldSWA env (alphafold s1))
         (set_loop_trace (loop_trace s1 ++ [EvCreate "AlphaFoldSWA"]) s1), Ok tt)
    | (s1, Raise e) => (s1, Raise e)
    end.
Proof.
  intros HM. unfold create_objects, network_events, init_seed, tell, modify.
  destruct s as [af swa g op ag lr tl pl tr].
  cbn -[with_generators create_alphafold_module initialize_parameters_from_checkpoint
        String.append Z.modulo created_network].
  rewrite create_module_run by assumption.
  cbn -[initialize_parameters_from_checkpoint String.append Z.modulo created_network].
  rewrite <- !app_assoc.
  cbn -[initialize_parameters_from_checkpoint String.append Z.modulo created_network].
  destruct (initialize_parameters_from args) as [path |].
  - destruct (initialize_parameters_from_checkpoint _ _ _ _) as [s1 [[] | e]];
      [| reflexivity].
    destruct s1. reflexivity.
  - reflexivity.
Qed.

Lemma create_objects_no_modulus (s : loop_state) :
  NUMPY_SEED_MODULUS = 0 ->
  create_objects args env proc s =
    (set_loop_trace
       (loop_trace s ++
        [EvCreate "AlphaFoldConfig"; EvCreate "InitialTrainingDataset";
         EvCreate "ValidationDataset"]) s,
     Raise ZeroDivisionError).
Proof.
  intros HM0. unfold create_objects, tell, modify.
  destruct s as [af swa g op ag lr tl pl tr].
  cbn -[with_generators create_alphafold_module initialize_parameters_from_checkpoint
        String.append Z.modulo].
  unfold with_generators, create_alphafold_module, mod_. rewrite HM0. cbn.
  rewrite <- !app_assoc. reflexivity.
Qed.

(** X16: every process builds the same network.  Without a checkpoint to
    initialise from, the objects that exist before the resume are: the
    network that the constructor returns under generators seeded with
    [get_seed_from_string("alphafold_init_" + seed)] alone, in training
    mode; an optimizer made from its parameters; and the shadow made from
    it.  None of them depends on the process (its rank, its device, the
    state of its generators) nor on anything the training state held
    before, and the set-up seeds numpy and torch once each, before the
    construction. *)
Theorem processes_build_the_same_network (s : loop_state) :
  NUMPY_SEED_MODULUS <> 0 ->
  initialize_parameters_from args = None ->
  let sd := get_seed_from_string ("alphafold_init_" ++ seed args) in
  let created :=
    {| in_training := true;
       weights := snd (AlphaFold env (alphafold_config env)
                         {| numpy_rng := numpy_seeded (sd mod NUMPY_SEED_MODULUS);
                            torch_rng := torch_seeded sd;
                            cuda_rng := fun _ => cuda_seeded sd |}) |} in
  exists s1,
    create_objects args env proc s = (s1, Ok tt) /\
    alphafold s1 = created /\
    optimizer s1 = Adam env (weights created) /\
    swa_alphafold s1 = AlphaFoldSWA env created /\
    grads s1 = fresh_grads env /\
    loop_trace s1 =
      (loop_trace s ++
       [EvCreate "AlphaFoldConfig"; EvCreate "InitialTrainingDataset";
        EvCreate "ValidationDataset";
        EvNumpySeed (sd mod NUMPY_SEED_MODULUS); EvManualSeed sd; EvCreate "AlphaFold";
        EvSetRngState "torch.cuda"; EvSetRngState "torch"; EvSetRngState "numpy";
        EvCreate "AlphaFoldLoss"; EvCreate "Adam"; EvCreate "AlphaFoldSWA"])%list.
Proof.
  intros HM Hnone sd created.
  rewrite create_objects_run by assumption. rewrite Hnone. cbv zeta.
  eexists. split; [reflexivity |].
  cbn -[String.append Z.modulo]. rewrite <- !app_assoc.
  repeat split; reflexivity.
Qed.

(** Two training states agree on what the set-up has assigned so far. *)
Lemma initialize_agree (path : string) (verbose : bool) (s s' : loop_state) :
  assigned_alike s s' ->
  let out := initialize_parameters_from_checkpoint (torch_load env) path verbose s in
  let out' := initialize_parameters_from_checkpoint (torch_load env) path verbose s' in
  snd out = snd out' /\
  assigned_alike (fst out) (fst out').
Proof.
  unfold assigned_alike.
  destruct s as [af swa g op ag lr tl pl tr], s' as [af' swa' g' op' ag' lr' tl' pl' tr'].
  cbn [alphafold grads optimizer autograd loop_trace]. intros (<- & <- & <- & <- & <-).
  cbv zeta.
  destruct (torch_load env path) as [checkpoint | e] eqn:El.
  - rewrite !(fun s0 => @initialize_run _ _ _ verbose _ s0 El).
    destruct (match checkpoint "alphafold_state_dict",
                    checkpoint "optimizer_state_dict" with
              | Some a, Some o => (a, o)
              | _, _ => (PyDict checkpoint, PyNone)
              end) as [a o].
    unfold load_alphafold, load_optimizer, tell, modify.
    cbn -[String.append repr_path].
    destruct (alphafold_load_state_dict a (weights af)) as [p [[] | e]] eqn:Ea;
      destruct verbose; cbn -[String.append repr_path]; rewrite ?Ea;
      cbn -[String.append repr_path];
      destruct (is_none o); cbn -[String.append repr_path];
      try (destruct (optimizer_load_state_dict o op) as [o' [[] | e']] eqn:Eo;
           cbn -[String.append repr_path]; rewrite ?Eo; cbn -[String.append repr_path]);
      repeat split; reflexivity.
  - unfold initialize_parameters_from_checkpoint. rewrite El. cbn. repeat split; reflexivity.
Qed.

(** X17: the set-up assigns before it reads.  When [training] is entered
    the variables of the training objects are unbound; here they are
    fields of the training state, and whatever these fields hold at the
    start has no influence on the run: two runs that start alike in the
    autograd switch and the effects made so far end alike, with the same
    effects, and when they return, in the same state. *)
Theorem setup_assigns_before_use (s s' : loop_state) :
  autograd s = autograd s' ->
  loop_trace s = loop_trace s' ->
  snd (training_run args env proc s) = snd (training_run args env proc s') /\
  loop_trace (fst (training_run args env proc s))
    = loop_trace (fst (training_run args env proc s')) /\
  (forall u, snd (training_run args env proc s) = Ok u ->
     fst (training_run args env proc s) = fst (training_run args env proc s')).
Proof.
  intros Hag Htr.
  destruct (Z.eq_dec NUMPY_SEED_MODULUS 0) as [HM0 | HM].
  { (* the seed of numpy cannot be computed *)
    unfold training_run, training_setup. rewrite !bind_assoc_run, !bind_run.
    rewrite !create_objects_no_modulus by assumption. cbn. rewrite Htr.
    repeat split; try reflexivity. intros u Hu. discriminate. }
  unfold training_run. rewrite !bind_run.
  unfold training_setup. rewrite !bind_run.
  rewrite !create_objects_run by assumption. cbv zeta.
  set (created := created_network env (init_seed args)).
  match goal with
  | |- context [initialize_parameters_from_checkpoint ?l _ ?v ?x] =>
      match goal with
      | |- context [initialize_parameters_from_checkpoint l _ v ?y] =>
          lazymatch x with
          | y => fail
          | _ => set (s0 := x); set (s0' := y)
          end
      end
  end.
  assert (assigned_alike s0 s0') as H0.
  { subst s0 s0'. unfold assigned_alike. cbn. rewrite Hag, Htr. repeat split; reflexivity. }
  assert (exists s1 s1' r,
            match initialize_parameters_from args with
            | Some checkpoint_filepath =>
              initialize_parameters_from_checkpoint (torch_load env) checkpoint_filepath
                (is_main_process proc) s0
            | None => (s0, Ok tt)
            end = (s1, r) /\
            match initialize_parameters_from args with
            | Some checkpoint_filepath =>
              initialize_parameters_from_checkpoint (torch_load env) checkpoint_filepath
                (is_main_process proc) s0'
            | None => (s0', Ok tt)
            end = (s1', r) /\
            assigned_alike s1 s1') as (s1 & s1' & r & -> & -> & H1).
  { destruct (initialize_parameters_from args) as [path |].
    - pose proof (initialize_agree path (is_main_process proc) H0) as (Hr & Ha).
      cbv zeta in Hr, Ha.
      destruct (initialize_parameters_from_checkpoint _ path _ s0) as [t r].
      destruct (initialize_parameters_from_checkpoint _ path _ s0') as [t' r'].
      cbn in Hr, Ha. subst r'. exists t, t', r. auto.
    - exists s0, s0', (Ok tt). auto. }
  destruct s1 as [af swa g op ag lr tl pl tr], s1' as [af' swa' g' op' ag' lr' tl' pl' tr'].
  unfold assigned_alike in H1. cbn in H1. destruct H1 as (<- & <- & <- & <- & <-).
  destruct r as [[] | e]; cbv beta iota;
    [| cbn; repeat split; try reflexivity; intros u Hu; discriminate].
  rewrite !bind_run. unfold resume. rewrite !bind_run.
  unfold tell at 1 2, modify at 1 2, resume_call. cbn -[assert_divisible create_loaders].
  destruct (resume_from_latest_checkpoint env af op (AlphaFoldSWA env af))
    as [[[a o] w] [n | e]];
    cbn -[assert_divisible create_loaders];
    [| repeat split; try reflexivity; intros u Hu; discriminate].
  destruct (assert_divisible n (gradient_accumulation_iters args)) as [[] | e];
    cbn -[create_loaders];
    [| repeat split; try reflexivity; intros u Hu; discriminate].
  rewrite !create_loaders_run. cbv beta iota. cbn [set_lr_scheduler set_process_logs
    set_train_logs set_loop_trace alphafold swa_alphafold grads optimizer autograd
    lr_scheduler train_logs process_logs loop_trace].
  repeat split; reflexivity.
Qed.

End SetupProperties.

Lemma processes_build_the_same_network_witness :
  exists s1 s2,
    create_objects (Toy.with_cadences 2 2 2 2 4 true "tf32") Toy.env_drawing Toy.main_proc
      (Toy.start Toy.env) = (s1, Ok tt) /\
    create_objects (Toy.with_cadences 1 (-1) 0 2 2 true "fp32") Toy.env_drawing Toy.other_proc
      (Toy.start Toy.env_resumed_at_3) = (s2, Ok tt) /\
    alphafold s1 = alphafold s2 /\
    weights (alphafold s1) = 5 + 25 + 26 + 27.
Proof.
  destruct (@processes_build_the_same_network _ (Toy.with_cadences 2 2 2 2 4 true "tf32")
              Toy.env_drawing Toy.main_proc (Toy.start Toy.env))
    as (s1 & E1 & A1 & _).
  - vm_compute. discriminate.
  - reflexivity.
  - destruct (@processes_build_the_same_network _
                (Toy.with_cadences 1 (-1) 0 2 2 true "fp32")
                Toy.env_drawing Toy.other_proc (Toy.start Toy.env_resumed_at_3))
      as (s2 & E2 & A2 & _).
    + vm_compute. discriminate.
    + reflexivity.
    + exists s1, s2. split; [exact E1 |]. split; [exact E2 |].
      rewrite A1, A2. split; reflexivity.
Defined.

Lemma setup_assigns_before_use_witness :
  snd (training_run (Toy.with_cadences 1 (-1) 5 5 10 false "tf32") Toy.env Toy.main_proc
         (unbound_state Toy.env []))
  = snd (training_run (Toy.with_cadences 1 (-1) 5 5 10 false "tf32") Toy.env Toy.main_proc
           (unbound_state Toy.env_drawing [])).
Proof.
  apply (@setup_assigns_before_use _ (Toy.with_cadences 1 (-1) 5 5 10 false "tf32")
           Toy.env Toy.main_proc (unbound_state Toy.env []) (unbound_state Toy.env_drawing []));
    reflexivity.
Defined.

(** ** More on one iteration *)

Ltac unfold_iteration :=
  unfold training_iteration, train_step, backward_pass, window_end, optimizer_step_,
    swa_update_, validate_and_finish, validation_block, validation_local,
    collect_val_metrics, aggregate, local_stop_flag, broadcast, finish_iteration,
    save_checkpoint, log_step, average_losses, update_logs.

(** The optimizer step destructures a pair before it writes the state. *)
Ltac effects_step :=
  effects;
  try (first [apply silent_modify | apply preserves_modify];
       intros ?st; destruct (optimizer_step _ _ _); reflexivity).

Section IterationProperties.
Context `{OpenFold}.
Variables (args : Args) (env : Env) (proc : process).

#[local] Hint Resolve run_validation_learned run_validation_lr : effects.
#[local] Hint Extern 1 (silent _ (run_validation _)) =>
  apply run_validation_silent; reflexivity : effects.

(** The logging of an iteration never raises. *)
Lemma log_step_ok (iteration : Z) (s : loop_state) :
  exists s', log_step args proc iteration s = (s', Ok tt).
Proof.
  unfold log_step, average_losses, update_logs, is_main_process_and_logging,
    is_logging_enabled.
  destruct (log_every_iters args >? 0) eqn:El.
  - rewrite mod_ok by (apply Z.gtb_lt in El; lia).
    destruct (distributed args), (save_process_logs args), (is_main_process proc);
      cbn -[String.append Z.modulo];
      destruct (iteration mod log_every_iters args =? 0);
      cbn -[String.append Z.modulo]; eexists; reflexivity.
  - destruct (distributed args), (save_process_logs args), (is_main_process proc);
      cbn; eexists; reflexivity.
Qed.


(** *** The scheduler and the seeds along the loop *)




(** X8: the loop enters its iterations in order and applies in each the
    seed of that iteration's number only: the seeds applied by a run are,
    in order, those of a prefix of its iterations (the iterations entered
    before a stop or an exception), and the seed of an iteration is a
    function of the seed string and the iteration's number alone. *)
Theorem loop_applies_consecutive_seeds (iterations : list Z) (s : loop_state) :
  1 <= gradient_accumulation_iters args ->
  TORCH_SEED_MODULUS <> 0 ->
  exists (n : nat) (evs : list event),
    (n <= List.length iterations)%nat /\
    (iterations <> [] -> (1 <= n)%nat) /\
    loop_trace (fst (for_iterations args env proc iterations s))
      = (loop_trace s ++ evs)%list /\
    filter is_manual_seed evs =
      map (fun i => EvManualSeed
                      ((get_seed_from_string ("training_seed_" ++ seed args) + i)
                       mod TORCH_SEED_MODULUS))
          (firstn n iterations).
Proof.
  intros HK HM. revert s. induction iterations as [| it rest IH]; intros s.
  - exists 0%nat, []. cbn. rewrite app_nil_r. repeat split; auto. intros Hn. contradiction.
  - destruct (@iteration_seed_applied _ args env proc it s HK HM) as (evs1 & E1 & F1).
    cbn [for_iterations]. rewrite bind_run.
    destruct (training_iteration args env proc it s) as [s1 [[|] | e]] eqn:Eit;
      cbn [fst] in E1.
    + destruct (IH s1) as (n & evs & Hn & _ & E & F).
      exists (S n), (EvManualSeed
                       ((get_seed_from_string ("training_seed_" ++ seed args) + it)
                        mod TORCH_SEED_MODULUS)
                     :: EvNextTrainBatch
                     :: EvForward (in_training (alphafold s)) (autograd s)
                     :: evs1 ++ evs)%list.
      split; [cbn; lia |]. split; [intros _; lia |]. split.
      * rewrite E, E1, <- app_assoc. reflexivity.
      * cbn [filter is_manual_seed firstn map]. rewrite filter_app, F1, F. reflexivity.
    + exists 1%nat. eexists. split; [cbn; lia |]. split; [intros _; lia |].
      split; [exact E1 |]. cbn. rewrite F1. reflexivity.
    + exists 1%nat. eexists. split; [cbn; lia |]. split; [intros _; lia |].
      split; [exact E1 |]. cbn. rewrite F1. reflexivity.
Qed.

(** *** What only the main process does *)

Lemma silent_for_iterations (p : event -> bool) :
  (forall iteration, silent p (training_iteration args env proc iteration)) ->
  forall iterations, silent p (for_iterations args env proc iterations).
Proof.
  intros Hit iterations. induction iterations as [| it rest IH]; cbn [for_iterations].
  - apply silent_ret.
  - apply silent_bind; [apply Hit |]. intros [|]; [exact IH | apply silent_ret].
Qed.

(** X9: a process that is not the main process prints nothing, writes no
    checkpoint and saves no log other than its own process log, in any
    iteration of the loop, however the loop ends. *)
Theorem other_processes_write_only_their_log (iterations : list Z) (s : loop_state) :
  is_main_process proc = false ->
  exists evs,
    loop_trace (fst (for_iterations args env proc iterations s))
      = (loop_trace s ++ evs)%list /\
    filter (foreign_write ("logs/" ++ process_name proc ++ ".log")) evs = [].
Proof.
  intros Hmain.
  refine (silent_for_iterations _ iterations s).
  intros iteration. unfold_iteration. unfold is_main_process_and_logging.
  rewrite Hmain. cbn [andb when].
  effects_step.
  all: apply silent_tell; cbn [foreign_write]; rewrite String.eqb_refl; reflexivity.
Qed.

(** *** Validation inside the loop *)

(** X10: the validation of the loop scores the averaged network when
    weight averaging is enabled and the live network otherwise: the
    records it returns are those of that network's parameters in
    evaluation mode, one forward pass per batch.  It leaves the network
    it scored in training mode and touches nothing else: not the other
    network (whose mode is not switched), not the gradients, the
    optimizer or the autograd switch. *)
Theorem validation_scores_averaged_network (s s' : loop_state) (l : list val_metrics) :
  run_validation env s = (s', Ok l) ->
  Forall2 (record_of (weights (if swa_enabled env then swa_alphafold s else alphafold s))
                     false)
          (firstn (dl_len (validation_dataloader env))
                  (dl_batches (validation_dataloader env))) l /\
  s' = (if swa_enabled env
        then set_swa_alphafold (train (swa_alphafold s))
        else set_alphafold (train (alphafold s)))
         (set_loop_trace
            (loop_trace s ++
             repeat (EvForward false false) (dl_len (validation_dataloader env))) s).
Proof.
  unfold run_validation.
  destruct (validation (validation_dataloader env) _) as [ns [l0 | e]] eqn:Ev;
    [| destruct (swa_enabled env); discriminate].
  apply validation_ok in Ev as (-> & HF). cbn in *.
  intros E. assert (l0 = l) as -> by (destruct (swa_enabled env); inversion E; reflexivity).
  split; [exact HF |].
  destruct (swa_enabled env), s; inversion E; reflexivity.
Qed.

(** *** The buffer of the training log *)

Lemma run_validation_train_logs : preserves train_logs (run_validation env).
Proof.
  intros s. destruct (run_validation_run env s) as (k & r & E). rewrite E.
  destruct (swa_enabled env); reflexivity.
Qed.

Lemma log_step_train_logs (iteration : Z) (s : loop_state) :
  0 < log_every_iters args ->
  is_main_process proc = true ->
  train_logs (fst (log_step args proc iteration s)) =
    if iteration mod log_every_iters args =? 0 then [] else (train_logs s ++ [iteration])%list.
Proof.
  intros Hlog Hmain.
  unfold log_step, average_losses, update_logs, is_main_process_and_logging,
    is_logging_enabled.
  rewrite Hmain. rewrite (proj2 (Z.gtb_lt _ _) Hlog).
  rewrite mod_ok by lia.
  destruct (distributed args), (save_process_logs args);
    cbn -[String.append Z.modulo];
    destruct (iteration mod log_every_iters args =? 0); reflexivity.
Qed.

(** X11: on the main process with logging enabled, the buffer of the
    training log holds the records of the iterations made since the last
    flush: if it does when an iteration starts, it does when the iteration
    ends (also when the iteration ends with an exception raised after its
    logging), and it is empty after every iteration that is a multiple of
    the log cadence. *)
Theorem train_log_buffer_since_last_flush (iteration : Z) (s : loop_state) :
  1 <= gradient_accumulation_iters args ->
  TORCH_SEED_MODULUS <> 0 ->
  0 < log_every_iters args ->
  is_main_process proc = true ->
  train_logs s = range (iteration - (iteration - 1) mod log_every_iters args) iteration ->
  train_logs (fst (training_iteration args env proc iteration s)) =
    range (iteration + 1 - iteration mod log_every_iters args) (iteration + 1).
Proof.
  intros HK HM Hlog Hmain Hinv.
  assert (preserves train_logs (train_step args env iteration)) as P1
    by (unfold_iteration; effects_step).
  assert (preserves train_logs (validate_and_finish args env proc iteration)) as P3
    by (pose proof run_validation_train_logs; unfold_iteration; effects_step).
  destruct (@train_step_run _ args env iteration s) as (s1 & E & _); [lia | assumption |].
  specialize (P1 s). rewrite E in P1. cbn [fst] in P1.
  destruct (log_step_ok iteration s1) as (s2 & E2).
  pose proof (log_step_train_logs iteration s1 Hlog Hmain) as L2.
  rewrite E2 in L2. cbn [fst] in L2.
  unfold training_iteration. rewrite bind_run, E. cbv beta iota.
  rewrite bind_run, E2. cbv beta iota.
  rewrite P3, L2, P1, Hinv.
  pose proof (Z.mod_pos_bound iteration (log_every_iters args) Hlog) as Hb.
  destruct (Z.eqb_spec (iteration mod log_every_iters args) 0) as [Hz | Hnz].
  - rewrite Hz. rewrite range_nil by lia. reflexivity.
  - assert ((iteration - 1) mod log_every_iters args
            = iteration mod log_every_iters args - 1) as Hpred.
    { symmetry.
      apply (Z.mod_unique _ _ (iteration / log_every_iters args)); [lia |].
      pose proof (Z.div_mod iteration (log_every_iters args)). lia. }
    rewrite Hpred.
    replace (iteration - (iteration mod log_every_iters args - 1))
      with (iteration + 1 - iteration mod log_every_iters args) by lia.
    symmetry. apply range_snoc. lia.
Qed.

(** *** The checkpoint of a validation iteration *)

(** X12: in a configuration accepted by [parse_args] with checkpoints
    enabled, every validation iteration that the main process carries to
    the point of the broadcast writes a checkpoint for that iteration,
    tagged as a validation checkpoint with the mean score just computed:
    [mean_lddt_ca] of the records of this iteration's validation pass
    (gathered, in a distributed run), of which there are as many as the
    validation set has samples.  The write is the last effect of the
    iteration but for the scheduler step of a run that continues, and the
    iteration closes an accumulation window. *)
Theorem validation_iteration_writes_checkpoint (iteration : Z) (s s1 : loop_state)
    (a : option float) (f0 : float) :
  parse_args args = Ok args ->
  is_main_process proc = true ->
  0 < checkpoint_every_iters args ->
  val_every_iters args <> 0 ->
  iteration mod val_every_iters args = 0 ->
  until_broadcast args env proc iteration s = (s1, Ok (a, f0)) ->
  exists (v : float) (before after : list event),
    a = Some v /\
    (exists (s0 : loop_state) (local records : list val_metrics),
       (train_step args env iteration ;; log_step args proc iteration) s = (s0, Ok tt) /\
       Forall2 (record_of (weights (if swa_enabled env
                                    then swa_alphafold s0 else alphafold s0)) false)
               (firstn (dl_len (validation_dataloader env))
                       (dl_batches (validation_dataloader env))) local /\
       records = (if distributed args
                  then dist_gather_val_metrics env iteration local else local) /\
       List.length records = validation_dataset_len env /\
       mean_lddt_ca records = Ok v) /\
    loop_trace (fst (training_iteration args env proc iteration s)) =
      (loop_trace s1 ++ before ++ [EvSaveCheckpoint iteration true (Some v)] ++ after)%list /\
    filter is_save_checkpoint before = [] /\
    (after = [] \/ after = [EvLrSchedulerStep]) /\
    iteration mod gradient_accumulation_iters args = 0.
Proof.
  intros Hok Hmain Hck Hv Hm Hu.
  apply parse_args_ok in Hok as (_ & _ & Hvc & _ & HK & _ & HvK & _).
  assert (iteration mod checkpoint_every_iters args = 0) as Hic.
  { apply mod_0_trans with (b := val_every_iters args); auto; lia. }
  assert (iteration mod gradient_accumulation_iters args = 0) as HiK.
  { apply mod_0_trans with (b := val_every_iters args); auto; lia. }
  pose proof Hu as El. apply until_broadcast_split in El as (s0 & E0 & El).
  destruct (@validation_local_mean _ args env proc iteration s0 s1 a f0 Hmain El)
    as (local & records & v & HF & Hrec & Hlen & Hmean & -> & _).
  assert (exists (s0 : loop_state) (local records : list val_metrics),
            (train_step args env iteration ;; log_step args proc iteration) s = (s0, Ok tt) /\
            Forall2 (record_of (weights (if swa_enabled env
                                         then swa_alphafold s0 else alphafold s0)) false)
                    (firstn (dl_len (validation_dataloader env))
                            (dl_batches (validation_dataloader env))) local /\
            records = (if distributed args
                       then dist_gather_val_metrics env iteration local else local) /\
            List.length records = validation_dataset_len env /\
            mean_lddt_ca records = Ok v) as Hscore
    by (exists s0, local, records; repeat split; assumption).
  rewrite (@training_iteration_closing _ args env proc iteration s s1 (Some v) f0 Hv Hm Hu).
  unfold closing_events, checkpoint_due.
  rewrite Hmain, Hic, (proj2 (Z.gtb_lt _ _) Hck). cbn [andb Z.eqb].
  exists v, ((if distributed args then [EvBroadcast] else []) ++ [EvEmptyCache])%list.
  destruct (tensor_bool _).
  - exists []. split; [reflexivity |]. split; [exact Hscore |].
    cbn [fst loop_trace set_loop_trace].
    split; [rewrite <- !app_assoc; reflexivity |].
    split; [destruct (distributed args); reflexivity |]. auto.
  - exists [EvLrSchedulerStep]. split; [reflexivity |]. split; [exact Hscore |].
    cbn [fst loop_trace set_loop_trace set_lr_scheduler].
    split; [rewrite <- !app_assoc; reflexivity |].
    split; [destruct (distributed args); reflexivity |]. auto.
Qed.

End IterationProperties.


(** ** The environment of a distributed run *)

(** X13: a distributed run needs its environment twice.  The rendezvous
    of [init_process_group] reads [RANK], [WORLD_SIZE], [MASTER_ADDR] and
    [MASTER_PORT]: when one of them is unset [training] raises
    [ValueError] there, with no process group and no effect at all.  When
    they are set and [LOCAL_RANK] is not, [training] raises
    [KeyError('LOCAL_RANK')] after the process group has been initialised
    and before anything is printed or a device is selected; this is the
    only [KeyError] that the start of [training] can raise, so the reads
    of [RANK] and [WORLD_SIZE] at lines 374-375 never fail.  A run that
    is not distributed does not read the environment. *)
Theorem missing_environment_variable_is_fatal (args : Args) (env env' : environ) :
  (distributed args = true ->
   (RANK env = None \/ WORLD_SIZE env = None \/
    MASTER_ADDR env = None \/ MASTER_PORT env = None ->
    exists msg, training_start args env fresh_process
                = (fresh_process, Raise (ValueError msg))) /\
   (RANK env <> None -> WORLD_SIZE env <> None ->
    MASTER_ADDR env <> None -> MASTER_PORT env <> None ->
    LOCAL_RANK env = None ->
    training_start args env fresh_process =
      ({| dist_initialized := true; startup_trace := [EvInitProcessGroup] |},
       Raise (KeyError "LOCAL_RANK"))) /\
   (forall st key,
      training_start args env fresh_process = (st, Raise (KeyError key)) ->
      key = "LOCAL_RANK")) /\
  (distributed args = false ->
   training_start args env fresh_process = training_start args env' fresh_process).
Proof.
  unfold training_start, select_process, init_process_group, fresh_process. split.
  - intros Hd. rewrite Hd. split; [| split].
    + intros Hmiss.
      destruct (RANK env), (WORLD_SIZE env), (MASTER_ADDR env), (MASTER_PORT env);
        try (destruct Hmiss as [? | [? | [? | ?]]]; discriminate);
        cbn -[String.append]; eexists; reflexivity.
    + intros H1 H2 H3 H4 H5.
      destruct (RANK env), (WORLD_SIZE env), (MASTER_ADDR env), (MASTER_PORT env);
        try contradiction.
      rewrite H5. reflexivity.
    + intros st key.
      destruct (RANK env) as [rk |], (WORLD_SIZE env), (MASTER_ADDR env), (MASTER_PORT env),
        (LOCAL_RANK env);
        cbn -[String.append str precision_settings]; try discriminate;
        try (intros E; inversion E; reflexivity).
      destruct (rk =? 0); cbn -[String.append str precision_settings];
        unfold precision_settings;
        destruct (String.eqb (precision args) "fp32"); try discriminate;
        destruct (String.eqb (precision args) "tf32"); try discriminate;
        destruct (existsb _ _); discriminate.
  - intros Hd. rewrite Hd. reflexivity.
Qed.

Lemma missing_environment_variable_is_fatal_witness :
  (exists msg,
     training_start (Toy.with_cadences 1 (-1) 0 2 2 true "tf32")
       {| RANK := Some 0; WORLD_SIZE := None; LOCAL_RANK := Some 0;
          MASTER_ADDR := Some "localhost"; MASTER_PORT := Some 29500 |} fresh_process
     = (fresh_process, Raise (ValueError msg))) /\
  training_start (Toy.with_cadences 1 (-1) 0 2 2 true "tf32")
    {| RANK := Some 0; WORLD_SIZE := Some 2; LOCAL_RANK := None;
       MASTER_ADDR := Some "localhost"; MASTER_PORT := Some 29500 |} fresh_process
  = ({| dist_initialized := true; startup_trace := [EvInitProcessGroup] |},
     Raise (KeyError "LOCAL_RANK")).
Proof.
  split.
  - apply (proj1 (proj1 (@missing_environment_variable_is_fatal
                           (Toy.with_cadences 1 (-1) 0 2 2 true "tf32")
                           {| RANK := Some 0; WORLD_SIZE := None; LOCAL_RANK := Some 0;
                              MASTER_ADDR := Some "localhost"; MASTER_PORT := Some 29500 |}
                           (os_environ Toy.env))
                        eq_refl)).
    right. left. reflexivity.
  - apply (proj1 (proj2 (proj1 (@missing_environment_variable_is_fatal
                                  (Toy.with_cadences 1 (-1) 0 2 2 true "tf32")
                                  {| RANK := Some 0; WORLD_SIZE := Some 2; LOCAL_RANK := None;
                                     MASTER_ADDR := Some "localhost";
                                     MASTER_PORT := Some 29500 |}
                                  (os_environ Toy.env))
                               eq_refl)));
      cbn; (discriminate || reflexivity).
Defined.

(** ** The further properties on concrete runs *)

Lemma misaligned_resume_is_fatal_witness :
  snd (training_run (Toy.with_cadences 2 2 2 2 4 false "tf32") Toy.env_resumed_at_3
         Toy.main_proc (unbound_state Toy.env_resumed_at_3 [])) = Raise AssertionError.
Proof.
  rewrite (@misaligned_resume_is_fatal _ (Toy.with_cadences 2 2 2 2 4 false "tf32")
             Toy.env_resumed_at_3 Toy.main_proc (unbound_state Toy.env_resumed_at_3 [])
             (fst (create_objects (Toy.with_cadences 2 2 2 2 4 false "tf32")
                     Toy.env_resumed_at_3 Toy.main_proc
                     (unbound_state Toy.env_resumed_at_3 [])))
             {| in_training := true; weights := 3 |} {| in_training := true; weights := 3 |}
             3 3).
  - reflexivity.
  - cbn. lia.
  - reflexivity.
  - reflexivity.
  - cbn. discriminate.
Defined.

Lemma finished_run_does_nothing_witness :
  snd (training_run (Toy.with_cadences 1 (-1) 0 2 3 false "tf32") Toy.env_resumed_at_3
         Toy.main_proc (unbound_state Toy.env_resumed_at_3 [])) = Ok tt.
Proof.
  destruct (@finished_run_does_nothing _ (Toy.with_cadences 1 (-1) 0 2 3 false "tf32")
              Toy.env_resumed_at_3 Toy.main_proc (unbound_state Toy.env_resumed_at_3 [])
              (fst (create_objects (Toy.with_cadences 1 (-1) 0 2 3 false "tf32")
                      Toy.env_resumed_at_3 Toy.main_proc
                      (unbound_state Toy.env_resumed_at_3 [])))
              {| in_training := true; weights := 3 |} {| in_training := true; weights := 3 |}
              3 3) as (evs & E & _).
  - cbn. lia.
  - reflexivity.
  - reflexivity.
  - reflexivity.
  - cbn. lia.
  - rewrite E. reflexivity.
Defined.


Lemma loop_applies_consecutive_seeds_witness :
  exists n evs,
    (1 <= n <= 3)%nat /\
    loop_trace (fst (for_iterations (Toy.with_cadences 1 (-1) 5 5 10 false "tf32") Toy.env
                       Toy.main_proc [1; 2; 3] (Toy.start Toy.env))) = evs /\
    filter is_manual_seed evs = map (fun i => EvManualSeed ((24 + i) mod 2 ^ 64))
                                    (firstn n [1; 2; 3]).
Proof.
  destruct (@loop_applies_consecutive_seeds _ (Toy.with_cadences 1 (-1) 5 5 10 false "tf32")
              Toy.env Toy.main_proc [1; 2; 3] (Toy.start Toy.env))
    as (n & evs & Hn & H1 & E & F).
  - cbn. lia.
  - vm_compute. discriminate.
  - exists n, evs. split; [| split; [exact E | exact F]].
    split; [apply H1; discriminate | exact Hn].
Defined.

Lemma other_processes_write_only_their_log_witness :
  exists evs,
    loop_trace (fst (for_iterations (Toy.with_cadences 2 2 2 2 4 true "tf32") Toy.env
                       Toy.other_proc [1; 2] (Toy.start Toy.env))) = evs /\
    filter (foreign_write "logs/dist_process_rank1.log") evs = [].
Proof.
  destruct (@other_processes_write_only_their_log _
              (Toy.with_cadences 2 2 2 2 4 true "tf32") Toy.env Toy.other_proc [1; 2]
              (Toy.start Toy.env)) as (evs & E & F).
  - reflexivity.
  - exists evs. split; [exact E | exact F].
Defined.

Lemma validation_scores_averaged_network_witness :
  Forall2 (record_of (weights (swa_alphafold (Toy.start Toy.env))) false)
          [Toy.sample 0; Toy.sample 1]
          [{| lddt_ca := 0x1.ccccccccccccdp-1%float; val_index := 0; pdb_chain_id := "7abc_A" |};
           {| lddt_ca := 0x1.ccccccccccccdp-1%float; val_index := 1; pdb_chain_id := "7abc_A" |}].
Proof.
  apply (@validation_scores_averaged_network _ Toy.env (Toy.start Toy.env)
           (fst (run_validation Toy.env (Toy.start Toy.env)))).
  reflexivity.
Defined.

Lemma train_log_buffer_since_last_flush_witness :
  train_logs (fst (training_iteration (Toy.with_cadences 1 3 0 3 6 false "tf32") Toy.env
                     Toy.main_proc 2 (set_train_logs [1] (Toy.start Toy.env))))
  = [1; 2].
Proof.
  apply (@train_log_buffer_since_last_flush _ (Toy.with_cadences 1 3 0 3 6 false "tf32")
           Toy.env Toy.main_proc 2 (set_train_logs [1] (Toy.start Toy.env))).
  - cbn. lia.
  - vm_compute. discriminate.
  - reflexivity.
  - reflexivity.
  - reflexivity.
Defined.

Lemma validation_iteration_writes_checkpoint_witness :
  exists v before after records,
    loop_trace (fst (training_iteration (Toy.with_cadences 2 2 2 2 4 true "tf32") Toy.env
                       Toy.main_proc 2 (Toy.start Toy.env))) =
      (loop_trace (fst (until_broadcast (Toy.with_cadences 2 2 2 2 4 true "tf32") Toy.env
                          Toy.main_proc 2 (Toy.start Toy.env)))
       ++ before ++ [EvSaveCheckpoint 2 true (Some v)] ++ after)%list /\
    mean_lddt_ca records = Ok v.
Proof.
  destruct (@validation_iteration_writes_checkpoint _
              (Toy.with_cadences 2 2 2 2 4 true "tf32") Toy.env Toy.main_proc 2
              (Toy.start Toy.env)
              (fst (until_broadcast (Toy.with_cadences 2 2 2 2 4 true "tf32") Toy.env
                      Toy.main_proc 2 (Toy.start Toy.env)))
              (Some 0x1.ccccccccccccdp-1%float) 1%float)
    as (v & before & after & _ & (s0 & local & records & _ & _ & _ & _ & Hmean) & E & _).
  - reflexivity.
  - reflexivity.
  - reflexivity.
  - cbn. discriminate.
  - reflexivity.
  - vm_compute. reflexivity.
  - exists v, before, after, records. split; [exact E | exact Hmean].
Defined.

(** ** The barrier at the end of the run *)

Section BarrierProperties.
Context `{OpenFold}.
Variables (args : Args) (env : Env) (proc : process).

#[local] Hint Extern 1 (silent _ (run_validation _)) =>
  apply run_validation_silent; reflexivity : effects.








End BarrierProperties.

(** ** Inference over several loaders *)

Section InferenceComposition.
Context `{DeepCam}.

(** X15: the predictions of [inference] depend on the parameters of the
    network and on the loader only, not on the mode or the effects the
    network arrives with, and the elements of the loader are predicted
    independently: a run over one loader followed by a run over a second,
    on the network the first run left, returns as a whole what a single
    run over the two loaders in sequence returns on any network with the
    same parameters. *)
Theorem inference_over_concatenated_loaders
    (loader1 loader2 : list (Inputs * Filename)) (s s2 : net_state NetParams) :
  weights (net s2) = weights (net s) ->
  exists p1 p2,
    snd (inference loader1 s) = Ok p1 /\
    snd (inference loader2 (fst (inference loader1 s))) = Ok p2 /\
    snd (inference (loader1 ++ loader2) s2) = Ok (p1 ++ p2)%list.
Proof.
  intros Hw. unfold inference, no_grad. cbn -[inference_loop].
  rewrite !inference_loop_run. cbn.
  do 2 eexists. split; [reflexivity |]. split; [reflexivity |].
  rewrite Hw, map_app. reflexivity.
Qed.

End InferenceComposition.

Lemma inference_over_concatenated_loaders_witness :
  exists p1 p2,
    snd (inference [(1, "a.h5")] Toy.net0) = Ok p1 /\
    snd (inference [(2, "b.h5")] (fst (inference [(1, "a.h5")] Toy.net0))) = Ok p2 /\
    snd (inference [(1, "a.h5"); (2, "b.h5")]
           {| net := {| in_training := false; weights := 7 |};
              grad_enabled := false;
              net_trace := [EvLogStart "earlier"] |}) = Ok (p1 ++ p2)%list.
Proof.
  apply (@inference_over_concatenated_loaders Toy.deepcam [(1, "a.h5")] [(2, "b.h5")]
           Toy.net0
           {| net := {| in_training := false; weights := 7 |};
              grad_enabled := false;
              net_trace := [EvLogStart "earlier"] |}).
  reflexivity.
Defined.
